(** * kubi: token issuance, verification and configuration loading

    A shallow embedding of [services] (token issuance and verification
    handlers) and [utils.MakeConfig], together with the fragments of the Go
    standard library and of [jwt-go] the handlers call, and the properties
    of the specification stated over that embedding. *)

From Stdlib Require Import ZArith NArith List String Ascii Bool Lia Floats.
From stdpp Require Import base option gmap strings.

Import ListNotations.
Local Open Scope string_scope.
Local Open Scope list_scope.

(** ** Go values

    A Go [string] and a Go [[]byte] are both byte sequences: [string].
    A call that can fault at run time (index out of range, nil
    dereference) or end the process ([log.Fatalf]) returns a [go]
    value. *)

Inductive panic : Type :=
| IndexOutOfRange (index len : nat)
| NilDereference
| Exit.

Inductive go (A : Type) : Type :=
| Ret (a : A)
| Panic (p : panic).
Arguments Ret {A} a.
Arguments Panic {A} p.

Definition bind {A B} (m : go A) (k : A -> go B) : go B :=
  match m with
  | Ret a => k a
  | Panic p => Panic p
  end.

Notation "'let*' x ':=' m 'in' k" := (bind m (fun x => k))
  (at level 10, x name, m at level 100, k at level 200).

(** [a[i]] on a slice: faults when [i] is out of range. *)
Definition index {A} (a : list A) (i : nat) : go A :=
  match nth_error a i with
  | Some x => Ret x
  | None => Panic (IndexOutOfRange i (List.length a))
  end.

(** [*p] on a pointer, [None] being nil. *)
Definition deref {A} (p : option A) : go A :=
  match p with
  | Some x => Ret x
  | None => Panic NilDereference
  end.

(** ** Package [strings] *)

Module GoStrings.

Definition HasPrefix (s prefix : string) : bool := String.prefix prefix s.

Fixpoint drop (n : nat) (s : string) : string :=
  match n, s with
  | S n', String _ s' => drop n' s'
  | _, _ => s
  end.

(** [m := Index(s, sep)] and then [s[:m]], [s[m+len(sep):]]: the text
    before and after the first occurrence of [sep], [None] when
    [Index] is negative. *)
Fixpoint cutAt (sep s : string) : option (string * string) :=
  if String.prefix sep s then Some ("", drop (String.length sep) s)
  else match s with
       | "" => None
       | String c s' =>
           match cutAt sep s' with
           | Some (a, b) => Some (String c a, b)
           | None => None
           end
       end.

(** [Count(s, sep)] for a non-empty [sep]: non-overlapping occurrences. *)
Fixpoint countFrom (fuel : nat) (sep s : string) : nat :=
  match fuel with
  | O => O
  | S fuel' =>
      match cutAt sep s with
      | Some (_, b) => S (countFrom fuel' sep b)
      | None => O
      end
  end.

Definition Count (s sep : string) : nat := countFrom (String.length s) sep s.

(** The loop of [genSplit] for a non-empty [sep] and [sepSave = 0]:
    at most [n] cuts, then the rest. *)
Fixpoint genSplit (n : nat) (sep s : string) : list string :=
  match n with
  | O => [s]
  | S n' =>
      match cutAt sep s with
      | Some (a, b) => a :: genSplit n' sep b
      | None => [s]
      end
  end.

(** [SplitN(s, sep, n)], [sep] not empty. *)
Definition SplitN (s sep : string) (n : Z) : list string :=
  if (n =? 0)%Z then []
  else if (n <? 0)%Z then genSplit (Count s sep) sep s
  else genSplit (Z.to_nat n - 1) sep s.

(** [Split(s, sep)] is [genSplit(s, sep, 0, -1)]. *)
Definition Split (s sep : string) : list string := SplitN s sep (-1).

Definition containsByte (cutset : string) (c : ascii) : bool :=
  existsb (Ascii.eqb c) (list_ascii_of_string cutset).

(** [TrimRight(s, cutset)]: [s] without its trailing bytes of [cutset]. *)
Fixpoint TrimRight (s cutset : string) : string :=
  match s with
  | "" => ""
  | String c s' =>
      match TrimRight s' cutset with
      | "" => if containsByte cutset c then "" else String c ""
      | t => String c t
      end
  end.

Fixpoint Repeat (s : string) (count : nat) : string :=
  match count with
  | O => ""
  | S k => s ++ Repeat s k
  end.

(** [s] with its byte at index [i] replaced by [c]: how a token is
    tampered with in the properties below. *)
Fixpoint replaceAt (i : nat) (c : ascii) (s : string) : string :=
  match s, i with
  | "", _ => ""
  | String _ s', O => String c s'
  | String d s', S i' => String d (replaceAt i' c s')
  end.

End GoStrings.

(** ** Package [encoding/base64]

    [Encoding] keeps the alphabet, the padding character and the strict
    flag; [decodeMap] is the inverse table Go builds from the alphabet.
    [CorruptInputError] offsets are not kept: the callers below only test
    the error against nil. *)

Module Base64.

Local Open Scope Z_scope.

Record Encoding : Type := {
  encodeTable : string;
  padChar : option ascii;
  strict : bool
}.

Definition encodeStd : string :=
  "ABCDEFGHIJKLMNOPQRSTUVWXYZabcdefghijklmnopqrstuvwxyz0123456789+/".
Definition encodeURL : string :=
  "ABCDEFGHIJKLMNOPQRSTUVWXYZabcdefghijklmnopqrstuvwxyz0123456789-_".

Definition StdPadding : ascii := "="%char.

Definition StdEncoding : Encoding :=
  {| encodeTable := encodeStd; padChar := Some StdPadding; strict := false |}.
Definition URLEncoding : Encoding :=
  {| encodeTable := encodeURL; padChar := Some StdPadding; strict := false |}.

Inductive corruptInput : Type := CorruptInputError.

Fixpoint indexByte (c : ascii) (s : string) (i : Z) : option Z :=
  match s with
  | "" => None
  | String d s' => if Ascii.eqb c d then Some i else indexByte c s' (i + 1)
  end.

(** [enc.decodeMap[in]], [None] standing for the entry [0xff]. *)
Definition decodeMap (enc : Encoding) (c : ascii) : option Z :=
  indexByte c (encodeTable enc) 0.

(** [enc.encode[i]]. *)
Definition encodeByte (enc : Encoding) (i : Z) : ascii :=
  match String.get (Z.to_nat i) (encodeTable enc) with
  | Some c => c
  | None => Ascii.zero
  end.

(** [byte(x)] keeps the low eight bits; [uint(b)] widens a byte. *)
Definition byte (x : Z) : ascii := ascii_of_N (Z.to_N (Z.land x 255)).

Definition uint (b : ascii) : Z := Z.of_N (N_of_ascii b).

Definition isNewline (c : ascii) : bool :=
  Ascii.eqb c "010"%char || Ascii.eqb c "013"%char.

Definition isPad (enc : Encoding) (c : ascii) : bool :=
  match padChar enc with
  | Some p => Ascii.eqb c p
  | None => false
  end.

(** The end of [decodeQuantum]: [dlen] six-bit values become
    [dlen - 1] bytes. *)
Definition quantumBytes (enc : Encoding) (dbuf : list Z) : option string :=
  let d i := nth i dbuf 0 in
  let val := Z.lor (Z.lor (Z.lor (Z.shiftl (d 0%nat) 18) (Z.shiftl (d 1%nat) 12))
                          (Z.shiftl (d 2%nat) 6)) (d 3%nat) in
  let b2 := byte (Z.shiftr val 0) in
  let b1 := byte (Z.shiftr val 8) in
  let b0 := byte (Z.shiftr val 16) in
  match List.length dbuf with
  | 4%nat => Some (String b0 (String b1 (String b2 "")))
  | 3%nat =>
      if strict enc && negb (Ascii.eqb b2 Ascii.zero) then None
      else Some (String b0 (String b1 ""))
  | 2%nat =>
      if strict enc && negb (Ascii.eqb b1 Ascii.zero && Ascii.eqb b2 Ascii.zero) then None
      else Some (String b0 "")
  | _ => Some ""
  end.

Fixpoint skipNewlines (s : string) : string :=
  match s with
  | String c s' => if isNewline c then skipNewlines s' else s
  | "" => ""
  end.

(** After the padding of a quantum: its bytes count, and anything left
    after newlines is trailing garbage. *)
Definition afterPadding (enc : Encoding) (dbuf : list Z) (rest : string)
  : string * option corruptInput :=
  match quantumBytes enc dbuf with
  | None => ("", Some CorruptInputError)
  | Some out =>
      match skipNewlines rest with
      | "" => (out, None)
      | _ => (out, Some CorruptInputError)
      end
  end.

(** [Decode]: the loop over [decodeQuantum]. [dbuf] holds the six-bit
    values of the quantum being read ([j] is its length). The result is
    the bytes decoded before the error, if any, and the error: what
    [DecodeString] returns as [dbuf[:n], err]. *)
Fixpoint decode (enc : Encoding) (src : string) (dbuf : list Z)
  : string * option corruptInput :=
  match src with
  | "" =>
      match dbuf with
      | [] => ("", None)
      | [_] => ("", Some CorruptInputError)
      | _ =>
          match padChar enc with
          | Some _ => ("", Some CorruptInputError)
          | None =>
              match quantumBytes enc dbuf with
              | Some out => (out, None)
              | None => ("", Some CorruptInputError)
              end
          end
      end
  | String c rest =>
      match decodeMap enc c with
      | Some v =>
          let dbuf' := dbuf ++ [v] in
          if (List.length dbuf' =? 4)%nat then
            match quantumBytes enc dbuf' with
            | Some out =>
                let '(more, err) := decode enc rest [] in ((out ++ more)%string, err)
            | None => ("", Some CorruptInputError)
            end
          else decode enc rest dbuf'
      | None =>
          if isNewline c then decode enc rest dbuf
          else if negb (isPad enc c) then ("", Some CorruptInputError)
          else
            match List.length dbuf with
            | 0%nat | 1%nat => ("", Some CorruptInputError)
            | 2%nat =>
                match skipNewlines rest with
                | "" => ("", Some CorruptInputError)
                | String c2 rest2 =>
                    if isPad enc c2 then afterPadding enc dbuf rest2
                    else ("", Some CorruptInputError)
                end
            | _ => afterPadding enc dbuf rest
            end
      end
  end.

Definition DecodeString (enc : Encoding) (s : string) : string * option corruptInput :=
  decode enc s [].

Definition sextet (val : Z) (shift : Z) : Z := Z.land (Z.shiftr val shift) 63.

Definition padding (enc : Encoding) (n : nat) : string :=
  match padChar enc with
  | Some p => GoStrings.Repeat (String p "") n
  | None => ""
  end.

(** [EncodeToString]: three bytes to four characters, the remainder of
    one or two bytes padded. *)
Fixpoint EncodeToString (enc : Encoding) (src : string) : string :=
  match src with
  | "" => ""
  | String a "" =>
      let val := Z.shiftl (uint a) 16 in
      String (encodeByte enc (sextet val 18))
        (String (encodeByte enc (sextet val 12)) (padding enc 2))
  | String a (String b "") =>
      let val := Z.lor (Z.shiftl (uint a) 16) (Z.shiftl (uint b) 8) in
      String (encodeByte enc (sextet val 18))
        (String (encodeByte enc (sextet val 12))
           (String (encodeByte enc (sextet val 6)) (padding enc 1)))
  | String a (String b (String c rest)) =>
      let val := Z.lor (Z.lor (Z.shiftl (uint a) 16) (Z.shiftl (uint b) 8))
                       (uint c) in
      String (encodeByte enc (sextet val 18))
        (String (encodeByte enc (sextet val 12))
           (String (encodeByte enc (sextet val 6))
              (String (encodeByte enc (sextet val 0))
                 (EncodeToString enc rest))))
  end.

(** The entry [n] of an alphabet decodes to [n] and is neither a newline
    nor the padding character. *)
Definition tableCheck (enc : Encoding) (n : nat) : bool :=
  let c := encodeByte enc (Z.of_nat n) in
  match decodeMap enc c with
  | Some v => (v =? Z.of_nat n) && negb (isNewline c) && negb (isPad enc c)
  | None => false
  end.

(** The value [val] that [decodeQuantum] assembles, as a sum. *)
Definition weight (dbuf : list Z) : Z :=
  nth 0 dbuf 0 * 262144 + nth 1 dbuf 0 * 4096 + nth 2 dbuf 0 * 64 + nth 3 dbuf 0.

Definition sextets (dbuf : list Z) : Prop := Forall (fun s => 0 <= s < 64) dbuf.

End Base64.

(** ** Package [time]

    An instant is its number of nanoseconds since the Unix epoch, a
    [Duration] a number of nanoseconds. *)

Module GoTime.

Local Open Scope Z_scope.

Definition Duration : Type := Z.
Definition Time : Type := Z.

Definition Nanosecond : Duration := 1.
Definition Microsecond : Duration := 1000 * Nanosecond.
Definition Millisecond : Duration := 1000 * Microsecond.
Definition Second : Duration := 1000 * Millisecond.
Definition Minute : Duration := 60 * Second.
Definition Hour : Duration := 60 * Minute.

Definition Add (t : Time) (d : Duration) : Time := t + d.

(** [t.Unix()]: whole seconds since the epoch, rounded down. *)
Definition Unix (t : Time) : Z := t / Second.

Definition isDigit (c : ascii) : bool :=
  (48 <=? N_of_ascii c)%N && (N_of_ascii c <=? 57)%N.

Definition digit (c : ascii) : Z := Z.of_N (N_of_ascii c) - 48.

Definition twoTo63 : Z := 2 ^ 63.

(** [leadingInt]: [None] is [errLeadingInt]. *)
Fixpoint leadingInt (s : string) (x : Z) : option (Z * string) :=
  match s with
  | String c s' =>
      if isDigit c then
        if x >? twoTo63 / 10 then None
        else
          let x' := x * 10 + digit c in
          if x' >? twoTo63 then None else leadingInt s' x'
      else Some (x, s)
  | "" => Some (x, "")
  end.

(** [leadingFraction]: digits past the precision of [x] are skipped. *)
Fixpoint leadingFraction (s : string) (x : Z) (scale : float) (overflow : bool)
  : Z * float * string :=
  match s with
  | String c s' =>
      if isDigit c then
        if overflow then leadingFraction s' x scale overflow
        else if x >? (twoTo63 - 1) / 10 then leadingFraction s' x scale true
        else
          let y := x * 10 + digit c in
          if y >? twoTo63 then leadingFraction s' x scale true
          else leadingFraction s' y (scale * 10)%float false
      else (x, scale, s)
  | "" => (x, scale, "")
  end.

(** The unit of a term: the bytes up to the next ['.'] or digit. *)
Fixpoint unitText (s : string) : string * string :=
  match s with
  | String c s' =>
      if Ascii.eqb c "."%char || isDigit c then ("", s)
      else let '(u, rest) := unitText s' in (String c u, rest)
  | "" => ("", "")
  end.

Definition micro : string := String "194"%char (String "181"%char "s").
Definition mu : string := String "206"%char (String "188"%char "s").

Definition unitMap (u : string) : option Z :=
  if String.eqb u "ns" then Some Nanosecond
  else if String.eqb u "us" then Some Microsecond
  else if String.eqb u micro then Some Microsecond
  else if String.eqb u mu then Some Microsecond
  else if String.eqb u "ms" then Some Millisecond
  else if String.eqb u "s" then Some Second
  else if String.eqb u "m" then Some Minute
  else if String.eqb u "h" then Some Hour
  else None.

(** [float64(x)] for an unsigned integer and [uint64(f)] for a float
    that is not negative. *)
Definition float64 (x : Z) : float :=
  SF2Prim (binary_normalize prec emax x 0 false).

Definition uint64 (f : float) : Z :=
  match Prim2SF f with
  | S754_finite false m e =>
      if (0 <=? e)%Z then Z.pos m * 2 ^ e else Z.pos m / 2 ^ (- e)
  | _ => 0
  end.

(** [quote(s)], for a text without quotes or escapes. *)
Definition quote (s : string) : string :=
  String "034"%char (s ++ String "034"%char "")%string.

(** The three errors of [ParseDuration], before the text is quoted into
    them. *)
Inductive durationError : Type :=
| invalidDuration
| missingUnit
| unknownUnit (u : string).

Definition errorText (orig : string) (e : durationError) : string :=
  match e with
  | invalidDuration => "time: invalid duration " ++ quote orig
  | missingUnit => "time: missing unit in duration " ++ quote orig
  | unknownUnit u => "time: unknown unit " ++ quote u ++ " in duration " ++ quote orig
  end.

(** One term of the loop of [ParseDuration]: digits, fraction, unit.
    The value [v] is a [uint64]; the fraction is added to it, and the
    sum checked, only when there is one. *)
Definition parseTerm (s : string) : durationError + Z * string :=
  match s with
  | "" => inl invalidDuration
  | String c0 _ =>
      if negb (Ascii.eqb c0 "."%char || isDigit c0) then inl invalidDuration
      else
        match leadingInt s 0 with
        | None => inl invalidDuration
        | Some (v, s1) =>
            let pre := negb (String.length s =? String.length s1)%nat in
            let '(f, scale, s2, post) :=
              match s1 with
              | String "." s1' =>
                  let '(f, scale, s2) := leadingFraction s1' 0 1%float false in
                  (f, scale, s2, negb (String.length s1' =? String.length s2)%nat)
              | _ => (0, 1%float, s1, false)
              end in
            if negb pre && negb post then inl invalidDuration
            else
              let '(u, s3) := unitText s2 in
              if String.eqb u "" then inl missingUnit
              else
                match unitMap u with
                | None => inl (unknownUnit u)
                | Some unit =>
                    if v >? twoTo63 / unit then inl invalidDuration
                    else
                      let v1 := v * unit in
                      if f >? 0 then
                        let v2 :=
                          (v1 + uint64 (float64 f * (float64 unit / scale))%float)
                            mod 2 ^ 64 in
                        if v2 >? twoTo63 then inl invalidDuration else inr (v2, s3)
                      else inr (v1, s3)
                end
        end
  end.

(** The loop of [ParseDuration]. The sum [d] is a [uint64]: [d += v]
    wraps at 2^64, which the sum of two terms of 2^63 reaches. *)
Fixpoint parseTerms (fuel : nat) (s : string) (d : Z) : durationError + Z :=
  match s with
  | "" => inr d
  | _ =>
      match fuel with
      | O => inl invalidDuration
      | S fuel' =>
          match parseTerm s with
          | inl e => inl e
          | inr (v, rest) =>
              let d' := (d + v) mod 2 ^ 64 in
              if d' >? twoTo63 then inl invalidDuration else parseTerms fuel' rest d'
          end
      end
  end.

(** [ParseDuration]: on error the duration returned is 0. Every term
    consumes at least one byte, so [length s] terms are enough. *)
Definition ParseDuration (s : string) : Duration * option string :=
  let failed (e : durationError) : Duration * option string :=
    (0, Some (errorText s e)) in
  let '(neg, s1) :=
    match s with
    | String "-" s' => (true, s')
    | String "+" s' => (false, s')
    | _ => (false, s)
    end in
  if String.eqb s1 "0" then (0, None)
  else if String.eqb s1 "" then failed invalidDuration
  else
    match parseTerms (String.length s1) s1 0 with
    | inl e => failed e
    | inr d =>
        if neg then (- d, None)
        else if d >? twoTo63 - 1 then failed invalidDuration
        else (d, None)
    end.

End GoTime.

(** ** Errors

    Go's [error] values: [errors.New] and [fmt.Errorf] texts, base64's
    [CorruptInputError], and jwt-go's [*ValidationError] with its inner
    error, its bit field and its text. [None : option error] is nil. *)

#[warnings="-register-all"]
Inductive error : Type :=
| errorString (msg : string)
| CorruptInput (e : Base64.corruptInput)
| ValidationError (Inner : option error) (Errors : N) (text : string).

Inductive result (A : Type) : Type :=
| Ok (a : A)
| Err (e : error).
Arguments Ok {A} a.
Arguments Err {A} e.

(** ** Package [types]

    The structs the handlers build and read, with the field names the
    handlers use. The [Name] fields of the cluster, context and user
    entries are [ClusterName], [ContextName] and [UserName] here, the
    [Cluster] and [User] fields of a context [ContextCluster] and
    [ContextUser]. *)

Module Types.

(** Modelled from the spec: the declaration of [types.NamespaceAndRole],
    the element of the grant list, is not with the sources; a grant is a
    namespace and a role. *)
Record NamespaceAndRole : Type := {
  Namespace : string;
  Role : string
}.

(** [jwt.StandardClaims]. *)
Record StandardClaims : Type := {
  Audience : string;
  ExpiresAt : Z;
  Id : string;
  IssuedAt : Z;
  Issuer : string;
  NotBefore : Z;
  Subject : string
}.

(** Modelled from the spec: the declaration of [types.AuthJWTClaims] is
    not with the sources. [generateUserToken] builds it positionally:
    the grants (read back as [claims.Auths]), the user name, the admin
    flag, then the embedded [jwt.StandardClaims]. *)
Record AuthJWTClaims : Type := {
  Auths : list NamespaceAndRole;
  User : string;
  AdminAccess : bool;
  Standard : StandardClaims
}.

Definition emptyStandardClaims : StandardClaims :=
  {| Audience := ""; ExpiresAt := 0; Id := ""; IssuedAt := 0; Issuer := "";
     NotBefore := 0; Subject := "" |}.

(** [&types.AuthJWTClaims{}]. *)
Definition emptyClaims : AuthJWTClaims :=
  {| Auths := []; User := ""; AdminAccess := false; Standard := emptyStandardClaims |}.

Record Auth : Type := {
  Username : string;
  Password : string
}.

Record LdapConfig : Type := {
  UserBase : string;
  GroupBase : string;
  AdminUserBase : string;
  AdminGroupBase : string;
  Host : string;
  Port : Z;
  UseSSL : bool;
  StartTLS : bool;
  SkipTLSVerification : bool;
  BindDN : string;
  BindPassword : string;
  UserFilter : string;
  GroupFilter : string;
  Attributes : list string
}.

(** [tls.Config] as [MakeConfig] fills it; a certificate pool is the
    list of PEM texts added to it. *)
Record TlsConfig : Type := {
  InsecureSkipVerify : bool;
  RootCAs : list string
}.

Record Config : Type := {
  Ldap : LdapConfig;
  KubeCa : string;
  KubeCaText : string;
  KubeToken : string;
  ApiServerURL : string;
  ApiServerTLSConfig : TlsConfig;
  TokenLifeTime : string
}.

Record KubeConfigClusterData : Type := {
  Server : string;
  CertificateData : string
}.

Record KubeConfigCluster : Type := {
  ClusterName : string;
  Cluster : KubeConfigClusterData
}.

Record KubeConfigContextData : Type := {
  ContextCluster : string;
  ContextUser : string
}.

Record KubeConfigContext : Type := {
  ContextName : string;
  ContextData : KubeConfigContextData
}.

Record KubeConfigUserToken : Type := {
  Token : string
}.

Record KubeConfigUser : Type := {
  UserName : string;
  UserToken : KubeConfigUserToken
}.

Record KubeConfig : Type := {
  ApiVersion : string;
  Kind : string;
  Clusters : list KubeConfigCluster;
  CurrentContext : string;
  Contexts : list KubeConfigContext;
  Users : list KubeConfigUser
}.

End Types.

Import Types.

(** ** Collaborators

    What the handlers call and this development does not define: the
    grant mapper and the directory client of the repository, the HMAC of
    [crypto/hmac], the JSON and YAML codecs, and the signing key the
    package reads once when it is initialised. *)

Inductive Hash : Type := SHA256 | SHA384 | SHA512.

Class Collaborators : Type := {
  (** [GetUserNamespaces(groups)] of package [services]. *)
  GetUserNamespaces : list string -> list NamespaceAndRole;
  (** [ldap.AuthenticateUser(username, password)]: a pointer, an error. *)
  AuthenticateUser : string -> string -> option string * option error;
  (** [ldap.GetUserGroups(userDN)]: the groups, an error. *)
  GetUserGroups : string -> list string * option error;
  (** [ldap.HasAdminAccess(userDN)]. *)
  HasAdminAccess : string -> bool;
  (** [hmac.New(h, key)], [Write(message)], [Sum(nil)]. *)
  hmacSum : Hash -> string -> string -> string;
  (** [json.Marshal] of a token header and of the claims. *)
  jsonMarshalHeader : gmap string string -> string;
  jsonMarshalClaims : AuthJWTClaims -> string;
  (** [json.Unmarshal] into the header map (its string entries) and the
      decoding of a payload into [*types.AuthJWTClaims]. *)
  jsonUnmarshalHeader : string -> result (gmap string string);
  jsonDecodeClaims : string -> result AuthJWTClaims;
  (** [yaml.Marshal(config)]. *)
  yamlMarshal : KubeConfig -> string * option error;
  (** [var signingKey, _ = ioutil.ReadFile(utils.TlsKeyPath)]. *)
  signingKey : string
}.

(** ** Package [jwt-go] *)

Module Jwt.

Definition ValidationErrorMalformed : N := N.shiftl 1 0.
Definition ValidationErrorUnverifiable : N := N.shiftl 1 1.
Definition ValidationErrorSignatureInvalid : N := N.shiftl 1 2.
Definition ValidationErrorAudience : N := N.shiftl 1 3.
Definition ValidationErrorExpired : N := N.shiftl 1 4.
Definition ValidationErrorIssuedAt : N := N.shiftl 1 5.
Definition ValidationErrorIssuer : N := N.shiftl 1 6.
Definition ValidationErrorNotValidYet : N := N.shiftl 1 7.
Definition ValidationErrorId : N := N.shiftl 1 8.
Definition ValidationErrorClaimsInvalid : N := N.shiftl 1 9.

Definition NewValidationError (errorText : string) (errorFlags : N) : error :=
  ValidationError None errorFlags errorText.

Definition ErrSignatureInvalid : error := errorString "signature is invalid".
Definition ErrInvalidKeyType : error := errorString "key is of invalid type".
Definition NoneSignatureTypeDisallowedError : error :=
  NewValidationError "'none' signature type is not allowed" ValidationErrorSignatureInvalid.

Inductive SigningMethod : Type :=
| SigningMethodHMAC (name : string) (hash : Hash)
| SigningMethodAsymmetric (name : string)
| SigningMethodNone.

Definition SigningMethodHS256 : SigningMethod := SigningMethodHMAC "HS256" SHA256.
Definition SigningMethodHS384 : SigningMethod := SigningMethodHMAC "HS384" SHA384.
Definition SigningMethodHS512 : SigningMethod := SigningMethodHMAC "HS512" SHA512.

Definition Alg (m : SigningMethod) : string :=
  match m with
  | SigningMethodHMAC name _ => name
  | SigningMethodAsymmetric name => name
  | SigningMethodNone => "none"
  end.

(** The methods the package registers when it is initialised. *)
Definition GetSigningMethod (alg : string) : option SigningMethod :=
  if String.eqb alg "HS256" then Some SigningMethodHS256
  else if String.eqb alg "HS384" then Some SigningMethodHS384
  else if String.eqb alg "HS512" then Some SigningMethodHS512
  else if existsb (String.eqb alg)
            ["RS256"; "RS384"; "RS512"; "PS256"; "PS384"; "PS512";
             "ES256"; "ES384"; "ES512"]
       then Some (SigningMethodAsymmetric alg)
  else if String.eqb alg "none" then Some SigningMethodNone
  else None.

Record Token : Type := {
  Raw : string;
  Method : option SigningMethod;
  Header : gmap string string;
  Claims : AuthJWTClaims;
  Signature : string;
  Valid : bool
}.

Definition EncodeSegment (seg : string) : string :=
  GoStrings.TrimRight (Base64.EncodeToString Base64.URLEncoding seg) "=".

(** The first lines of [DecodeSegment]: the padding is put back. *)
Definition padSegment (seg : string) : string :=
  let l := (String.length seg mod 4)%nat in
  if (0 <? l)%nat then (seg ++ GoStrings.Repeat "=" (4 - l))%string else seg.

Definition DecodeSegment (seg : string) : string * option Base64.corruptInput :=
  Base64.DecodeString Base64.URLEncoding (padSegment seg).

Definition verifyExp (exp now : Z) (required : bool) : bool :=
  if (exp =? 0)%Z then negb required else (now <=? exp)%Z.

Definition verifyIat (iat now : Z) (required : bool) : bool :=
  if (iat =? 0)%Z then negb required else (iat <=? now)%Z.

Definition verifyNbf (nbf now : Z) (required : bool) : bool :=
  if (nbf =? 0)%Z then negb required else (nbf <=? now)%Z.

Definition orFlag (cond : bool) (inner : error) (flag : N) (v : option error * N)
  : option error * N :=
  if cond then (Some inner, N.lor (snd v) flag) else v.

(** [StandardClaims.Valid], which [AuthJWTClaims] inherits by embedding;
    [now] is [TimeFunc()]. *)
Definition StandardClaimsValid (now : GoTime.Time) (c : StandardClaims) : option error :=
  let now := GoTime.Unix now in
  let v0 : option error * N := (None, 0%N) in
  let v1 := orFlag (negb (verifyExp (ExpiresAt c) now false))
              (errorString "token is expired") ValidationErrorExpired v0 in
  let v2 := orFlag (negb (verifyIat (IssuedAt c) now false))
              (errorString "Token used before issued") ValidationErrorIssuedAt v1 in
  let v3 := orFlag (negb (verifyNbf (NotBefore c) now false))
              (errorString "token is not valid yet") ValidationErrorNotValidYet v2 in
  if (snd v3 =? 0)%N then None else Some (ValidationError (fst v3) (snd v3) "").

(** The separator of the three segments. *)
Definition dot : ascii := "."%char.

(** A token read from [raw] with the HS512 header and [claims]. *)
Definition parsedToken (claims : AuthJWTClaims) (raw sig : string) (valid : bool) : Token :=
  {| Raw := raw; Method := Some SigningMethodHS512;
     Header := <["typ" := "JWT"]> (<["alg" := "HS512"]> ∅);
     Claims := claims; Signature := sig; Valid := valid |}.

(** The header [NewWithClaims] gives a token. *)
Definition headerOf (method : SigningMethod) : gmap string string :=
  <["typ" := "JWT"]> (<["alg" := Alg method]> ∅).

Section WithCollaborators.

Context `{Collaborators}.

(** [Sign] with a [[]byte] key. *)
Definition Sign (m : SigningMethod) (signingString key : string) : string * option error :=
  match m with
  | SigningMethodHMAC _ h => (EncodeSegment (hmacSum h key signingString), None)
  | SigningMethodAsymmetric _ => ("", Some ErrInvalidKeyType)
  | SigningMethodNone => ("", Some NoneSignatureTypeDisallowedError)
  end.

(** [Verify] with a [[]byte] key. *)
Definition Verify (m : SigningMethod) (signingString signature key : string)
  : option error :=
  match m with
  | SigningMethodHMAC _ h =>
      match DecodeSegment signature with
      | (_, Some e) => Some (CorruptInput e)
      | (sig, None) =>
          if String.eqb sig (hmacSum h key signingString) then None
          else Some ErrSignatureInvalid
      end
  | SigningMethodAsymmetric _ =>
      match DecodeSegment signature with
      | (_, Some e) => Some (CorruptInput e)
      | (_, None) => Some ErrInvalidKeyType
      end
  | SigningMethodNone => Some NoneSignatureTypeDisallowedError
  end.

(** [NewWithClaims(method, claims)]. *)
Definition NewWithClaims (method : SigningMethod) (claims : AuthJWTClaims) : Token :=
  {| Raw := "";
     Method := Some method;
     Header := headerOf method;
     Claims := claims;
     Signature := "";
     Valid := false |}.

Definition SigningString (t : Token) : string :=
  (EncodeSegment (jsonMarshalHeader (Header t)) ++ "." ++
   EncodeSegment (jsonMarshalClaims (Claims t)))%string.

Definition SignedString (t : Token) (key : string) : string * option error :=
  let sstr := SigningString t in
  match Method t with
  | None => ("", Some ErrInvalidKeyType)
  | Some m =>
      match Sign m sstr key with
      | (_, Some e) => ("", Some e)
      | (sig, None) => ((sstr ++ "." ++ sig)%string, None)
      end
  end.

(** [ParseUnverified]: the token read so far, the segments, the error. *)
Definition ParseUnverified (tokenString : string)
  : option Token * list string * option error :=
  let parts := GoStrings.Split tokenString "." in
  match parts with
  | [p0; p1; p2] =>
      let token := {| Raw := tokenString; Method := None; Header := ∅;
                      Claims := emptyClaims; Signature := ""; Valid := false |} in
      match DecodeSegment p0 with
      | (_, Some e) =>
          (Some token, parts, Some (ValidationError (Some (CorruptInput e)) ValidationErrorMalformed ""))
      | (headerBytes, None) =>
          match jsonUnmarshalHeader headerBytes with
          | Err e => (Some token, parts, Some (ValidationError (Some e) ValidationErrorMalformed ""))
          | Ok header =>
              let token := {| Raw := tokenString; Method := None; Header := header;
                              Claims := emptyClaims; Signature := ""; Valid := false |} in
              match DecodeSegment p1 with
              | (_, Some e) =>
                  (Some token, parts,
                   Some (ValidationError (Some (CorruptInput e)) ValidationErrorMalformed ""))
              | (claimBytes, None) =>
                  match jsonDecodeClaims claimBytes with
                  | Err e =>
                      (Some token, parts, Some (ValidationError (Some e) ValidationErrorMalformed ""))
                  | Ok claims =>
                      let token := {| Raw := tokenString; Method := None; Header := header;
                                      Claims := claims; Signature := ""; Valid := false |} in
                      match header !! "alg" with
                      | Some alg =>
                          match GetSigningMethod alg with
                          | Some method =>
                              (Some {| Raw := tokenString; Method := Some method;
                                       Header := header; Claims := claims;
                                       Signature := ""; Valid := false |}, parts, None)
                          | None =>
                              (Some token, parts,
                               Some (NewValidationError "signing method (alg) is unavailable."
                                       ValidationErrorUnverifiable))
                          end
                      | None =>
                          (Some token, parts,
                           Some (NewValidationError "signing method (alg) is unspecified."
                                   ValidationErrorUnverifiable))
                      end
                  end
              end
          end
      end
  | _ =>
      (None, parts,
       Some (NewValidationError "token contains an invalid number of segments"
               ValidationErrorMalformed))
  end.

(** [ParseWithClaims(tokenString, &types.AuthJWTClaims{}, keyFunc)] with
    a [keyFunc] that returns [key] and no error. *)
Definition ParseWithClaims (now : GoTime.Time) (tokenString key : string)
  : option Token * option error :=
  match ParseUnverified tokenString with
  | (token, _, Some err) => (token, Some err)
  | (None, _, None) => (None, None)
  | (Some token, parts, None) =>
      let '(vInner, vErrors) :=
        match StandardClaimsValid now (Standard (Claims token)) with
        | Some (ValidationError inner flags _) => (inner, flags)
        | Some e => (Some e, ValidationErrorClaimsInvalid)
        | None => (None, 0%N)
        end in
      let signature := nth 2 parts "" in
      let token := {| Raw := Raw token; Method := Method token; Header := Header token;
                      Claims := Claims token; Signature := signature; Valid := false |} in
      let signingString := (nth 0 parts "" ++ "." ++ nth 1 parts "")%string in
      let '(vInner, vErrors) :=
        match Method token with
        | None => (vInner, vErrors)
        | Some m =>
            match Verify m signingString signature key with
            | Some err => (Some err, N.lor vErrors ValidationErrorSignatureInvalid)
            | None => (vInner, vErrors)
            end
        end in
      if (vErrors =? 0)%N then
        (Some {| Raw := Raw token; Method := Method token; Header := Header token;
                 Claims := Claims token; Signature := signature; Valid := true |}, None)
      else (Some token, Some (ValidationError vInner vErrors ""))
  end.

End WithCollaborators.

End Jwt.

(** ** Package [net/http]

    A request is its headers (one value per key), host, body and peer
    address. A [ResponseWriter] keeps the handler's header map, whether
    the status line was written and with which code, the snapshot of the
    header map taken at that moment (changing the header map after
    [WriteHeader] or [Write] has no effect on what is sent) and the body
    written so far. A response whose handler returns without writing
    anything is sent with status 200. *)

Module Http.

Definition StatusOK : Z := 200.
Definition StatusCreated : Z := 201.
Definition StatusUnauthorized : Z := 401.

Record Request : Type := {
  RequestHeader : gmap string string;
  RequestHost : string;
  RequestBody : string;
  RemoteAddr : string
}.

(** [h.Get(key)]. *)
Definition Get (h : gmap string string) (key : string) : string :=
  default "" (h !! key).

Record ResponseWriter : Type := {
  handlerHeader : gmap string string;
  wroteHeader : bool;
  status : Z;
  sentHeader : gmap string string;
  body : string
}.

Definition newResponse : ResponseWriter :=
  {| handlerHeader := ∅; wroteHeader := false; status := 0; sentHeader := ∅; body := "" |}.

(** [w.WriteHeader(code)]: a second call is ignored. *)
Definition WriteHeader (code : Z) (w : ResponseWriter) : ResponseWriter :=
  if wroteHeader w then w
  else {| handlerHeader := handlerHeader w; wroteHeader := true; status := code;
          sentHeader := handlerHeader w; body := body w |}.

(** [w.Write(data)] and [io.WriteString(w, data)]: the status line is
    written with 200 first when it was not written yet. *)
Definition Write (data : string) (w : ResponseWriter) : ResponseWriter :=
  let w' := WriteHeader StatusOK w in
  {| handlerHeader := handlerHeader w'; wroteHeader := true; status := status w';
     sentHeader := sentHeader w'; body := (body w' ++ data)%string |}.

(** [w.Header().Set(key, value)]. *)
Definition HeaderSet (key value : string) (w : ResponseWriter) : ResponseWriter :=
  {| handlerHeader := <[key := value]> (handlerHeader w); wroteHeader := wroteHeader w;
     status := status w; sentHeader := sentHeader w; body := body w |}.

(** The status the client receives once the handler has returned. *)
Definition sentStatus (w : ResponseWriter) : Z :=
  if wroteHeader w then status w else StatusOK.

End Http.

(** ** Package [services] *)

Module Services.

Import GoStrings.

Section WithCollaborators.

Context `{Collaborators}.

(** [now] is the reading of [time.Now()], [config] the package variable
    [utils.Config], a pointer that is nil until [MakeConfig] gave one. *)
Definition generateUserToken (now : GoTime.Time) (config : option Config)
  (groups : list string) (username : string) (hasAdminAccess : bool)
  : go (string * option error) :=
  let auths := GetUserNamespaces groups in
  let* cfg := deref config in
  let '(duration, err) := GoTime.ParseDuration (TokenLifeTime cfg) in
  let time := GoTime.Add now duration in
  let claims :=
    {| Auths := auths;
       User := username;
       AdminAccess := hasAdminAccess;
       Standard :=
         {| Audience := ""; ExpiresAt := GoTime.Unix time; Id := ""; IssuedAt := 0;
            Issuer := "Kubi Server"; NotBefore := 0; Subject := "" |} |} in
  let token := Jwt.NewWithClaims Jwt.SigningMethodHS512 claims in
  let '(signedToken, err) := Jwt.SignedString token signingKey in
  Ret (signedToken, err).

(** What [generateUserToken] computes on the way: the expiry second, the
    claims, the text that is signed and its signature segment. *)
Definition expiry (now : GoTime.Time) (cfg : Config) : Z :=
  GoTime.Unix (GoTime.Add now (fst (GoTime.ParseDuration (TokenLifeTime cfg)))).

Definition issuedClaims (now : GoTime.Time) (cfg : Config) (groups : list string)
  (username : string) (hasAdminAccess : bool) : AuthJWTClaims :=
  {| Auths := GetUserNamespaces groups;
     User := username;
     AdminAccess := hasAdminAccess;
     Standard :=
       {| Audience := ""; ExpiresAt := expiry now cfg; Id := ""; IssuedAt := 0;
          Issuer := "Kubi Server"; NotBefore := 0; Subject := "" |} |}.

Definition headerSegment : string :=
  Jwt.EncodeSegment (jsonMarshalHeader (Jwt.headerOf Jwt.SigningMethodHS512)).

Definition payloadSegment (claims : AuthJWTClaims) : string :=
  Jwt.EncodeSegment (jsonMarshalClaims claims).

Definition signatureSegment (signingString : string) : string :=
  Jwt.EncodeSegment (hmacSum SHA512 signingKey signingString).

(** The token [generateUserToken] returns. *)
Definition issuedToken (now : GoTime.Time) (cfg : Config) (groups : list string)
  (username : string) (hasAdminAccess : bool) : string :=
  let signed :=
    (headerSegment ++ "." ++
     payloadSegment (issuedClaims now cfg groups username hasAdminAccess))%string in
  (signed ++ "." ++ signatureSegment signed)%string.

Definition baseGenerateToken (now : GoTime.Time) (config : option Config) (auth : Auth)
  : go (option string * option error) :=
  let '(userDN, err) := AuthenticateUser (Username auth) (Password auth) in
  match err with
  | Some e => Ret (None, Some e)
  | None =>
      let* dn := deref userDN in
      let '(groups, err) := GetUserGroups dn in
      match err with
      | Some e => Ret (None, Some e)
      | None =>
          let* issued :=
            generateUserToken now config groups (Username auth) (HasAdminAccess dn) in
          let '(token, err) := issued in
          match err with
          | Some e => Ret (None, Some e)
          | None => Ret (Some token, None)
          end
      end
  end.

Definition basicAuth (r : Http.Request) : go (option error * option Auth) :=
  let auth := SplitN (Http.Get (Http.RequestHeader r) "Authorization") " " 2 in
  let* bad :=
    if negb (List.length auth =? 2)%nat then Ret true
    else let* scheme := index auth 0 in Ret (negb (String.eqb scheme "Basic")) in
  if bad : bool then Ret (Some (errorString "Invalid Auth"), None)
  else
    let* encoded := index auth 1 in
    let '(payload, _) := Base64.DecodeString Base64.StdEncoding encoded in
    let pair := SplitN payload ":" 2 in
    let* username := index pair 0 in
    let* password := index pair 1 in
    Ret (None, Some {| Username := username; Password := password |}).

Definition invalidCredentials : string := "Basic Auth: Invalid credentials".

(** A handler returns the response writer as it leaves it and whether it
    returned or faulted. *)
Definition GenerateJWT (now : GoTime.Time) (config : option Config)
  (w : Http.ResponseWriter) (r : Http.Request) : Http.ResponseWriter * go unit :=
  match basicAuth r with
  | Panic p => (w, Panic p)
  | Ret (err, auth) =>
      let w :=
        match err with
        | Some _ => Http.Write invalidCredentials (Http.WriteHeader Http.StatusUnauthorized w)
        | None => w
        end in
      match deref auth with
      | Panic p => (w, Panic p)
      | Ret a =>
          match baseGenerateToken now config a with
          | Panic p => (w, Panic p)
          | Ret (token, err) =>
              match token with
              | Some t => (Http.Write t (Http.WriteHeader Http.StatusOK w), Ret tt)
              | None => (w, Ret tt)
              end
          end
      end
  end.

(** The document [GenerateConfig] builds before it serialises it. *)
Definition kubeConfig (host kubeCa username token : string) : KubeConfig :=
  {| ApiVersion := "v1";
     Kind := "Config";
     Clusters :=
       [ {| ClusterName := "kubernetes";
            Cluster := {| Server := ("https://" ++ host)%string;
                          CertificateData := kubeCa |} |} ];
     CurrentContext := ("kubernetes" ++ "-" ++ username)%string;
     Contexts :=
       [ {| ContextName := ("kubernetes" ++ "-" ++ username)%string;
            ContextData := {| ContextCluster := "kubernetes";
                              ContextUser := username |} |} ];
     Users :=
       [ {| UserName := username; UserToken := {| Token := token |} |} ] |}.

Definition GenerateConfig (now : GoTime.Time) (config : option Config)
  (w : Http.ResponseWriter) (r : Http.Request) : Http.ResponseWriter * go unit :=
  match basicAuth r with
  | Panic p => (w, Panic p)
  | Ret (err, auth) =>
      let w :=
        match err with
        | Some _ => Http.Write invalidCredentials (Http.WriteHeader Http.StatusUnauthorized w)
        | None => w
        end in
      match deref auth with
      | Panic p => (w, Panic p)
      | Ret a =>
          match baseGenerateToken now config a with
          | Panic p => (w, Panic p)
          | Ret (token, Some _) => (Http.WriteHeader Http.StatusUnauthorized w, Ret tt)
          | Ret (token, None) =>
              match (let* cfg := deref config in
                     let* t := deref token in
                     Ret (kubeConfig (Http.RequestHost r) (KubeCa cfg) (Username a) t)) with
              | Panic p => (w, Panic p)
              | Ret document =>
                  let '(yml, err) := yamlMarshal document in
                  let w := Http.WriteHeader Http.StatusCreated w in
                  let w := Http.HeaderSet "Content-Type" "text/x-yaml; charset=utf-8" w in
                  (Http.Write yml w, Ret tt)
              end
          end
      end
  end.

Definition VerifyJWT (now : GoTime.Time) (w : Http.ResponseWriter) (r : Http.Request)
  : Http.ResponseWriter * go unit :=
  let bodyString := Http.RequestBody r in
  let '(token, err) := Jwt.ParseWithClaims now bodyString signingKey in
  match deref token with
  | Panic p => (w, Panic p)
  | Ret _ => (Http.WriteHeader Http.StatusOK w, Ret tt)
  end.

Definition bearerPrefix : string := "Bearer ".

(** Lines 160 to 165 of [CurrentJWT]: the token text taken from the
    header, or the error. *)
Definition bearerToken (r : Http.Request) : go (result string) :=
  let bearer := Http.Get (Http.RequestHeader r) "Authorization" in
  if negb (HasPrefix bearer bearerPrefix) || (String.length bearer <? 8)%nat then
    Ret (Err (errorString ("Invalid Authorization Header: " ++ bearer)%string))
  else
    let splitToken := Split bearer bearerPrefix in
    let* bearer := index splitToken 1 in
    Ret (Ok bearer).

Definition CurrentJWT (now : GoTime.Time) (w : Http.ResponseWriter) (r : Http.Request)
  : go (option AuthJWTClaims * option error) :=
  let* extracted := bearerToken r in
  match extracted with
  | Err e => Ret (None, Some e)
  | Ok bearer =>
      let '(token, err) := Jwt.ParseWithClaims now bearer signingKey in
      match err with
      | Some e => Ret (None, Some e)
      | None =>
          let* tok := deref token in
          if Jwt.Valid tok then Ret (Some (Jwt.Claims tok), None)
          else Panic NilDereference
      end
  end.

End WithCollaborators.

End Services.

(** ** Package [strconv] *)

Module Strconv.

Local Open Scope Z_scope.

Fixpoint digits (s : string) (acc : Z) : option Z :=
  match s with
  | "" => Some acc
  | String c s' =>
      if GoTime.isDigit c then digits s' (acc * 10 + GoTime.digit c) else None
  end.

(** [Atoi(s)]: a decimal integer with an optional sign; 0 and an error on
    a syntax error, the nearest bound and an error out of the range of
    [int]. *)
Definition Atoi (s : string) : Z * option error :=
  let syntax :=
    (0, Some (errorString ("strconv.Atoi: parsing " ++ GoTime.quote s ++ ": invalid syntax")%string)) in
  let range (v : Z) :=
    (v, Some (errorString ("strconv.Atoi: parsing " ++ GoTime.quote s ++ ": value out of range")%string)) in
  let '(neg, s1) :=
    match s with
    | String "-" s' => (true, s')
    | String "+" s' => (false, s')
    | _ => (false, s)
    end in
  match s1 with
  | "" => syntax
  | _ =>
      match digits s1 0 with
      | None => syntax
      | Some n =>
          if neg then
            if n >? 2 ^ 63 then range (- 2 ^ 63) else (- n, None)
          else
            if n >? 2 ^ 63 - 1 then range (2 ^ 63 - 1) else (n, None)
      end
  end.

Definition ParseBool (str : string) : bool * option error :=
  if existsb (String.eqb str) ["1"; "t"; "T"; "TRUE"; "true"; "True"]%string then (true, None)
  else if existsb (String.eqb str) ["0"; "f"; "F"; "FALSE"; "false"; "False"]%string
       then (false, None)
  else (false, Some (errorString ("strconv.ParseBool: parsing " ++ GoTime.quote str
                                  ++ ": invalid syntax")%string)).

End Strconv.

(** ** Package [ozzo-validation]

    [ValidateStruct] checks the listed fields only, each against its
    rules in order, and returns nil when none fails. Every rule but
    [Required] accepts an empty value. *)

Module Validation.

Inductive Rule : Type :=
| Required
| Length (min max : nat)
| Is (name : string) (check : string -> bool).

Definition ruleError (r : Rule) (value : string) : option string :=
  match r with
  | Required => if String.eqb value "" then Some "cannot be blank" else None
  | Length min max =>
      let n := String.length value in
      if String.eqb value "" then None
      else if (n <? min)%nat || ((0 <? max)%nat && (max <? n)%nat)
           then Some "the length is out of range"
      else None
  | Is name check =>
      if String.eqb value "" then None
      else if check value then None
      else Some ("must be a valid " ++ name)%string
  end.

Fixpoint firstError (rules : list Rule) (value : string) : option string :=
  match rules with
  | [] => None
  | r :: rules' =>
      match ruleError r value with
      | Some msg => Some msg
      | None => firstError rules' value
      end
  end.

Record FieldRules : Type := Field {
  fieldName : string;
  fieldValue : string;
  fieldRules : list Rule
}.

Fixpoint fieldErrors (fields : list FieldRules) : list (string * string) :=
  match fields with
  | [] => []
  | f :: fields' =>
      match firstError (fieldRules f) (fieldValue f) with
      | Some msg => (fieldName f, msg) :: fieldErrors fields'
      | None => fieldErrors fields'
      end
  end.

Definition errorsText (errs : list (string * string)) : string :=
  String.concat "; " (map (fun e => (fst e ++ ": " ++ snd e)%string) errs).

Definition ValidateStruct (fields : list FieldRules) : option error :=
  match fieldErrors fields with
  | [] => None
  | errs => Some (errorString (errorsText errs ++ ".")%string)
  end.

End Validation.

(** ** Package [utils] *)

(** What [MakeConfig] reads and calls and this development does not
    define: files, the system certificate pool, whether a PEM text holds
    a certificate, the [is.URL] and [is.Base64] checks, and the package's
    own constants and helpers [TokenFile], [TlsCaFile], [check],
    [checkf] and [getEnv]. *)
Class Startup : Type := {
  ReadFile : string -> string * option error;
  SystemCertPool : option (list string);
  pemHasCertificate : string -> bool;
  isURL : string -> bool;
  isBase64 : string -> bool;
  TokenFile : string;
  TlsCaFile : string;
  check : option error -> go unit;
  checkf : option error -> string -> go unit;
  getEnv : gmap string string -> string -> string -> string
}.

Module Utils.

Import Validation.

Definition ErrNotInCluster : error :=
  errorString "unable to load in-cluster configuration, KUBERNETES_SERVICE_HOST and KUBERNETES_SERVICE_PORT must be defined".

(** [os.Getenv(key)]. *)
Definition Getenv (env : gmap string string) (key : string) : string :=
  default "" (env !! key).

(** [net.JoinHostPort(host, port)]: a host with a colon or a percent sign
    is taken for an IPv6 literal. *)
Definition JoinHostPort (host port : string) : string :=
  if GoStrings.containsByte host ":"%char || GoStrings.containsByte host "%"%char
  then ("[" ++ host ++ "]:" ++ port)%string
  else (host ++ ":" ++ port)%string.

Section WithStartup.

Context `{Startup}.

(** Lines 27 to 108: the two structs built from the environment. *)
Definition buildConfig (env : gmap string string) : go (result (Config * LdapConfig)) :=
  let host := Getenv env "KUBERNETES_SERVICE_HOST" in
  let port := Getenv env "KUBERNETES_SERVICE_PORT" in
  if (String.length host =? 0)%nat || (String.length port =? 0)%nat then
    Ret (Err ErrNotInCluster)
  else
    let '(kubeToken, errToken) := ReadFile TokenFile in
    let* _ := check errToken in
    let '(kubeCA, errCA) := ReadFile TlsCaFile in
    let* _ := check errCA in
    let caEncoded := Base64.EncodeToString Base64.StdEncoding kubeCA in
    let rootCAs := match SystemCertPool with Some pool => pool | None => [] end in
    if negb (pemHasCertificate kubeCA) then Panic Exit
    else
      let rootCAs := (rootCAs ++ [kubeCA])%list in
      let tlsConfig := {| InsecureSkipVerify := false; RootCAs := rootCAs |} in
      let '(ldapPort, errLdapPort) := Strconv.Atoi (getEnv env "LDAP_PORT" "389") in
      let* _ := checkf errLdapPort "Invalid LDAP_PORT, must be an integer" in
      let '(useSSL, errLdapSSL) := Strconv.ParseBool (getEnv env "LDAP_USE_SSL" "false") in
      let* _ := checkf errLdapSSL "Invalid LDAP_USE_SSL, must be a boolean" in
      let '(skipTLSVerification, errSkipTLS) :=
        Strconv.ParseBool (getEnv env "LDAP_SKIP_TLS_VERIFICATION" "true") in
      let* _ := checkf errSkipTLS "Invalid LDAP_SKIP_TLS_VERIFICATION, must be a boolean" in
      let '(startTLS, errStartTLS) := Strconv.ParseBool (getEnv env "LDAP_START_TLS" "false") in
      let* _ := checkf errStartTLS "Invalid LDAP_START_TLS, must be a boolean" in
      let* ports :=
        if (0 <? String.length (Getenv env "LDAP_PORT"))%nat then
          let '(envLdapPort, err) := Strconv.Atoi (Getenv env "LDAP_PORT") in
          let* _ := check err in
          let ldapPort := envLdapPort in
          let skip1 :=
            if (ldapPort =? 389)%Z && String.eqb (Getenv env "LDAP_SKIP_TLS") "false"
            then false else skipTLSVerification in
          if (ldapPort =? 636)%Z && String.eqb (Getenv env "LDAP_SKIP_TLS") "false"
          then Ret (ldapPort, false, true)
          else Ret (ldapPort, skip1, useSSL)
        else Ret (ldapPort, skipTLSVerification, useSSL) in
      let '(ldapPort, skipTLSVerification, useSSL) := ports in
      let ldapUserFilter := getEnv env "LDAP_USERFILTER" "(cn=%s)" in
      let ldapConfig :=
        {| UserBase := Getenv env "LDAP_USERBASE";
           GroupBase := Getenv env "LDAP_GROUPBASE";
           AdminUserBase := getEnv env "LDAP_ADMIN_USERBASE" "";
           AdminGroupBase := getEnv env "LDAP_ADMIN_GROUPBASE" "";
           Host := Getenv env "LDAP_SERVER";
           Port := ldapPort;
           UseSSL := useSSL;
           StartTLS := startTLS;
           SkipTLSVerification := skipTLSVerification;
           BindDN := Getenv env "LDAP_BINDDN";
           BindPassword := Getenv env "LDAP_PASSWD";
           UserFilter := ldapUserFilter;
           GroupFilter := "(member=%s)";
           Attributes := ["givenName"; "sn"; "mail"; "uid"; "cn"; "userPrincipalName"] |} in
      let config :=
        {| Ldap := ldapConfig;
           KubeCa := caEncoded;
           KubeCaText := kubeCA;
           KubeToken := kubeToken;
           ApiServerURL := JoinHostPort host port;
           ApiServerTLSConfig := tlsConfig;
           TokenLifeTime := getEnv env "TOKEN_LIFETIME" "4h" |} in
      Ret (Ok (config, ldapConfig)).

(** Lines 110 to 115. *)
Definition validateConfig (config : Config) : option error :=
  ValidateStruct
    [ Field "ApiServerURL" (ApiServerURL config) [Required; Is "URL" isURL];
      Field "KubeToken" (KubeToken config) [Required];
      Field "KubeCa" (KubeCa config) [Required; Is "base64" isBase64];
      Field "ApiServerURL" (ApiServerURL config) [Required; Is "URL" isURL] ].

(** Lines 116 to 122. *)
Definition validateLdap (ldapConfig : LdapConfig) : option error :=
  ValidateStruct
    [ Field "UserBase" (UserBase ldapConfig) [Required; Length 2 200];
      Field "GroupBase" (GroupBase ldapConfig) [Required; Length 2 200];
      Field "Host" (Host ldapConfig) [Required; Is "URL" isURL];
      Field "BindDN" (BindDN ldapConfig) [Required; Length 2 200];
      Field "BindPassword" (BindPassword ldapConfig) [Required; Length 2 200] ].

Definition MakeConfig (env : gmap string string) : go (option Config * option error) :=
  let* built := buildConfig env in
  match built with
  | Err e => Ret (None, Some e)
  | Ok (config, ldapConfig) =>
      let err := validateConfig config in
      let errLdap := validateLdap ldapConfig in
      match err with
      | Some e => Ret (None, err)
      | None =>
          match errLdap with
          | Some _ => Ret (None, err)
          | None => Ret (Some config, None)
          end
      end
  end.

End WithStartup.

End Utils.

(** ** A concrete instance

    Stand-ins for the collaborators, on which the properties below are
    run: a directory with two users, a grant mapper, a JSON and a YAML
    printer with the matching readers, and a keyed checksum with the
    output sizes of the three hashes. *)

Module Demo.

Definition quote : string := String "034"%char "".

Fixpoint decimalDigits (fuel : nat) (n : Z) (acc : string) : string :=
  match fuel with
  | O => acc
  | S fuel' =>
      let acc' := String (ascii_of_N (Z.to_N (48 + n mod 10))) acc in
      if (n <? 10)%Z then acc' else decimalDigits fuel' (n / 10) acc'
  end.

Definition decimal (n : Z) : string :=
  if (n <? 0)%Z then ("-" ++ decimalDigits 20 (- n) "")%string
  else decimalDigits 20 n "".

Definition jsonString (s : string) : string := (quote ++ s ++ quote)%string.

Definition jsonGrant (g : NamespaceAndRole) : string :=
  ("{" ++ jsonString "namespace" ++ ":" ++ jsonString (Namespace g) ++ ","
       ++ jsonString "role" ++ ":" ++ jsonString (Role g) ++ "}")%string.

Definition marshalClaims (c : AuthJWTClaims) : string :=
  ("{" ++ jsonString "auths" ++ ":[" ++ String.concat "," (map jsonGrant (Auths c)) ++ "],"
       ++ jsonString "user" ++ ":" ++ jsonString (User c) ++ ","
       ++ jsonString "adminAccess" ++ ":" ++ (if AdminAccess c then "true" else "false") ++ ","
       ++ jsonString "exp" ++ ":" ++ decimal (ExpiresAt (Standard c)) ++ ","
       ++ jsonString "iss" ++ ":" ++ jsonString (Issuer (Standard c)) ++ "}")%string.

Definition marshalHeader (h : gmap string string) : string :=
  ("{" ++ jsonString "alg" ++ ":" ++ jsonString (default "" (h !! "alg")) ++ ","
       ++ jsonString "typ" ++ ":" ++ jsonString (default "" (h !! "typ")) ++ "}")%string.

(** Readers: [expect lit s] is [s] without its prefix [lit]. *)
Definition expect (lit s : string) : option string :=
  if String.prefix lit s then Some (GoStrings.drop (String.length lit) s) else None.

Fixpoint untilQuote (s : string) : option (string * string) :=
  match s with
  | "" => None
  | String c s' =>
      if Ascii.eqb c "034"%char then Some ("", s')
      else match untilQuote s' with
           | Some (a, b) => Some (String c a, b)
           | None => None
           end
  end.

Definition readString (s : string) : option (string * string) :=
  match expect quote s with
  | Some s' => untilQuote s'
  | None => None
  end.

Definition readField (name : string) (s : string) : option (string * string) :=
  match expect (jsonString name ++ ":")%string s with
  | Some s' => readString s'
  | None => None
  end.

Fixpoint readDigits (s : string) (acc : Z) : Z * string :=
  match s with
  | String c s' =>
      if GoTime.isDigit c then readDigits s' (acc * 10 + GoTime.digit c) else (acc, s)
  | "" => (acc, "")
  end.

Definition readInt (s : string) : option (Z * string) :=
  match s with
  | String "-" s' =>
      let '(n, rest) := readDigits s' 0%Z in
      if (String.length rest =? String.length s')%nat then None else Some ((- n)%Z, rest)
  | _ =>
      let '(n, rest) := readDigits s 0%Z in
      if (String.length rest =? String.length s)%nat then None else Some (n, rest)
  end.

Definition readGrant (s : string) : option (NamespaceAndRole * string) :=
  match expect "{" s with
  | None => None
  | Some s1 =>
      match readField "namespace" s1 with
      | None => None
      | Some (ns, s2) =>
          match expect "," s2 with
          | None => None
          | Some s3 =>
              match readField "role" s3 with
              | None => None
              | Some (role, s4) =>
                  match expect "}" s4 with
                  | None => None
                  | Some s5 => Some ({| Namespace := ns; Role := role |}, s5)
                  end
              end
          end
      end
  end.

Fixpoint readGrants (fuel : nat) (s : string) : option (list NamespaceAndRole * string) :=
  match fuel with
  | O => None
  | S fuel' =>
      match expect "]" s with
      | Some rest => Some ([], rest)
      | None =>
          match readGrant s with
          | None => None
          | Some (g, s1) =>
              let s2 := match expect "," s1 with Some s2 => s2 | None => s1 end in
              match readGrants fuel' s2 with
              | Some (gs, rest) => Some (g :: gs, rest)
              | None => None
              end
          end
      end
  end.

Definition readBool (s : string) : option (bool * string) :=
  match expect "true" s with
  | Some rest => Some (true, rest)
  | None =>
      match expect "false" s with
      | Some rest => Some (false, rest)
      | None => None
      end
  end.

Definition syntaxError : error := errorString "invalid character in JSON input".

Definition decodeClaims (s : string) : result AuthJWTClaims :=
  let parsed :=
    s1 ← expect ("{" ++ jsonString "auths" ++ ":[")%string s;
    '(auths, s2) ← readGrants (S (String.length s1)) s1;
    s3 ← expect "," s2;
    '(user, s4) ← readField "user" s3;
    s5 ← expect ("," ++ jsonString "adminAccess" ++ ":")%string s4;
    '(admin, s6) ← readBool s5;
    s7 ← expect ("," ++ jsonString "exp" ++ ":")%string s6;
    '(exp, s8) ← readInt s7;
    s9 ← expect "," s8;
    '(iss, s10) ← readField "iss" s9;
    s11 ← expect "}" s10;
    if String.eqb s11 "" then
      Some {| Auths := auths; User := user; AdminAccess := admin;
              Standard := {| Audience := ""; ExpiresAt := exp; Id := ""; IssuedAt := 0;
                             Issuer := iss; NotBefore := 0; Subject := "" |} |}
    else None in
  match parsed with
  | Some c => Ok c
  | None => Err syntaxError
  end.

Definition unmarshalHeader (s : string) : result (gmap string string) :=
  let parsed :=
    s1 ← expect "{" s;
    '(alg, s2) ← readField "alg" s1;
    s3 ← expect "," s2;
    '(typ, s4) ← readField "typ" s3;
    s5 ← expect "}" s4;
    if String.eqb s5 "" then Some (<["typ" := typ]> (<["alg" := alg]> (∅ : gmap string string)))
    else None in
  match parsed with
  | Some h => Ok h
  | None => Err syntaxError
  end.

Definition hashSize (h : Hash) : nat :=
  match h with
  | SHA256 => 32
  | SHA384 => 48
  | SHA512 => 64
  end.

(** The keyed checksum: every byte of the key and of the message is
    folded into one cell of a block of [hashSize h] cells. *)
Fixpoint absorb (size : nat) (s : string) (i : nat) (cells : list Z) : list Z :=
  match s with
  | "" => cells
  | String c s' =>
      absorb size s' (S i)
        (alter (fun x => ((x * 31 + Base64.uint c + Z.of_nat i + 1) mod 256)%Z)
           (i mod size)%nat cells)
  end.

Definition checksum (h : Hash) (key message : string) : string :=
  string_of_list_ascii
    (map Base64.byte
       (absorb (hashSize h) (key ++ ":" ++ message)%string 0 (repeat 7%Z (hashSize h)))).

Definition grantOf (group : string) : option NamespaceAndRole :=
  if String.prefix "grp-ns-" group
  then Some {| Namespace := GoStrings.drop 4 group; Role := "write" |}
  else None.

Definition mapper (groups : list string) : list NamespaceAndRole :=
  omap grantOf groups.

Definition aliceDN : string := "cn=alice,ou=users,dc=example".
Definition bobDN : string := "cn=bob,ou=users,dc=example".

Definition authenticate (username password : string) : option string * option error :=
  if String.eqb username "alice" && String.eqb password "wonderland" then (Some aliceDN, None)
  else if String.eqb username "bob" && String.eqb password "secret" then (Some bobDN, None)
  else (None, Some (errorString "LDAP Result Code 49: Invalid Credentials")).

Definition groupsOf (userDN : string) : list string * option error :=
  if String.eqb userDN aliceDN then (["grp-ns-dev"; "grp-admin"], None)
  else if String.eqb userDN bobDN then (["grp-ns-test"], None)
  else ([], Some (errorString "LDAP Result Code 32: No Such Object")).

Definition yaml (c : KubeConfig) : string * option error :=
  (("apiVersion: " ++ ApiVersion c ++ ", kind: " ++ Kind c
     ++ ", current-context: " ++ CurrentContext c
     ++ ", clusters: " ++ String.concat " " (map (fun x => (ClusterName x ++ " " ++ Server (Cluster x) ++ " " ++ CertificateData (Cluster x))%string) (Clusters c))
     ++ ", contexts: " ++ String.concat " " (map ContextName (Contexts c))
     ++ ", users: " ++ String.concat " " (map (fun u => (UserName u ++ " " ++ Token (UserToken u))%string) (Users c)))%string,
   None).

#[local] Instance collaborators : Collaborators := {|
  GetUserNamespaces := mapper;
  AuthenticateUser := authenticate;
  GetUserGroups := groupsOf;
  HasAdminAccess := fun dn => String.eqb dn aliceDN;
  hmacSum := checksum;
  jsonMarshalHeader := marshalHeader;
  jsonMarshalClaims := marshalClaims;
  jsonUnmarshalHeader := unmarshalHeader;
  jsonDecodeClaims := decodeClaims;
  yamlMarshal := yaml;
  signingKey := "0123456789abcdef-demo-signing-key"
|}.

Definition exitOnError (e : option error) : go unit :=
  match e with
  | Some _ => Panic Exit
  | None => Ret tt
  end.

#[local] Instance startup : Startup := {|
  ReadFile := fun path =>
    if String.eqb path "/var/run/secrets/kubernetes.io/serviceaccount/token"
    then ("service-account-token", None)
    else if String.eqb path "/var/run/secrets/kubernetes.io/serviceaccount/ca.crt"
    then ("CA", None)
    else ("", Some (errorString "no such file or directory"));
  SystemCertPool := None;
  pemHasCertificate := fun _ => true;
  isURL := fun s => negb (String.eqb s "");
  isBase64 := fun s => match Base64.DecodeString Base64.StdEncoding s with
                       | (_, None) => true
                       | _ => false
                       end;
  TokenFile := "/var/run/secrets/kubernetes.io/serviceaccount/token";
  TlsCaFile := "/var/run/secrets/kubernetes.io/serviceaccount/ca.crt";
  check := exitOnError;
  checkf := fun e _ => exitOnError e;
  getEnv := fun env key fallback => default fallback (env !! key)
|}.

Definition env : gmap string string :=
  list_to_map
    [ ("KUBERNETES_SERVICE_HOST", "10.0.0.1"); ("KUBERNETES_SERVICE_PORT", "443");
      ("LDAP_USERBASE", "ou=users,dc=example"); ("LDAP_GROUPBASE", "ou=groups,dc=example");
      ("LDAP_SERVER", "ldap.example"); ("LDAP_BINDDN", "cn=kubi,dc=example");
      ("LDAP_PASSWD", "bind-password") ].

Definition config (lifetime : string) : Config :=
  {| Ldap := {| UserBase := "ou=users,dc=example"; GroupBase := "ou=groups,dc=example";
                AdminUserBase := ""; AdminGroupBase := ""; Host := "ldap.example";
                Port := 389; UseSSL := false; StartTLS := false;
                SkipTLSVerification := true; BindDN := "cn=kubi,dc=example";
                BindPassword := "bind-password"; UserFilter := "(cn=%s)";
                GroupFilter := "(member=%s)";
                Attributes := ["givenName"; "sn"; "mail"; "uid"; "cn"; "userPrincipalName"] |};
     KubeCa := "Q0E=";
     KubeCaText := "CA";
     KubeToken := "service-account-token";
     ApiServerURL := "10.0.0.1:443";
     ApiServerTLSConfig := {| InsecureSkipVerify := false; RootCAs := ["CA"] |};
     TokenLifeTime := lifetime |}.

Definition request (authorization : string) : Http.Request :=
  {| Http.RequestHeader := {[ "Authorization" := authorization ]};
     Http.RequestHost := "host:6443";
     Http.RequestBody := "";
     Http.RemoteAddr := "192.0.2.7:51234" |}.

(** The token issued to a user at an instant under a lifetime. *)
Definition issued (now : GoTime.Time) (lifetime : string) (groups : list string)
  (username : string) (admin : bool) : string :=
  match Services.generateUserToken now (Some (config lifetime)) groups username admin with
  | Ret (token, _) => token
  | Panic _ => ""
  end.

End Demo.

(** * Properties *)

(** ** The library models on known values *)

Example Split_on_repeated_separator :
  GoStrings.Split "Bearer abcBearer def" "Bearer " = [""; "abc"; "def"].
Proof. reflexivity. Qed.

Example SplitN_cuts_once :
  GoStrings.SplitN "a:b:c" ":" 2 = ["a"; "b:c"] /\ GoStrings.SplitN "" ":" 2 = [""].
Proof. split; reflexivity. Qed.

Example DecodeString_keeps_decoded_prefix :
  Base64.DecodeString Base64.StdEncoding "YTpi!" = ("a:b", Some Base64.CorruptInputError).
Proof. reflexivity. Qed.

Example DecodeString_ignores_trailing_bits :
  Base64.DecodeString Base64.StdEncoding "Zh==" = ("f", None) /\
  Base64.EncodeToString Base64.StdEncoding "f" = "Zg==".
Proof. split; reflexivity. Qed.

Example ParseDuration_examples :
  GoTime.ParseDuration "4h" = (14400000000000%Z, None) /\
  GoTime.ParseDuration "1h15m30.918273645s" = (4530918273645%Z, None) /\
  GoTime.ParseDuration "-1h30m" = ((-5400000000000)%Z, None) /\
  GoTime.ParseDuration "abc" = (0%Z, Some ("time: invalid duration " ++ GoTime.quote "abc")%string).
Proof. vm_compute. repeat split; reflexivity. Qed.

Example MakeConfig_demo :
  Utils.MakeConfig (H := Demo.startup) Demo.env = Ret (Some (Demo.config "4h"), None).
Proof. vm_compute. reflexivity. Qed.

(** ** Base64: decoding what was encoded, and what was tampered with *)

Module Base64Facts.

Import Base64 GoStrings Jwt.

Local Open Scope Z_scope.

Lemma lor_disjoint (x y n : Z) :
  0 <= n -> x mod 2 ^ n = 0 -> 0 <= y < 2 ^ n -> Z.lor x y = x + y.
Proof.
  intros Hn Hx Hy.
  assert (Hland : Z.land x y = 0).
  { apply Z.bits_inj'. intros m Hm. rewrite Z.land_spec, Z.bits_0.
    destruct (Z.lt_ge_cases m n) as [Hlt|Hge].
    - replace x with (x / 2 ^ n * 2 ^ n) by (pose proof (Z.div_mod x (2 ^ n)); lia).
      rewrite Z.mul_pow2_bits_low by lia. reflexivity.
    - replace y with (y mod 2 ^ n) by (apply Z.mod_small; lia).
      rewrite Z.mod_pow2_bits_high by lia. apply andb_false_r. }
  rewrite Z.add_nocarry_lxor by exact Hland. symmetry. apply Z.lxor_lor. exact Hland.
Qed.

Lemma uint_range (a : ascii) : 0 <= uint a < 256.
Proof.
  unfold uint. pose proof (N_ascii_bounded a). lia.
Qed.

Lemma byte_uint (a : ascii) : byte (uint a) = a.
Proof.
  unfold byte, uint. change 255 with (Z.ones 8). rewrite Z.land_ones by lia.
  pose proof (N_ascii_bounded a).
  rewrite Z.mod_small by lia. rewrite N2Z.id. apply ascii_N_embedding.
Qed.

Lemma uint_byte (x : Z) : uint (byte x) = x mod 256.
Proof.
  unfold byte, uint. change 255 with (Z.ones 8). rewrite Z.land_ones by lia.
  change (2 ^ 8) with 256.
  pose proof (Z.mod_pos_bound x 256 ltac:(lia)).
  rewrite N_ascii_embedding by lia. lia.
Qed.

Lemma sextet_arith (val shift : Z) :
  0 <= shift -> sextet val shift = (val / 2 ^ shift) mod 64.
Proof.
  intros Hs. unfold sextet. change 63 with (Z.ones 6).
  rewrite Z.land_ones by lia. rewrite Z.shiftr_div_pow2 by lia. reflexivity.
Qed.

Lemma val3_arith (a b c : Z) :
  0 <= a < 256 -> 0 <= b < 256 -> 0 <= c < 256 ->
  Z.lor (Z.lor (Z.shiftl a 16) (Z.shiftl b 8)) c = a * 65536 + b * 256 + c.
Proof.
  intros Ha Hb Hc. rewrite !Z.shiftl_mul_pow2 by lia.
  change (2 ^ 16) with 65536. change (2 ^ 8) with 256.
  rewrite (lor_disjoint (a * 65536) (b * 256) 16) by (change (2 ^ 16) with 65536; try lia;
    apply Z.mod_divide; try lia; exists (a); lia).
  rewrite (lor_disjoint _ c 8); [lia|lia| |change (2^8) with 256; lia].
  change (2^8) with 256. apply Z.mod_divide; [lia|]. exists (a * 256 + b). lia.
Qed.

Lemma val4_arith (s0 s1 s2 s3 : Z) :
  0 <= s0 < 64 -> 0 <= s1 < 64 -> 0 <= s2 < 64 -> 0 <= s3 < 64 ->
  Z.lor (Z.lor (Z.lor (Z.shiftl s0 18) (Z.shiftl s1 12)) (Z.shiftl s2 6)) s3
    = s0 * 262144 + s1 * 4096 + s2 * 64 + s3.
Proof.
  intros H0 H1 H2 H3. rewrite !Z.shiftl_mul_pow2 by lia.
  change (2 ^ 18) with 262144. change (2 ^ 12) with 4096. change (2 ^ 6) with 64.
  rewrite (lor_disjoint (s0 * 262144) (s1 * 4096) 18);
    [|lia|apply Z.mod_divide; [lia|exists s0; lia]|change (2^18) with 262144; lia].
  rewrite (lor_disjoint _ (s2 * 64) 12);
    [|lia|apply Z.mod_divide; [lia|exists (s0 * 64 + s1); lia]|change (2^12) with 4096; lia].
  rewrite (lor_disjoint _ s3 6);
    [lia|lia|apply Z.mod_divide; [lia|exists (s0 * 4096 + s1 * 64 + s2); lia]|change (2^6) with 64; lia].
Qed.


Lemma table_URL : forallb (tableCheck URLEncoding) (seq 0 64) = true.
Proof. vm_compute. reflexivity. Qed.

Lemma table_entry (v : Z) :
  0 <= v < 64 ->
  decodeMap URLEncoding (encodeByte URLEncoding v) = Some v /\
  isNewline (encodeByte URLEncoding v) = false /\
  isPad URLEncoding (encodeByte URLEncoding v) = false.
Proof.
  intros Hv. pose proof table_URL as Ht. rewrite forallb_forall in Ht.
  specialize (Ht (Z.to_nat v)).
  assert (Hin : In (Z.to_nat v) (seq 0 64)) by (apply in_seq; lia).
  specialize (Ht Hin). unfold tableCheck in Ht. rewrite Z2Nat.id in Ht by lia.
  destruct (decodeMap URLEncoding (encodeByte URLEncoding v)) as [u|]; [|discriminate].
  apply andb_true_iff in Ht as [Ht Hpad]. apply andb_true_iff in Ht as [Heq Hnl].
  apply Z.eqb_eq in Heq. subst u.
  repeat split; [now apply negb_true_iff in Hnl | now apply negb_true_iff in Hpad].
Qed.

Lemma indexByte_spec (c : ascii) (s : string) (i v : Z) :
  indexByte c s i = Some v ->
  i <= v < i + Z.of_nat (String.length s) /\ String.get (Z.to_nat (v - i)) s = Some c.
Proof.
  revert i. induction s as [|d s IH]; intros i H; cbn in H; [discriminate|].
  destruct (Ascii.eqb c d) eqn:Hcd.
  - injection H as <-. apply Ascii.eqb_eq in Hcd. subst d.
    replace (i - i) with 0 by lia. cbn [String.length]. split; [lia|reflexivity].
  - apply IH in H as [Hr Hg]. cbn [String.length]. split; [lia|].
    replace (Z.to_nat (v - i)) with (S (Z.to_nat (v - (i + 1)))) by lia. exact Hg.
Qed.

Lemma decodeMap_inv (c : ascii) (v : Z) :
  decodeMap URLEncoding c = Some v -> 0 <= v < 64 /\ encodeByte URLEncoding v = c.
Proof.
  intros H. apply indexByte_spec in H as [Hr Hg].
  change (Z.of_nat (String.length (encodeTable URLEncoding))) with 64 in Hr.
  split; [lia|]. unfold encodeByte. replace (v - 0) with v in Hg by lia.
  rewrite Hg. reflexivity.
Qed.

Lemma sextet_range (val shift : Z) : 0 <= sextet val shift < 64.
Proof.
  unfold sextet. change 63 with (Z.ones 6). rewrite Z.land_ones by lia.
  apply Z.mod_pos_bound. lia.
Qed.

Lemma decodeMap_sextet (val shift : Z) :
  decodeMap URLEncoding (encodeByte URLEncoding (sextet val shift)) = Some (sextet val shift).
Proof. apply table_entry, sextet_range. Qed.

Lemma isNewline_sextet (val shift : Z) :
  isNewline (encodeByte URLEncoding (sextet val shift)) = false.
Proof. apply table_entry, sextet_range. Qed.

Lemma isPad_sextet (val shift : Z) :
  isPad URLEncoding (encodeByte URLEncoding (sextet val shift)) = false.
Proof. apply table_entry, sextet_range. Qed.

(** One step of [decode], by the kind of the byte read. *)
Lemma decode_some (enc : Encoding) (c : ascii) (rest : string) (dbuf : list Z) (v : Z) :
  decodeMap enc c = Some v ->
  decode enc (String c rest) dbuf =
    if (List.length (dbuf ++ [v]) =? 4)%nat then
      match quantumBytes enc (dbuf ++ [v]) with
      | Some out => let '(more, err) := decode enc rest [] in ((out ++ more)%string, err)
      | None => ("", Some CorruptInputError)
      end
    else decode enc rest (dbuf ++ [v]).
Proof. intros H. cbn [decode]. rewrite H. reflexivity. Qed.

Lemma decode_newline (enc : Encoding) (c : ascii) (rest : string) (dbuf : list Z) :
  decodeMap enc c = None -> isNewline c = true ->
  decode enc (String c rest) dbuf = decode enc rest dbuf.
Proof. intros H1 H2. cbn [decode]. rewrite H1, H2. reflexivity. Qed.

Lemma decode_other (enc : Encoding) (c : ascii) (rest : string) (dbuf : list Z) :
  decodeMap enc c = None -> isNewline c = false -> isPad enc c = false ->
  decode enc (String c rest) dbuf = ("", Some CorruptInputError).
Proof. intros H1 H2 H3. cbn [decode]. rewrite H1, H2, H3. reflexivity. Qed.

Lemma decode_pad (enc : Encoding) (c : ascii) (rest : string) (dbuf : list Z) :
  decodeMap enc c = None -> isNewline c = false -> isPad enc c = true ->
  decode enc (String c rest) dbuf =
    match List.length dbuf with
    | 0%nat | 1%nat => ("", Some CorruptInputError)
    | 2%nat =>
        match skipNewlines rest with
        | "" => ("", Some CorruptInputError)
        | String c2 rest2 =>
            if isPad enc c2 then afterPadding enc dbuf rest2
            else ("", Some CorruptInputError)
        end
    | _ => afterPadding enc dbuf rest
    end.
Proof. intros H1 H2 H3. cbn [decode]. rewrite H1, H2, H3. reflexivity. Qed.


Lemma byte_eq_iff (x : Z) (a : ascii) : byte x = a <-> x mod 256 = uint a.
Proof.
  split; intros H.
  - rewrite <- H. symmetry. apply uint_byte.
  - rewrite <- (byte_uint a), <- H. unfold byte. change 255 with (Z.ones 8).
    rewrite !Z.land_ones by lia. change (2 ^ 8) with 256.
    rewrite Z.mod_mod by lia. reflexivity.
Qed.



Lemma sextets_nth (dbuf : list Z) (i : nat) : sextets dbuf -> 0 <= nth i dbuf 0 < 64.
Proof.
  intros H. revert i. induction H as [|s l Hs Hl IH]; intros [|i]; cbn; try lia. apply IH.
Qed.

Lemma quantumBytes_arith (dbuf : list Z) :
  sextets dbuf ->
  quantumBytes URLEncoding dbuf =
    let w := weight dbuf in
    match List.length dbuf with
    | 4%nat => Some (String (byte (w / 65536)) (String (byte (w / 256)) (String (byte w) "")))
    | 3%nat => Some (String (byte (w / 65536)) (String (byte (w / 256)) ""))
    | 2%nat => Some (String (byte (w / 65536)) "")
    | _ => Some ""
    end.
Proof.
  intros H. unfold quantumBytes, weight.
  rewrite val4_arith by (apply sextets_nth; exact H).
  rewrite !Z.shiftr_div_pow2 by lia.
  change (2 ^ 0) with 1. change (2 ^ 8) with 256. change (2 ^ 16) with 65536.
  rewrite Z.div_1_r. reflexivity.
Qed.

Lemma quantum3 (a b c : ascii) :
  let val := Z.lor (Z.lor (Z.shiftl (uint a) 16) (Z.shiftl (uint b) 8)) (uint c) in
  weight [sextet val 18; sextet val 12; sextet val 6; sextet val 0]
    = uint a * 65536 + uint b * 256 + uint c.
Proof.
  intros val. subst val.
  pose proof (uint_range a). pose proof (uint_range b). pose proof (uint_range c).
  rewrite val3_arith by lia. unfold weight. cbn [nth].
  rewrite !sextet_arith by lia.
  change (2 ^ 18) with 262144. change (2 ^ 12) with 4096. change (2 ^ 6) with 64.
  change (2 ^ 0) with 1. rewrite Z.div_1_r.
  Z.to_euclidean_division_equations; lia.
Qed.

Lemma val2_arith (a b : Z) :
  0 <= a < 256 -> 0 <= b < 256 ->
  Z.lor (Z.shiftl a 16) (Z.shiftl b 8) = a * 65536 + b * 256.
Proof.
  intros Ha Hb. rewrite !Z.shiftl_mul_pow2 by lia.
  change (2 ^ 16) with 65536. change (2 ^ 8) with 256.
  apply (lor_disjoint (a * 65536) (b * 256) 16); [lia| |change (2 ^ 16) with 65536; lia].
  apply Z.mod_divide; [lia|]. exists a. lia.
Qed.

Lemma quantum2 (a b : ascii) :
  weight [sextet (Z.lor (Z.shiftl (uint a) 16) (Z.shiftl (uint b) 8)) 18;
          sextet (Z.lor (Z.shiftl (uint a) 16) (Z.shiftl (uint b) 8)) 12;
          sextet (Z.lor (Z.shiftl (uint a) 16) (Z.shiftl (uint b) 8)) 6]
    = uint a * 65536 + uint b * 256.
Proof.
  pose proof (uint_range a). pose proof (uint_range b).
  rewrite val2_arith by lia. unfold weight. cbn [nth].
  rewrite !sextet_arith by lia.
  change (2 ^ 18) with 262144. change (2 ^ 12) with 4096. change (2 ^ 6) with 64.
  Z.to_euclidean_division_equations; lia.
Qed.

Lemma quantum1 (a : ascii) :
  weight [sextet (Z.shiftl (uint a) 16) 18; sextet (Z.shiftl (uint a) 16) 12]
    = uint a * 65536.
Proof.
  pose proof (uint_range a).
  rewrite Z.shiftl_mul_pow2 by lia. unfold weight. cbn [nth].
  rewrite !sextet_arith by lia.
  change (2 ^ 18) with 262144. change (2 ^ 12) with 4096. change (2 ^ 16) with 65536.
  Z.to_euclidean_division_equations; lia.
Qed.

Lemma string_ind3 (P : string -> Prop) :
  P "" ->
  (forall a, P (String a "")) ->
  (forall a b, P (String a (String b ""))) ->
  (forall a b c rest, P rest -> P (String a (String b (String c rest)))) ->
  forall s, P s.
Proof.
  intros H0 H1 H2 H3 s.
  enough (P s /\ (forall a, P (String a s)) /\ (forall a b, P (String a (String b s))))
    by tauto.
  induction s as [|c s (IHs & IH1 & IH2)]; repeat split; auto.
Qed.

Ltac sextets_tac :=
  unfold sextets;
  repeat first [ apply List.Forall_nil
               | apply List.Forall_cons; [first [apply sextet_range | lia | assumption]|] ].

Lemma decode_sextet (val shift : Z) (rest : string) (dbuf : list Z) :
  decode URLEncoding (String (encodeByte URLEncoding (sextet val shift)) rest) dbuf =
    if (List.length (dbuf ++ [sextet val shift]) =? 4)%nat then
      match quantumBytes URLEncoding (dbuf ++ [sextet val shift]) with
      | Some out =>
          let '(more, err) := decode URLEncoding rest [] in ((out ++ more)%string, err)
      | None => ("", Some CorruptInputError)
      end
    else decode URLEncoding rest (dbuf ++ [sextet val shift]).
Proof. apply decode_some, decodeMap_sextet. Qed.

Lemma decode_encode (bs : string) :
  decode URLEncoding (EncodeToString URLEncoding bs) [] = (bs, None).
Proof.
  induction bs as [|a|a b|a b c rest IH] using string_ind3.
  - reflexivity.
  - cbn [EncodeToString]. change (padding URLEncoding 2) with "==".
    rewrite !decode_sextet. cbn [app List.length Nat.eqb].
    rewrite decode_pad by reflexivity. cbn [List.length].
    change (skipNewlines "=") with "=". cbv iota.
    change (isPad URLEncoding "=") with true. cbv iota.
    unfold afterPadding. rewrite quantumBytes_arith by sextets_tac.
    cbn [List.length skipNewlines]. cbv zeta. rewrite quantum1.
    f_equal. f_equal. pose proof (uint_range a). apply byte_eq_iff.
    Z.to_euclidean_division_equations; lia.
  - cbn [EncodeToString]. change (padding URLEncoding 1) with "=".
    rewrite !decode_sextet. cbn [app List.length Nat.eqb].
    rewrite decode_pad by reflexivity. cbn [List.length].
    unfold afterPadding. rewrite quantumBytes_arith by sextets_tac.
    cbn [List.length skipNewlines]. cbv zeta. rewrite quantum2.
    pose proof (uint_range a). pose proof (uint_range b).
    f_equal. f_equal; [|f_equal]; apply byte_eq_iff; Z.to_euclidean_division_equations; lia.
  - cbn [EncodeToString].
    rewrite !decode_sextet. cbn [app List.length Nat.eqb].
    rewrite quantumBytes_arith by sextets_tac. cbn [List.length]. cbv zeta.
    rewrite quantum3, IH. cbv [String.append].
    pose proof (uint_range a). pose proof (uint_range b). pose proof (uint_range c).
    f_equal. f_equal; [|f_equal; [|f_equal]]; apply byte_eq_iff;
      Z.to_euclidean_division_equations; lia.
Qed.


Ltac dec_step :=
  match goal with
  | |- context [decode URLEncoding (String (encodeByte URLEncoding (sextet ?v ?k)) ?r) ?d] =>
      rewrite (decode_sextet v k r d)
  | H : decodeMap URLEncoding ?c = Some ?v
    |- context [decode URLEncoding (String ?c ?r) ?d] =>
      rewrite (decode_some URLEncoding c r d v H)
  | Hm : decodeMap URLEncoding ?c = None, Hn : isNewline ?c = true
    |- context [decode URLEncoding (String ?c ?r) ?d] =>
      rewrite (decode_newline URLEncoding c r d Hm Hn)
  | Hm : decodeMap URLEncoding ?c = None, Hn : isNewline ?c = false,
    Hp : isPad URLEncoding ?c = false
    |- context [decode URLEncoding (String ?c ?r) ?d] =>
      rewrite (decode_other URLEncoding c r d Hm Hn Hp)
  | Hm : decodeMap URLEncoding ?c = None, Hn : isNewline ?c = false,
    Hp : isPad URLEncoding ?c = true
    |- context [decode URLEncoding (String ?c ?r) ?d] =>
      rewrite (decode_pad URLEncoding c r d Hm Hn Hp)
  | |- context [decode URLEncoding (String "="%char ?r) ?d] =>
      rewrite (decode_pad URLEncoding "="%char r d eq_refl eq_refl eq_refl)
  end;
  cbn [app List.length Nat.eqb].

Lemma skipNewlines_sextet (val shift : Z) (rest : string) :
  skipNewlines (String (encodeByte URLEncoding (sextet val shift)) rest)
    = String (encodeByte URLEncoding (sextet val shift)) rest.
Proof. cbn [skipNewlines]. rewrite isNewline_sextet. reflexivity. Qed.

Lemma quantumBytes_some (dbuf : list Z) :
  exists out, quantumBytes URLEncoding dbuf = Some out.
Proof.
  unfold quantumBytes. cbn [strict URLEncoding andb].
  destruct dbuf as [|? [|? [|? [|? [|? ?]]]]]; cbn [List.length]; eauto.
Qed.

(** A quantum that is already begun, followed by a whole encoding: the
    padding then falls at the wrong place. *)
Lemma decode_misaligned (bs : string) :
  forall dbuf, (1 <= List.length dbuf <= 3)%nat ->
  snd (decode URLEncoding (EncodeToString URLEncoding bs) dbuf) <> None.
Proof.
  induction bs as [|a|a b|a b c rest IH] using string_ind3; intros dbuf Hlen.
  - destruct dbuf as [|x [|y dbuf]]; cbn in Hlen |- *; try lia; discriminate.
  - cbn [EncodeToString]. change (padding URLEncoding 2) with "==".
    destruct dbuf as [|x [|y [|z [|? ?]]]]; cbn [List.length] in Hlen; try lia;
      repeat dec_step.
    + unfold afterPadding. destruct (quantumBytes_some [x; sextet (Z.shiftl (uint a) 16) 18; sextet (Z.shiftl (uint a) 16) 12]) as [out ->].
      cbn. discriminate.
    + destruct (quantumBytes_some [x; y; sextet (Z.shiftl (uint a) 16) 18; sextet (Z.shiftl (uint a) 16) 12]) as [out ->].
      cbn. discriminate.
    + destruct (quantumBytes_some [x; y; z; sextet (Z.shiftl (uint a) 16) 18]) as [out ->].
      repeat dec_step. cbn. discriminate.
  - cbn [EncodeToString]. change (padding URLEncoding 1) with "=".
    destruct dbuf as [|x [|y [|z [|? ?]]]]; cbn [List.length] in Hlen; try lia;
      repeat dec_step.
    + match goal with |- context [quantumBytes URLEncoding ?l] =>
        destruct (quantumBytes_some l) as [out ->] end.
      repeat dec_step. cbn. discriminate.
    + match goal with |- context [quantumBytes URLEncoding ?l] =>
        destruct (quantumBytes_some l) as [out ->] end.
      repeat dec_step. cbn. discriminate.
    + match goal with |- context [quantumBytes URLEncoding ?l] =>
        destruct (quantumBytes_some l) as [out ->] end.
      repeat dec_step. cbn. discriminate.
  - cbn [EncodeToString].
    destruct dbuf as [|x [|y [|z [|? ?]]]]; cbn [List.length] in Hlen; try lia;
      repeat dec_step;
      match goal with |- context [quantumBytes URLEncoding ?l] =>
        destruct (quantumBytes_some l) as [out ->] end;
      repeat dec_step;
      match goal with |- context [decode URLEncoding ?e ?d] =>
        specialize (IH d ltac:(cbn; lia)); destruct (decode URLEncoding e d) as [more err] end;
      cbn in IH |- *; exact IH.
Qed.


Lemma DecodeSegment_padSegment (seg : string) :
  Jwt.DecodeSegment seg = decode URLEncoding (padSegment seg) [].
Proof. reflexivity. Qed.

Lemma containsByte_pad (val shift : Z) :
  GoStrings.containsByte "=" (encodeByte URLEncoding (sextet val shift)) = false.
Proof.
  pose proof (isPad_sextet val shift) as H.
  unfold GoStrings.containsByte. cbn [list_ascii_of_string existsb].
  rewrite orb_false_r. exact H.
Qed.

Lemma TrimRight_cons (c : ascii) (s cutset : string) :
  GoStrings.containsByte cutset c = false ->
  GoStrings.TrimRight (String c s) cutset = String c (GoStrings.TrimRight s cutset).
Proof.
  intros H. cbn [GoStrings.TrimRight]. rewrite H.
  destruct (GoStrings.TrimRight s cutset); reflexivity.
Qed.

Lemma EncodeSegment_cons3 (a b c : ascii) (rest : string) :
  Jwt.EncodeSegment (String a (String b (String c rest))) =
    let val := Z.lor (Z.lor (Z.shiftl (uint a) 16) (Z.shiftl (uint b) 8)) (uint c) in
    String (encodeByte URLEncoding (sextet val 18))
      (String (encodeByte URLEncoding (sextet val 12))
         (String (encodeByte URLEncoding (sextet val 6))
            (String (encodeByte URLEncoding (sextet val 0)) (Jwt.EncodeSegment rest)))).
Proof.
  unfold Jwt.EncodeSegment. cbn [EncodeToString]. cbv zeta.
  rewrite !TrimRight_cons by apply containsByte_pad. reflexivity.
Qed.

Lemma EncodeSegment_1 (a : ascii) :
  Jwt.EncodeSegment (String a "") =
    String (encodeByte URLEncoding (sextet (Z.shiftl (uint a) 16) 18))
      (String (encodeByte URLEncoding (sextet (Z.shiftl (uint a) 16) 12)) "").
Proof.
  unfold Jwt.EncodeSegment. cbn [EncodeToString]. cbv zeta.
  rewrite !TrimRight_cons by apply containsByte_pad. reflexivity.
Qed.

Lemma EncodeSegment_2 (a b : ascii) :
  Jwt.EncodeSegment (String a (String b "")) =
    let val := Z.lor (Z.shiftl (uint a) 16) (Z.shiftl (uint b) 8) in
    String (encodeByte URLEncoding (sextet val 18))
      (String (encodeByte URLEncoding (sextet val 12))
         (String (encodeByte URLEncoding (sextet val 6)) "")).
Proof.
  unfold Jwt.EncodeSegment. cbn [EncodeToString]. cbv zeta.
  rewrite !TrimRight_cons by apply containsByte_pad. reflexivity.
Qed.

Lemma padSegment_cons4 (a b c d : ascii) (s : string) :
  padSegment (String a (String b (String c (String d s))))
    = String a (String b (String c (String d (padSegment s)))).
Proof.
  unfold padSegment. cbn [String.length].
  replace (S (S (S (S (String.length s)))) mod 4)%nat with (String.length s mod 4)%nat.
  - destruct (0 <? String.length s mod 4)%nat; reflexivity.
  - change (S (S (S (S (String.length s))))) with (4 + String.length s)%nat.
    rewrite Nat.add_comm. replace (String.length s + 4)%nat with (String.length s + 1 * 4)%nat by lia.
    rewrite Nat.Div0.mod_add. reflexivity.
Qed.

Lemma padSegment_EncodeSegment (bs : string) :
  padSegment (Jwt.EncodeSegment bs) = EncodeToString URLEncoding bs.
Proof.
  induction bs as [|a|a b|a b c rest IH] using string_ind3.
  - reflexivity.
  - rewrite EncodeSegment_1. reflexivity.
  - rewrite EncodeSegment_2. reflexivity.
  - rewrite EncodeSegment_cons3. cbv zeta. rewrite padSegment_cons4, IH. reflexivity.
Qed.

(** The round trip of a segment. *)
Lemma DecodeSegment_EncodeSegment (bs : string) :
  Jwt.DecodeSegment (Jwt.EncodeSegment bs) = (bs, None).
Proof.
  rewrite DecodeSegment_padSegment, padSegment_EncodeSegment. apply decode_encode.
Qed.

Lemma replaceAt_length (i : nat) (c : ascii) (s : string) :
  String.length (replaceAt i c s) = String.length s.
Proof.
  revert i. induction s as [|d s IH]; intros [|i]; cbn; auto.
Qed.

Lemma replaceAt_append (i : nat) (c : ascii) (s t : string) :
  (i < String.length s)%nat ->
  (replaceAt i c s ++ t)%string = replaceAt i c (s ++ t)%string.
Proof.
  revert i. induction s as [|d s IH]; intros [|i] Hi; cbn [String.length] in Hi;
    try lia; [reflexivity|].
  change (String d (replaceAt i c s ++ t)%string = String d (replaceAt i c (s ++ t)%string)).
  rewrite IH by lia. reflexivity.
Qed.

Lemma padSegment_replaceAt (i : nat) (c : ascii) (seg : string) :
  (i < String.length seg)%nat ->
  padSegment (replaceAt i c seg) = replaceAt i c (padSegment seg).
Proof.
  intros Hi. unfold padSegment. rewrite replaceAt_length.
  destruct (0 <? String.length seg mod 4)%nat; [|reflexivity].
  apply replaceAt_append. exact Hi.
Qed.

Lemma quantum3_inj (a b c : ascii) (s0 s1 s2 s3 : Z) :
  sextets [s0; s1; s2; s3] ->
  (weight [s0; s1; s2; s3] / 65536) mod 256 = uint a ->
  (weight [s0; s1; s2; s3] / 256) mod 256 = uint b ->
  weight [s0; s1; s2; s3] mod 256 = uint c ->
  let val := Z.lor (Z.lor (Z.shiftl (uint a) 16) (Z.shiftl (uint b) 8)) (uint c) in
  s0 = sextet val 18 /\ s1 = sextet val 12 /\ s2 = sextet val 6 /\ s3 = sextet val 0.
Proof.
  intros Hs Ha Hb Hc val. subst val.
  pose proof (sextets_nth _ 0 Hs) as R0. pose proof (sextets_nth _ 1 Hs) as R1.
  pose proof (sextets_nth _ 2 Hs) as R2. pose proof (sextets_nth _ 3 Hs) as R3.
  cbn [nth] in R0, R1, R2, R3.
  pose proof (uint_range a). pose proof (uint_range b). pose proof (uint_range c).
  rewrite val3_arith by lia. rewrite !sextet_arith by lia.
  unfold weight in *. cbn [nth] in *.
  change (2 ^ 18) with 262144. change (2 ^ 12) with 4096. change (2 ^ 6) with 64.
  change (2 ^ 0) with 1. rewrite Z.div_1_r.
  Z.to_euclidean_division_equations; lia.
Qed.

Lemma quantum2_inj (a b : ascii) (s0 s1 s2 : Z) :
  sextets [s0; s1; s2] ->
  (weight [s0; s1; s2] / 65536) mod 256 = uint a ->
  (weight [s0; s1; s2] / 256) mod 256 = uint b ->
  let val := Z.lor (Z.shiftl (uint a) 16) (Z.shiftl (uint b) 8) in
  s0 = sextet val 18 /\ s1 = sextet val 12.
Proof.
  intros Hs Ha Hb val. subst val.
  pose proof (sextets_nth _ 0 Hs) as R0. pose proof (sextets_nth _ 1 Hs) as R1.
  pose proof (sextets_nth _ 2 Hs) as R2.
  cbn [nth] in R0, R1, R2.
  pose proof (uint_range a). pose proof (uint_range b).
  rewrite val2_arith by lia. rewrite !sextet_arith by lia.
  unfold weight in *. cbn [nth] in *.
  change (2 ^ 18) with 262144. change (2 ^ 12) with 4096.
  Z.to_euclidean_division_equations; lia.
Qed.

Lemma quantum1_inj (a : ascii) (s0 s1 : Z) :
  sextets [s0; s1] ->
  (weight [s0; s1] / 65536) mod 256 = uint a ->
  s0 = sextet (Z.shiftl (uint a) 16) 18.
Proof.
  intros Hs Ha.
  pose proof (sextets_nth _ 0 Hs) as R0. pose proof (sextets_nth _ 1 Hs) as R1.
  cbn [nth] in R0, R1.
  pose proof (uint_range a).
  rewrite Z.shiftl_mul_pow2 by lia. rewrite !sextet_arith by lia.
  unfold weight in *. cbn [nth] in *.
  change (2 ^ 18) with 262144. change (2 ^ 16) with 65536.
  Z.to_euclidean_division_equations; lia.
Qed.

Ltac char_cases c :=
  let Hm := fresh "Hm" in
  let Hn := fresh "Hn" in
  let Hp := fresh "Hp" in
  destruct (decodeMap URLEncoding c) as [?v|] eqn:Hm;
  [ let Hv := fresh "Hv" in
    pose proof (decodeMap_inv c _ Hm) as [Hv ?]
  | destruct (isNewline c) eqn:Hn; [|destruct (isPad URLEncoding c) eqn:Hp] ].

Ltac quantum_out :=
  match goal with
  | |- context [quantumBytes URLEncoding ?l] =>
      rewrite (quantumBytes_arith l) by sextets_tac; cbn [List.length]; cbv zeta
  end.

Ltac split_result :=
  match goal with
  | |- context [decode URLEncoding ?e ?d] =>
      let more := fresh "more" in
      let err := fresh "err" in
      destruct (decode URLEncoding e d) as [more err] eqn:?
  end.

Lemma skipNewlines_pad (rest : string) :
  skipNewlines (String "="%char rest) = String "="%char rest.
Proof. reflexivity. Qed.

Ltac dec_steps :=
  repeat (dec_step;
          rewrite ?skipNewlines_pad, ?skipNewlines_sextet, ?isPad_sextet;
          change (isPad URLEncoding "="%char) with true;
          change (skipNewlines "") with "";
          cbv iota).

Lemma tampered_encoding (bs : string) :
  forall (i : nat) (c : ascii),
  (i < String.length (Jwt.EncodeSegment bs))%nat ->
  String.get i (Jwt.EncodeSegment bs) <> Some c ->
  decode URLEncoding (replaceAt i c (EncodeToString URLEncoding bs)) [] = (bs, None) ->
  S i = String.length (Jwt.EncodeSegment bs).
Proof.
  induction bs as [|a|a b|a b c0 rest IH] using string_ind3; intros i c Hi Hget.
  - cbn in Hi. lia.
  - rewrite EncodeSegment_1 in Hi, Hget |- *. cbn [String.length] in Hi |- *.
    cbn [EncodeToString]. change (padding URLEncoding 2) with "==".
    destruct i as [|[|i]]; [|reflexivity|lia]. intros HD. exfalso. revert HD.
    cbn [replaceAt String.get] in Hget |- *.
    char_cases c; dec_steps; try (intros HD; discriminate HD).
    unfold afterPadding. quantum_out. change (skipNewlines "") with "". cbv iota.
    intros HD. injection HD as HD. apply byte_eq_iff in HD.
    apply quantum1_inj in HD; [|sextets_tac]. apply Hget. congruence.
  - rewrite EncodeSegment_2 in Hi, Hget |- *. cbv zeta in Hi, Hget |- *.
    cbn [String.length] in Hi |- *.
    cbn [EncodeToString]. change (padding URLEncoding 1) with "=".
    destruct i as [|[|[|i]]]; [| |reflexivity|lia]; intros HD; exfalso; revert HD;
      cbn [replaceAt String.get] in Hget |- *;
      char_cases c; dec_steps; try (intros HD; discriminate HD);
      unfold afterPadding; quantum_out; change (skipNewlines "") with ""; cbv iota;
      intros HD; injection HD as H1 H2; apply byte_eq_iff in H1, H2;
      match type of H1 with
      | context [weight ?l] =>
          assert (Hs : sextets l) by sextets_tac;
          destruct (quantum2_inj a b _ _ _ Hs H1 H2) as [E0 E1]
      end;
      apply Hget; congruence.
  - rewrite EncodeSegment_cons3 in Hi, Hget |- *. cbv zeta in Hi, Hget |- *.
    cbn [String.length] in Hi |- *. cbn [EncodeToString].
    destruct i as [|[|[|[|i]]]].
    5:{ cbn [replaceAt String.get] in Hget |- *. dec_steps. quantum_out.
        rewrite quantum3. split_result. intros HD. injection HD as _ _ _ Hmore Herr.
        subst. f_equal. f_equal. f_equal. f_equal. apply (IH i c); [lia|exact Hget|].
        assumption. }
    all: intros HD; exfalso; revert HD; cbn [replaceAt String.get] in Hget |- *.
    all: char_cases c; dec_steps; try (intros HD; discriminate HD).
    all: first
      [ quantum_out; split_result; intros HD; injection HD as H1 H2 H3 _ _;
        apply byte_eq_iff in H1, H2, H3;
        match type of H1 with
        | context [weight ?l] =>
            assert (Hs : sextets l) by sextets_tac;
            destruct (quantum3_inj a b c0 _ _ _ _ Hs H1 H2 H3) as (E0 & E1 & E2 & E3)
        end;
        apply Hget; congruence
      | intros HD;
        match type of HD with
        | decode _ _ ?d = _ =>
            apply (decode_misaligned rest d); [cbn; lia | rewrite HD; reflexivity]
        end
      | unfold afterPadding; quantum_out;
        destruct (skipNewlines (EncodeToString URLEncoding rest));
        intros HD; discriminate HD ].
Qed.
Lemma decodeMap_encodeByte_inj (val shift v : Z) :
  decodeMap URLEncoding (encodeByte URLEncoding (sextet val shift)) = Some v ->
  v = sextet val shift.
Proof. rewrite decodeMap_sextet. congruence. Qed.

Lemma quantum1_slack (a : ascii) (v : Z) :
  0 <= v < 64 -> v / 16 = sextet (Z.shiftl (uint a) 16) 12 / 16 ->
  (weight [sextet (Z.shiftl (uint a) 16) 18; v] / 65536) mod 256 = uint a.
Proof.
  intros Hv. pose proof (uint_range a).
  rewrite Z.shiftl_mul_pow2 by lia. rewrite !sextet_arith by lia.
  unfold weight. cbn [nth].
  change (2 ^ 18) with 262144. change (2 ^ 16) with 65536. change (2 ^ 12) with 4096.
  intros Hslack. Z.to_euclidean_division_equations; lia.
Qed.

(** The last character of the encoding of [3k + 1] bytes carries four
    bits that [decode] drops: another character with the same two
    leading bits decodes to the same bytes. *)
Lemma last_character_slack (bs : string) :
  (String.length bs mod 3 = 1)%nat ->
  forall (c0 c' : ascii) (v0 v' : Z),
  String.get (String.length (Jwt.EncodeSegment bs) - 1) (Jwt.EncodeSegment bs) = Some c0 ->
  decodeMap URLEncoding c0 = Some v0 ->
  decodeMap URLEncoding c' = Some v' ->
  v' / 16 = v0 / 16 ->
  Jwt.DecodeSegment
    (replaceAt (String.length (Jwt.EncodeSegment bs) - 1) c' (Jwt.EncodeSegment bs))
    = (bs, None).
Proof.
  induction bs as [|a|a b|a b c rest IH] using string_ind3;
    intros Hlen c0 c' v0 v' Hget Hc0 Hc' Hslack.
  - discriminate Hlen.
  - rewrite EncodeSegment_1 in Hget |- *. cbn [String.length Nat.sub String.get] in Hget |- *.
    injection Hget as <-. apply decodeMap_encodeByte_inj in Hc0. subst v0.
    pose proof (decodeMap_inv c' v' Hc') as [Hv' _].
    rewrite DecodeSegment_padSegment. cbn [replaceAt].
    change (padSegment (String ?x (String c' ""))) with (String x (String c' "==")).
    dec_steps. unfold afterPadding. quantum_out. cbn [skipNewlines].
    f_equal. f_equal. apply byte_eq_iff. apply quantum1_slack; assumption.
  - discriminate Hlen.
  - assert (Hrest : (String.length rest mod 3 = 1)%nat).
    { cbn [String.length] in Hlen.
      change (S (S (S (String.length rest)))) with (3 + String.length rest)%nat in Hlen.
      rewrite Nat.add_comm in Hlen.
      replace (String.length rest + 3)%nat with (String.length rest + 1 * 3)%nat in Hlen by lia.
      rewrite Nat.Div0.mod_add in Hlen. exact Hlen. }
    assert (Hpos : (0 < String.length (Jwt.EncodeSegment rest))%nat).
    { destruct rest as [|r0 [|r1 [|r2 rest']]].
      - discriminate Hrest.
      - rewrite EncodeSegment_1. cbn. lia.
      - rewrite EncodeSegment_2. cbn. lia.
      - rewrite EncodeSegment_cons3. cbn. lia. }
    rewrite EncodeSegment_cons3 in Hget |- *. cbv zeta in Hget |- *.
    cbn [String.length] in Hget |- *.
    replace (S (S (S (S (String.length (Jwt.EncodeSegment rest))))) - 1)%nat
      with (S (S (S (S (String.length (Jwt.EncodeSegment rest) - 1)))))%nat in Hget |- * by lia.
    cbn [String.get replaceAt] in Hget |- *.
    rewrite DecodeSegment_padSegment, padSegment_cons4.
    specialize (IH Hrest c0 c' v0 v' Hget Hc0 Hc' Hslack).
    rewrite DecodeSegment_padSegment in IH.
    dec_steps. quantum_out. rewrite quantum3, IH.
    pose proof (uint_range a). pose proof (uint_range b). pose proof (uint_range c).
    f_equal. cbv [String.append]. f_equal; [|f_equal; [|f_equal]]; apply byte_eq_iff;
      Z.to_euclidean_division_equations; lia.
Qed.


Lemma quantum1_checked (a : ascii) (v : Z) :
  0 <= v < 64 ->
  (weight [sextet (Z.shiftl (uint a) 16) 18; v] / 65536) mod 256 = uint a ->
  v / 16 = sextet (Z.shiftl (uint a) 16) 12 / 16.
Proof.
  intros Hv. pose proof (uint_range a).
  rewrite Z.shiftl_mul_pow2 by lia. rewrite !sextet_arith by lia.
  unfold weight. cbn [nth].
  change (2 ^ 18) with 262144. change (2 ^ 16) with 65536. change (2 ^ 12) with 4096.
  intros Hbyte. Z.to_euclidean_division_equations; lia.
Qed.

(** Conversely, the two leading bits of that last character are
    checked: a replacement under which the segment still decodes to the
    same bytes is a character of the alphabet with the same two leading
    bits. *)
Lemma last_character_checked (bs : string) :
  (String.length bs mod 3 = 1)%nat ->
  forall (c0 c' : ascii) (v0 : Z),
  String.get (String.length (Jwt.EncodeSegment bs) - 1) (Jwt.EncodeSegment bs) = Some c0 ->
  decodeMap URLEncoding c0 = Some v0 ->
  Jwt.DecodeSegment
    (replaceAt (String.length (Jwt.EncodeSegment bs) - 1) c' (Jwt.EncodeSegment bs))
    = (bs, None) ->
  exists v' : Z, decodeMap URLEncoding c' = Some v' /\ v' / 16 = v0 / 16.
Proof.
  induction bs as [|a|a b|a b c rest IH] using string_ind3;
    intros Hlen c0 c' v0 Hget Hc0.
  - discriminate Hlen.
  - rewrite EncodeSegment_1 in Hget |- *. cbn [String.length Nat.sub String.get] in Hget |- *.
    injection Hget as <-. apply decodeMap_encodeByte_inj in Hc0. subst v0.
    rewrite DecodeSegment_padSegment. cbn [replaceAt].
    change (padSegment (String ?x (String c' ""))) with (String x (String c' "==")).
    char_cases c'; dec_steps; try (intros HD; discriminate HD).
    unfold afterPadding. quantum_out. change (skipNewlines "") with "". cbv iota.
    intros HD. injection HD as HD. apply byte_eq_iff in HD.
    eexists. split; [reflexivity|]. apply quantum1_checked; assumption.
  - discriminate Hlen.
  - assert (Hrest : (String.length rest mod 3 = 1)%nat).
    { cbn [String.length] in Hlen.
      change (S (S (S (String.length rest)))) with (3 + String.length rest)%nat in Hlen.
      rewrite Nat.add_comm in Hlen.
      replace (String.length rest + 3)%nat with (String.length rest + 1 * 3)%nat in Hlen by lia.
      rewrite Nat.Div0.mod_add in Hlen. exact Hlen. }
    assert (Hpos : (0 < String.length (Jwt.EncodeSegment rest))%nat).
    { destruct rest as [|r0 [|r1 [|r2 rest']]].
      - discriminate Hrest.
      - rewrite EncodeSegment_1. cbn. lia.
      - rewrite EncodeSegment_2. cbn. lia.
      - rewrite EncodeSegment_cons3. cbn. lia. }
    rewrite EncodeSegment_cons3 in Hget |- *. cbv zeta in Hget |- *.
    cbn [String.length] in Hget |- *.
    replace (S (S (S (S (String.length (Jwt.EncodeSegment rest))))) - 1)%nat
      with (S (S (S (S (String.length (Jwt.EncodeSegment rest) - 1)))))%nat in Hget |- * by lia.
    cbn [String.get replaceAt] in Hget |- *.
    rewrite DecodeSegment_padSegment, padSegment_cons4.
    dec_steps. quantum_out. rewrite quantum3. split_result.
    intros HD. injection HD as _ _ _ Hmore Herr. subst.
    apply (IH Hrest c0 c' v0 Hget Hc0).
    rewrite DecodeSegment_padSegment. assumption.
Qed.

End Base64Facts.

(** ** Splitting, and the segments of a token *)

Module StringFacts.
Import GoStrings.

Lemma append_assoc (s1 s2 s3 : string) :
  ((s1 ++ s2) ++ s3)%string = (s1 ++ (s2 ++ s3))%string.
Proof.
  induction s1 as [|c s1 IH]; [reflexivity|].
  change (String c ((s1 ++ s2) ++ s3)%string = String c (s1 ++ (s2 ++ s3))%string).
  rewrite IH. reflexivity.
Qed.

Lemma length_append (s1 s2 : string) :
  String.length (s1 ++ s2)%string = (String.length s1 + String.length s2)%nat.
Proof.
  induction s1 as [|c s1 IH]; [reflexivity|].
  change (S (String.length (s1 ++ s2)%string) = S (String.length s1 + String.length s2)).
  rewrite IH. reflexivity.
Qed.

Lemma containsByte_cons (d : ascii) (s : string) (c : ascii) :
  containsByte (String d s) c = Ascii.eqb c d || containsByte s c.
Proof. reflexivity. Qed.

Lemma containsByte_append (s t : string) (c : ascii) :
  containsByte (s ++ t)%string c = containsByte s c || containsByte t c.
Proof.
  induction s as [|d s IH]; [reflexivity|].
  change (containsByte (String d (s ++ t)%string) c
          = containsByte (String d s) c || containsByte t c).
  rewrite !containsByte_cons, IH, orb_assoc. reflexivity.
Qed.

Lemma containsByte_replaceAt (i : nat) (c' : ascii) (s : string) (c : ascii) :
  containsByte s c = false -> Ascii.eqb c c' = false ->
  containsByte (replaceAt i c' s) c = false.
Proof.
  revert i. induction s as [|d s IH]; intros i Hs Hc; [destruct i; reflexivity|].
  rewrite containsByte_cons in Hs. apply orb_false_iff in Hs as [Hd Hs].
  destruct i as [|i]; cbn [replaceAt]; rewrite containsByte_cons.
  - rewrite Hc, Hs. reflexivity.
  - rewrite Hd, IH by assumption. reflexivity.
Qed.

Lemma prefix_cons (a : ascii) (p : string) (b : ascii) (s : string) :
  String.prefix (String a p) (String b s) = Ascii.eqb a b && String.prefix p s.
Proof.
  cbn [String.prefix]. destruct (ascii_dec a b) as [->|Hne].
  - rewrite Ascii.eqb_refl. reflexivity.
  - apply Ascii.eqb_neq in Hne. rewrite Hne. reflexivity.
Qed.

Lemma prefix_nil (s : string) : String.prefix "" s = true.
Proof. destruct s; reflexivity. Qed.

Lemma prefix_containsByte (sep s : string) (c : ascii) :
  containsByte sep c = true -> String.prefix sep s = true -> containsByte s c = true.
Proof.
  revert s. induction sep as [|a sep IH]; intros s Hc Hp; [discriminate|].
  destruct s as [|b s]; [discriminate|].
  rewrite prefix_cons in Hp. apply andb_true_iff in Hp as [Hab Hp].
  apply Ascii.eqb_eq in Hab. subst b.
  rewrite containsByte_cons in Hc |- *. destruct (Ascii.eqb c a); [reflexivity|].
  cbn [orb] in Hc |- *. apply IH; assumption.
Qed.

Lemma cutAt_absent (sep s : string) (c : ascii) :
  containsByte sep c = true -> containsByte s c = false -> cutAt sep s = None.
Proof.
  intros Hsep. induction s as [|d s IH]; intros Hs.
  - destruct sep; [discriminate|reflexivity].
  - cbn [cutAt]. destruct (String.prefix sep (String d s)) eqn:Hp.
    + rewrite (prefix_containsByte _ _ _ Hsep Hp) in Hs. discriminate.
    + rewrite containsByte_cons in Hs. apply orb_false_iff in Hs as [_ Hs].
      rewrite IH by exact Hs. reflexivity.
Qed.

Lemma cutAt_char (c : ascii) (h rest : string) :
  containsByte h c = false ->
  cutAt (String c "") (h ++ String c rest)%string = Some (h, rest).
Proof.
  induction h as [|d h IH]; intros Hh.
  - change ("" ++ String c rest)%string with (String c rest). cbn [cutAt].
    rewrite prefix_cons, Ascii.eqb_refl. destruct rest; reflexivity.
  - rewrite containsByte_cons in Hh. apply orb_false_iff in Hh as [Hd Hh].
    change (String d h ++ String c rest)%string with (String d (h ++ String c rest)%string).
    cbn [cutAt]. rewrite prefix_cons, Hd. cbn [andb]. rewrite IH by exact Hh. reflexivity.
Qed.

Lemma prefix_drop_length (sep s : string) :
  String.prefix sep s = true ->
  String.length s = (String.length sep + String.length (drop (String.length sep) s))%nat.
Proof.
  revert s. induction sep as [|a sep IH]; intros s Hp; [destruct s; reflexivity|].
  destruct s as [|b s]; [discriminate|].
  rewrite prefix_cons in Hp. apply andb_true_iff in Hp as [_ Hp].
  cbn [String.length drop]. rewrite (IH s Hp) at 1. reflexivity.
Qed.

Lemma cutAt_shorter (sep s a b : string) :
  sep <> "" -> cutAt sep s = Some (a, b) -> (String.length b < String.length s)%nat.
Proof.
  intros Hsep. revert a. induction s as [|d s IH]; intros a Hcut.
  - destruct sep; [congruence|discriminate].
  - cbn [cutAt] in Hcut. destruct (String.prefix sep (String d s)) eqn:Hp.
    + injection Hcut as _ <-. apply prefix_drop_length in Hp.
      destruct sep; [congruence|]. cbn [String.length] in *. lia.
    + destruct (cutAt sep s) as [[a' b']|] eqn:Hc; [|discriminate].
      injection Hcut as _ <-. specialize (IH a' eq_refl). cbn [String.length]. lia.
Qed.

Lemma genSplit_nonempty (n : nat) (sep s : string) : genSplit n sep s <> [].
Proof. destruct n; cbn; [discriminate|]. destruct (cutAt sep s) as [[? ?]|]; discriminate. Qed.

Lemma Split_two (sep s a b : string) :
  sep <> "" -> cutAt sep s = Some (a, b) -> cutAt sep b = None -> Split s sep = [a; b].
Proof.
  intros Hsep H1 H2. pose proof (cutAt_shorter _ _ _ _ Hsep H1) as L1.
  change (Split s sep) with (genSplit (Count s sep) sep s). unfold Count.
  destruct (String.length s) as [|n]; [lia|].
  cbn [countFrom]. rewrite H1.
  replace (countFrom n sep b) with 0%nat by (destruct n; cbn; rewrite ?H2; reflexivity).
  cbn [genSplit]. rewrite H1. reflexivity.
Qed.

Lemma Split_three (sep s a s1 b s2 : string) :
  sep <> "" -> cutAt sep s = Some (a, s1) -> cutAt sep s1 = Some (b, s2) ->
  cutAt sep s2 = None -> Split s sep = [a; b; s2].
Proof.
  intros Hsep H1 H2 H3.
  pose proof (cutAt_shorter _ _ _ _ Hsep H1) as L1.
  pose proof (cutAt_shorter _ _ _ _ Hsep H2) as L2.
  change (Split s sep) with (genSplit (Count s sep) sep s). unfold Count.
  destruct (String.length s) as [|[|n]]; [lia|lia|].
  cbn [countFrom]. rewrite H1, H2.
  replace (countFrom n sep s2) with 0%nat by (destruct n; cbn; rewrite ?H3; reflexivity).
  cbn [genSplit]. rewrite H1, H2. reflexivity.
Qed.

Lemma Split_four (sep s a s1 b s2 c s3 : string) :
  sep <> "" -> cutAt sep s = Some (a, s1) -> cutAt sep s1 = Some (b, s2) ->
  cutAt sep s2 = Some (c, s3) ->
  exists d rest, Split s sep = a :: b :: c :: d :: rest.
Proof.
  intros Hsep H1 H2 H3.
  pose proof (cutAt_shorter _ _ _ _ Hsep H1) as L1.
  pose proof (cutAt_shorter _ _ _ _ Hsep H2) as L2.
  pose proof (cutAt_shorter _ _ _ _ Hsep H3) as L3.
  change (Split s sep) with (genSplit (Count s sep) sep s). unfold Count.
  destruct (String.length s) as [|[|[|n]]]; [lia|lia|lia|].
  cbn [countFrom]. rewrite H1, H2, H3. cbn [genSplit]. rewrite H1, H2, H3.
  destruct (genSplit (countFrom n sep s3) sep s3) as [|d rest] eqn:Hg.
  - exfalso. exact (genSplit_nonempty _ _ _ Hg).
  - eauto.
Qed.

End StringFacts.

Module TokenFacts.
Import GoStrings Base64 Jwt Base64Facts StringFacts.

Lemma EncodeSegment_without (bs : string) (c : ascii) :
  decodeMap URLEncoding c = None -> containsByte (EncodeSegment bs) c = false.
Proof.
  intros Hc.
  assert (Hne : forall val shift,
             Ascii.eqb c (encodeByte URLEncoding (sextet val shift)) = false).
  { intros val shift. apply Ascii.eqb_neq. intros ->.
    rewrite decodeMap_sextet in Hc. discriminate. }
  induction bs as [|a|a b|a b c0 rest IH] using string_ind3.
  - reflexivity.
  - rewrite EncodeSegment_1, !containsByte_cons, !Hne. reflexivity.
  - rewrite EncodeSegment_2. cbv zeta. rewrite !containsByte_cons, !Hne. reflexivity.
  - rewrite EncodeSegment_cons3. cbv zeta. rewrite !containsByte_cons, !Hne, IH. reflexivity.
Qed.

Lemma Split_segments (h p s : string) :
  containsByte h dot = false -> containsByte p dot = false -> containsByte s dot = false ->
  Split ((h ++ "." ++ p) ++ "." ++ s)%string "." = [h; p; s].
Proof.
  intros Hh Hp Hs. rewrite append_assoc.
  apply (Split_three "." _ h ((p ++ "." ++ s)%string) p s); [discriminate| | |].
  - change ("." ++ p ++ "." ++ s)%string with (String dot (p ++ "." ++ s)%string).
    apply cutAt_char. exact Hh.
  - change ("." ++ s)%string with (String dot s). apply cutAt_char. exact Hp.
  - apply (cutAt_absent "." s dot); [reflexivity|exact Hs].
Qed.

Lemma Split_bearer (token : string) :
  containsByte token " "%char = false ->
  Split ("Bearer " ++ token)%string "Bearer " = [""; token].
Proof.
  intros Ht. apply Split_two; [discriminate| |].
  - change ("Bearer " ++ token)%string
      with (String "B" (String "e" (String "a" (String "r" (String "e" (String "r"
              (String " " token))))))).
    cbn [cutAt]. rewrite !prefix_cons, prefix_nil. reflexivity.
  - apply (cutAt_absent _ _ " "%char); [reflexivity|exact Ht].
Qed.

End TokenFacts.

Section Issued.

Import GoStrings Base64 Jwt Base64Facts StringFacts TokenFacts Services.

Context `{Collaborators}.

Variables (now : GoTime.Time) (cfg : Config) (groups : list string)
  (username : string) (admin : bool).

Let claims : AuthJWTClaims := issuedClaims now cfg groups username admin.
Let signed : string := (headerSegment ++ "." ++ payloadSegment claims)%string.

Let token : string := issuedToken now cfg groups username admin.

Lemma generateUserToken_issues :
  generateUserToken now (Some cfg) groups username admin = Ret (token, None).
Proof.
  unfold generateUserToken, token, issuedToken, issuedClaims, expiry.
  cbn [deref bind]. destruct (GoTime.ParseDuration (TokenLifeTime cfg)) as [duration err].
  reflexivity.
Qed.

Hypothesis header_round_trip :
  jsonUnmarshalHeader (jsonMarshalHeader (headerOf SigningMethodHS512))
    = Ok (headerOf SigningMethodHS512).
Hypothesis claims_round_trip : jsonDecodeClaims (jsonMarshalClaims claims) = Ok claims.

Lemma ParseUnverified_issued (sig : string) :
  containsByte sig dot = false ->
  ParseUnverified (signed ++ "." ++ sig)%string
    = (Some (parsedToken claims (signed ++ "." ++ sig)%string "" false),
       [headerSegment; payloadSegment claims; sig], None).
Proof.
  intros Hsig. unfold ParseUnverified, signed.
  rewrite Split_segments by (try exact Hsig; apply EncodeSegment_without; reflexivity).
  cbv beta iota. unfold headerSegment, payloadSegment.
  rewrite !DecodeSegment_EncodeSegment, header_round_trip, claims_round_trip.
  reflexivity.
Qed.

Lemma StandardClaimsValid_issued (later : GoTime.Time) :
  StandardClaimsValid later (Standard claims)
    = if verifyExp (expiry now cfg) (GoTime.Unix later) false then None
      else Some (ValidationError (Some (errorString "token is expired"))
                   ValidationErrorExpired "").
Proof.
  unfold StandardClaimsValid, claims, issuedClaims. cbn [Standard ExpiresAt IssuedAt NotBefore].
  destruct (verifyExp (expiry now cfg) (GoTime.Unix later) false); reflexivity.
Qed.

Lemma ParseWithClaims_issued (later : GoTime.Time) (sig : string) :
  containsByte sig dot = false ->
  ParseWithClaims later (signed ++ "." ++ sig)%string signingKey
    = let raw := (signed ++ "." ++ sig)%string in
      let expired := negb (verifyExp (expiry now cfg) (GoTime.Unix later) false) in
      match Verify SigningMethodHS512 signed sig signingKey with
      | Some err =>
          (Some (parsedToken claims raw sig false),
           Some (ValidationError (Some err)
                   (N.lor (if expired then ValidationErrorExpired else 0%N)
                      ValidationErrorSignatureInvalid) ""))
      | None =>
          if expired then
            (Some (parsedToken claims raw sig false),
             Some (ValidationError (Some (errorString "token is expired"))
                     ValidationErrorExpired ""))
          else (Some (parsedToken claims raw sig true), None)
      end.
Proof.
  intros Hsig. unfold ParseWithClaims. rewrite (ParseUnverified_issued sig Hsig).
  cbn [parsedToken Claims Method Raw Header nth]. rewrite StandardClaimsValid_issued.
  fold signed.
  destruct (verifyExp (expiry now cfg) (GoTime.Unix later) false);
    destruct (Verify SigningMethodHS512 signed sig signingKey); reflexivity.
Qed.

Lemma signatureSegment_without (s : string) (c : ascii) :
  decodeMap URLEncoding c = None -> containsByte (signatureSegment s) c = false.
Proof. apply EncodeSegment_without. Qed.

Lemma Verify_issued : Verify SigningMethodHS512 signed (signatureSegment signed) signingKey = None.
Proof.
  unfold Verify, SigningMethodHS512, signatureSegment.
  rewrite DecodeSegment_EncodeSegment, String.eqb_refl. reflexivity.
Qed.

Lemma issuedToken_without (c : ascii) :
  decodeMap URLEncoding c = None -> Ascii.eqb c dot = false ->
  containsByte token c = false.
Proof.
  intros Hc Hdot. unfold token, issuedToken, headerSegment, payloadSegment, signatureSegment.
  rewrite !containsByte_append, !EncodeSegment_without by exact Hc.
  change (containsByte "." c) with (Ascii.eqb c dot || false). rewrite Hdot. reflexivity.
Qed.

Lemma bearerToken_issued (r : Http.Request) (bearer : string) :
  bearer <> "" -> containsByte bearer " "%char = false ->
  Http.Get (Http.RequestHeader r) "Authorization" = ("Bearer " ++ bearer)%string ->
  bearerToken r = Ret (Ok bearer).
Proof.
  intros Hne Hsp Hr. unfold bearerToken. rewrite Hr.
  assert (Hp : HasPrefix ("Bearer " ++ bearer)%string bearerPrefix = true).
  { unfold HasPrefix, bearerPrefix.
    change ("Bearer " ++ bearer)%string
      with (String "B" (String "e" (String "a" (String "r" (String "e" (String "r"
              (String " " bearer))))))).
    rewrite !prefix_cons, prefix_nil. reflexivity. }
  rewrite Hp. rewrite length_append.
  destruct bearer as [|c bearer]; [congruence|]. cbn [String.length Nat.add Nat.ltb Nat.leb negb orb].
  unfold bearerPrefix. rewrite Split_bearer by exact Hsp. reflexivity.
Qed.

End Issued.

Section Verification.

Import GoStrings Base64 Jwt Base64Facts StringFacts TokenFacts Services.

Context `{Collaborators}.

Lemma verifyExp_before (exp now : Z) : (now <= exp)%Z -> verifyExp exp now false = true.
Proof. intros Hle. unfold verifyExp. destruct (exp =? 0)%Z; [reflexivity|]. apply Z.leb_le, Hle. Qed.

Lemma verifyExp_after (exp now : Z) :
  (exp < now)%Z -> exp <> 0%Z -> verifyExp exp now false = false.
Proof.
  intros Hlt Hne. unfold verifyExp. destruct (Z.eqb_spec exp 0); [congruence|].
  apply Z.leb_gt, Hlt.
Qed.

Lemma CurrentJWT_issued (now later : GoTime.Time) (cfg : Config) (groups : list string)
  (username : string) (admin : bool) (w : Http.ResponseWriter) (r : Http.Request) :
  let claims := issuedClaims now cfg groups username admin in
  jsonUnmarshalHeader (jsonMarshalHeader (headerOf SigningMethodHS512))
    = Ok (headerOf SigningMethodHS512) ->
  jsonDecodeClaims (jsonMarshalClaims claims) = Ok claims ->
  Http.Get (Http.RequestHeader r) "Authorization"
    = ("Bearer " ++ issuedToken now cfg groups username admin)%string ->
  CurrentJWT later w r =
    if verifyExp (expiry now cfg) (GoTime.Unix later) false
    then Ret (Some claims, None)
    else Ret (None, Some (ValidationError (Some (errorString "token is expired"))
                            ValidationErrorExpired "")).
Proof.
  intros claims Hh Hc Hr. unfold CurrentJWT.
  rewrite (bearerToken_issued r (issuedToken now cfg groups username admin)); [| | |exact Hr].
  - cbn [bind]. unfold issuedToken.
    rewrite (ParseWithClaims_issued now cfg groups username admin Hh Hc)
      by (apply signatureSegment_without; reflexivity).
    cbv zeta. rewrite Verify_issued.
    destruct (verifyExp (expiry now cfg) (GoTime.Unix later) false); reflexivity.
  - unfold issuedToken. intros E. apply (f_equal String.length) in E.
    rewrite !length_append in E. cbn in E. lia.
  - apply issuedToken_without; reflexivity.
Qed.

End Verification.

Section Tamper.

Import GoStrings Base64 Jwt Base64Facts StringFacts TokenFacts Services.

Lemma replaceAt_decompose (i : nat) (c : ascii) (s : string) :
  (i < String.length s)%nat ->
  exists pre post,
    replaceAt i c s = (pre ++ String c post)%string /\
    forall d, containsByte s d = false ->
              containsByte pre d = false /\ containsByte post d = false.
Proof.
  revert i. induction s as [|e s IH]; intros i Hi; cbn [String.length] in Hi; [lia|].
  destruct i as [|i].
  - exists "", s. split; [reflexivity|]. intros d Hd.
    rewrite containsByte_cons in Hd. apply orb_false_iff in Hd as [_ Hd]. auto.
  - destruct (IH i ltac:(lia)) as (pre & post & Heq & Hfree).
    exists (String e pre), post. split.
    + cbn [replaceAt]. rewrite Heq. reflexivity.
    + intros d Hd. rewrite containsByte_cons in Hd. apply orb_false_iff in Hd as [Hde Hd].
      destruct (Hfree d Hd) as [Hpre Hpost]. rewrite containsByte_cons, Hde, Hpre. auto.
Qed.

Context `{Collaborators}.

Lemma ParseWithClaims_segments (later : GoTime.Time) (token key : string) :
  (forall p0 p1 p2, Split token "." <> [p0; p1; p2]) ->
  ParseWithClaims later token key
    = (None, Some (NewValidationError "token contains an invalid number of segments"
                     ValidationErrorMalformed)).
Proof.
  intros Hparts. unfold ParseWithClaims, ParseUnverified.
  destruct (Split token ".") as [|p0 [|p1 [|p2 [|p3 rest]]]] eqn:Hs; try reflexivity.
  exfalso. exact (Hparts _ _ _ eq_refl).
Qed.

Variables (now : GoTime.Time) (cfg : Config) (groups : list string)
  (username : string) (admin : bool).

Let claims : AuthJWTClaims := issuedClaims now cfg groups username admin.
Let signed : string := (headerSegment ++ "." ++ payloadSegment claims)%string.
Let sig : string := signatureSegment signed.

Hypothesis header_round_trip :
  jsonUnmarshalHeader (jsonMarshalHeader (headerOf SigningMethodHS512))
    = Ok (headerOf SigningMethodHS512).
Hypothesis claims_round_trip : jsonDecodeClaims (jsonMarshalClaims claims) = Ok claims.

(** A byte of the signature segment replaced by the separator: the token
    has four segments. *)
Lemma signature_separator (later : GoTime.Time) (i : nat) :
  (i < String.length sig)%nat ->
  ParseWithClaims later (signed ++ "." ++ replaceAt i dot sig)%string signingKey
    = (None, Some (NewValidationError "token contains an invalid number of segments"
                     ValidationErrorMalformed)).
Proof.
  intros Hi. apply ParseWithClaims_segments. intros p0 p1 p2 Hs.
  destruct (replaceAt_decompose i dot sig Hi) as (pre & post & Heq & Hfree).
  destruct (Hfree dot (signatureSegment_without signed dot eq_refl)) as [Hpre Hpost].
  destruct (Split_four "." ((signed ++ "." ++ replaceAt i dot sig)%string)
              headerSegment (payloadSegment claims ++ "." ++ replaceAt i dot sig)%string
              (payloadSegment claims) (replaceAt i dot sig) pre post) as (d & rest & Hfour).
  - discriminate.
  - unfold signed. rewrite append_assoc.
    change ("." ++ payloadSegment claims ++ "." ++ replaceAt i dot sig)%string
      with (String dot (payloadSegment claims ++ "." ++ replaceAt i dot sig)%string).
    apply cutAt_char, EncodeSegment_without. reflexivity.
  - change ("." ++ replaceAt i dot sig)%string with (String dot (replaceAt i dot sig)).
    apply cutAt_char, EncodeSegment_without. reflexivity.
  - rewrite Heq. apply cutAt_char. exact Hpre.
  - congruence.
Qed.

(** Any other byte, anywhere but at the end of the signature segment:
    the signature no longer decodes to the code of the signed text. *)
Lemma signature_byte (later : GoTime.Time) (i : nat) (c : ascii) :
  (S i < String.length sig)%nat -> String.get i sig <> Some c -> c <> dot ->
  exists err,
    Verify SigningMethodHS512 signed (replaceAt i c sig) signingKey = Some err.
Proof.
  intros Hi Hget Hc. unfold Verify, SigningMethodHS512.
  rewrite DecodeSegment_padSegment, padSegment_replaceAt by lia.
  unfold sig, signatureSegment. rewrite padSegment_EncodeSegment.
  destruct (decode URLEncoding
              (replaceAt i c (EncodeToString URLEncoding (hmacSum SHA512 signingKey signed))) [])
    as [bytes [e|]] eqn:Hdec; [eauto|].
  destruct (String.eqb_spec bytes (hmacSum SHA512 signingKey signed)) as [->|Hne]; [|eauto].
  exfalso. apply tampered_encoding in Hdec; [|unfold sig, signatureSegment in Hi; lia|exact Hget].
  unfold sig, signatureSegment in Hi. lia.
Qed.

Lemma signature_tampered (later : GoTime.Time) (i : nat) (c : ascii) :
  (S i < String.length sig)%nat -> String.get i sig <> Some c ->
  exists tok inner flags text,
    ParseWithClaims later (signed ++ "." ++ replaceAt i c sig)%string signingKey
      = (tok, Some (ValidationError inner flags text)) /\
    (if Ascii.eqb c dot then flags = ValidationErrorMalformed
     else N.land flags ValidationErrorSignatureInvalid = ValidationErrorSignatureInvalid).
Proof.
  intros Hi Hget. destruct (Ascii.eqb_spec c dot) as [->|Hc].
  - rewrite signature_separator by lia. unfold NewValidationError. do 4 eexists.
    split; reflexivity.
  - destruct (signature_byte later i c Hi Hget Hc) as [err Hv].
    rewrite (ParseWithClaims_issued now cfg groups username admin
               header_round_trip claims_round_trip).
    + cbv zeta. fold claims signed. rewrite Hv. do 4 eexists. split; [reflexivity|].
      destruct (negb (verifyExp (expiry now cfg) (GoTime.Unix later) false)); reflexivity.
    + apply containsByte_replaceAt; [apply signatureSegment_without; reflexivity|].
      apply Ascii.eqb_neq. congruence.
Qed.

Lemma ParseWithClaims_bad_signature (later : GoTime.Time) (token key : string)
  (tok : Token) (parts : list string) (m : SigningMethod) (err : error) :
  ParseUnverified token = (Some tok, parts, None) ->
  Method tok = Some m ->
  Verify m (nth 0 parts "" ++ "." ++ nth 1 parts "")%string (nth 2 parts "") key = Some err ->
  exists t e, ParseWithClaims later token key = (t, Some e).
Proof.
  intros Hparse Hm Hv. unfold ParseWithClaims. rewrite Hparse.
  destruct (match StandardClaimsValid later (Standard (Claims tok)) with
            | Some (ValidationError inner flags _) => (inner, flags)
            | Some e => (Some e, ValidationErrorClaimsInvalid)
            | None => (None, 0%N)
            end) as [vInner vErrors].
  cbn [Method]. rewrite Hm, Hv.
  destruct (N.eqb_spec (N.lor vErrors ValidationErrorSignatureInvalid) 0) as [E|_]; [|eauto].
  apply N.lor_eq_0_iff in E as [_ E]. discriminate E.
Qed.

Lemma payload_tampered (later : GoTime.Time) (i : nat) (c : ascii) :
  (i < String.length (payloadSegment claims))%nat ->
  String.get i (payloadSegment claims) <> Some c ->
  hmacSum SHA512 signingKey (headerSegment ++ "." ++ replaceAt i c (payloadSegment claims))%string
    <> hmacSum SHA512 signingKey signed ->
  exists tok e,
    ParseWithClaims later
      ((headerSegment ++ "." ++ replaceAt i c (payloadSegment claims)) ++ "." ++ sig)%string
      signingKey = (tok, Some e).
Proof.
  intros Hi Hget Hmac.
  pose proof (EncodeSegment_without (jsonMarshalHeader (headerOf SigningMethodHS512)) dot eq_refl)
    as Hh.
  pose proof (EncodeSegment_without (jsonMarshalClaims claims) dot eq_refl) as Hp.
  pose proof (signatureSegment_without signed dot eq_refl) as Hs.
  fold headerSegment in Hh. fold (payloadSegment claims) in Hp. fold sig in Hs.
  destruct (Ascii.eqb_spec c dot) as [->|Hc].
  - rewrite ParseWithClaims_segments; [eauto|]. intros p0 p1 p2 Hsplit.
    destruct (replaceAt_decompose i dot (payloadSegment claims) Hi) as (pre & post & Heq & Hfree).
    destruct (Hfree dot Hp) as [Hpre Hpost]. rewrite Heq in Hsplit.
    destruct (Split_four "." (((headerSegment ++ "." ++ pre ++ String dot post) ++ "." ++ sig)%string)
                headerSegment ((pre ++ String dot post) ++ "." ++ sig)%string
                pre (post ++ "." ++ sig)%string post sig) as (d & rest & Hfour).
    + discriminate.
    + rewrite append_assoc.
      change ("." ++ pre ++ String dot post)%string
        with (String dot (pre ++ String dot post)%string).
      change (String dot (pre ++ String dot post) ++ "." ++ sig)%string
        with (String dot ((pre ++ String dot post) ++ "." ++ sig)%string).
      apply cutAt_char. exact Hh.
    + rewrite append_assoc.
      change (String dot post ++ "." ++ sig)%string with (String dot (post ++ "." ++ sig)%string).
      apply cutAt_char. exact Hpre.
    + change ("." ++ sig)%string with (String dot sig). apply cutAt_char. exact Hpost.
    + congruence.
  - assert (Hp' : containsByte (replaceAt i c (payloadSegment claims)) dot = false).
    { apply containsByte_replaceAt; [exact Hp|]. apply Ascii.eqb_neq. congruence. }
    destruct (ParseUnverified
                ((headerSegment ++ "." ++ replaceAt i c (payloadSegment claims)) ++ "." ++ sig)%string)
      as [[tok parts] perr] eqn:Hparse.
    pose proof Hparse as Hparse'. unfold ParseUnverified in Hparse'.
    rewrite (Split_segments _ _ _ Hh Hp' Hs) in Hparse'. cbv beta iota in Hparse'.
    unfold headerSegment in Hparse' at 1.
    rewrite DecodeSegment_EncodeSegment, header_round_trip in Hparse'.
    destruct (DecodeSegment (replaceAt i c (payloadSegment claims))) as [bytes [e|]].
    { injection Hparse' as <- <- <-. unfold ParseWithClaims. rewrite Hparse. eauto. }
    destruct (jsonDecodeClaims bytes) as [claims'|e].
    2:{ injection Hparse' as <- <- <-. unfold ParseWithClaims. rewrite Hparse. eauto. }
    change (headerOf SigningMethodHS512 !! "alg") with (Some "HS512") in Hparse'.
    cbv beta iota in Hparse'.
    change (GetSigningMethod "HS512") with (Some SigningMethodHS512) in Hparse'.
    cbv beta iota in Hparse'. injection Hparse' as <- <- <-.
    eapply (ParseWithClaims_bad_signature later _ _ _ _ SigningMethodHS512 ErrSignatureInvalid);
      [exact Hparse|reflexivity|].
    cbn [nth]. unfold Verify, SigningMethodHS512. unfold sig at 1, signatureSegment.
    rewrite DecodeSegment_EncodeSegment.
    destruct (String.eqb_spec (hmacSum SHA512 signingKey signed)
                (hmacSum SHA512 signingKey
                   (headerSegment ++ "." ++ replaceAt i c (payloadSegment claims))%string))
      as [E|_]; [|reflexivity].
    exfalso. apply Hmac. symmetry. exact E.
Qed.

Lemma get_containsByte (i : nat) (s : string) (c : ascii) :
  String.get i s = Some c -> containsByte s c = true.
Proof.
  revert i. induction s as [|d s IH]; intros [|i] Hg; cbn [String.get] in Hg;
    try discriminate; rewrite containsByte_cons.
  - injection Hg as ->. rewrite Ascii.eqb_refl. reflexivity.
  - rewrite (IH i Hg). apply orb_true_r.
Qed.

Lemma get_within (i : nat) (s : string) :
  (i < String.length s)%nat -> exists c, String.get i s = Some c.
Proof.
  revert i. induction s as [|d s IH]; intros [|i] Hi; cbn [String.length] in Hi; try lia.
  - exists d. reflexivity.
  - apply (IH i). lia.
Qed.

Lemma slack_value (v0 : Z) :
  (0 <= v0 < 64)%Z -> exists v', (0 <= v' < 64)%Z /\ v' <> v0 /\ (v' / 16 = v0 / 16)%Z.
Proof.
  intros Hv. destruct (Z.eq_dec (v0 mod 2)%Z 0%Z) as [Heven|Hodd].
  - exists (v0 + 1)%Z. repeat split; Z.to_euclidean_division_equations; lia.
  - exists (v0 - 1)%Z. repeat split; Z.to_euclidean_division_equations; lia.
Qed.

(** What [signature_tampered] leaves out. When the code has [3k + 1]
    bytes, as the 64 bytes of HS512 have, the last character of the
    signature segment can be replaced by another one and the token still
    verifies, whatever the code and the JSON codec are. *)
Lemma signature_last_character_accepted (later : GoTime.Time) :
  (String.length (hmacSum SHA512 signingKey signed) mod 3 = 1)%nat ->
  (GoTime.Unix later <= expiry now cfg)%Z ->
  exists (i : nat) (c : ascii),
    (i < String.length sig)%nat /\
    String.get i sig <> Some c /\
    ParseWithClaims later (signed ++ "." ++ replaceAt i c sig)%string signingKey
      = (Some (parsedToken claims (signed ++ "." ++ replaceAt i c sig)%string
                 (replaceAt i c sig) true), None).
Proof.
  intros Hlen Htime.
  assert (Hpos : (0 < String.length sig)%nat).
  { unfold sig, signatureSegment.
    destruct (hmacSum SHA512 signingKey signed) as [|r0 [|r1 [|r2 rest']]].
    - discriminate Hlen.
    - rewrite EncodeSegment_1. cbn. lia.
    - rewrite EncodeSegment_2. cbn. lia.
    - rewrite EncodeSegment_cons3. cbn. lia. }
  destruct (get_within (String.length sig - 1) sig ltac:(lia)) as [c0 Hget].
  destruct (decodeMap URLEncoding c0) as [v0|] eqn:Hc0.
  2:{ pose proof (get_containsByte _ _ _ Hget) as Hin.
      pose proof (signatureSegment_without signed c0 Hc0) as Hout. fold sig in Hout.
      congruence. }
  destruct (decodeMap_inv c0 v0 Hc0) as [Hv0 Henc0].
  destruct (slack_value v0 Hv0) as (v' & Hv' & Hne & Hslack).
  destruct (table_entry v' Hv') as (Hc' & _ & _).
  exists (String.length sig - 1)%nat, (encodeByte URLEncoding v').
  split; [lia|]. split.
  - rewrite Hget. intros E. injection E as E. apply Hne.
    rewrite E in Hc0. rewrite Hc' in Hc0. congruence.
  - rewrite (ParseWithClaims_issued now cfg groups username admin
               header_round_trip claims_round_trip).
    + cbv zeta. fold claims signed.
      assert (Hv : Verify SigningMethodHS512 signed
                     (replaceAt (String.length sig - 1) (encodeByte URLEncoding v') sig)
                     signingKey = None).
      { unfold Verify, SigningMethodHS512. unfold sig, signatureSegment.
        rewrite (last_character_slack _ Hlen c0 (encodeByte URLEncoding v') v0 v'
                   Hget Hc0 Hc' Hslack).
        rewrite String.eqb_refl. reflexivity. }
      rewrite Hv, verifyExp_before by exact Htime. reflexivity.
    + apply containsByte_replaceAt; [apply signatureSegment_without; reflexivity|].
      apply Ascii.eqb_neq. intros E. rewrite <- E in Hc'.
      assert (Hdot : decodeMap URLEncoding dot = None) by reflexivity. congruence.
Qed.

Lemma signature_nonempty :
  (String.length (hmacSum SHA512 signingKey signed) mod 3 = 1)%nat ->
  (0 < String.length sig)%nat.
Proof.
  intros Hlen. unfold sig, signatureSegment.
  destruct (hmacSum SHA512 signingKey signed) as [|r0 [|r1 [|r2 rest']]].
  - discriminate Hlen.
  - rewrite EncodeSegment_1. cbn. lia.
  - rewrite EncodeSegment_2. cbn. lia.
  - rewrite EncodeSegment_cons3. cbn. lia.
Qed.

(** The last character of the signature segment is a character of the
    alphabet. *)
Lemma signature_last_character :
  (String.length (hmacSum SHA512 signingKey signed) mod 3 = 1)%nat ->
  exists (c0 : ascii) (v0 : Z),
    String.get (String.length sig - 1) sig = Some c0 /\
    decodeMap URLEncoding c0 = Some v0.
Proof.
  intros Hlen. pose proof (signature_nonempty Hlen) as Hpos.
  destruct (get_within (String.length sig - 1) sig ltac:(lia)) as [c0 Hget].
  destruct (decodeMap URLEncoding c0) as [v0|] eqn:Hc0; [eauto|].
  pose proof (get_containsByte _ _ _ Hget) as Hin.
  pose proof (signatureSegment_without signed c0 Hc0) as Hout. fold sig in Hout.
  congruence.
Qed.

(** The last character replaced by one with the same two leading bits:
    the token verifies as the issued one does. *)
Lemma signature_last_accepted (later : GoTime.Time) (c0 c : ascii) (v0 v : Z) :
  (String.length (hmacSum SHA512 signingKey signed) mod 3 = 1)%nat ->
  String.get (String.length sig - 1) sig = Some c0 ->
  decodeMap URLEncoding c0 = Some v0 ->
  decodeMap URLEncoding c = Some v ->
  (v / 16 = v0 / 16)%Z ->
  (GoTime.Unix later <= expiry now cfg)%Z ->
  ParseWithClaims later (signed ++ "." ++ replaceAt (String.length sig - 1) c sig)%string
    signingKey
    = (Some (parsedToken claims (signed ++ "." ++ replaceAt (String.length sig - 1) c sig)%string
               (replaceAt (String.length sig - 1) c sig) true), None).
Proof.
  intros Hlen Hget Hc0 Hc Hslack Htime.
  rewrite (ParseWithClaims_issued now cfg groups username admin
             header_round_trip claims_round_trip).
  - cbv zeta. fold claims signed.
    assert (Hv : Verify SigningMethodHS512 signed
                   (replaceAt (String.length sig - 1) c sig) signingKey = None).
    { unfold Verify, SigningMethodHS512. unfold sig, signatureSegment.
      rewrite (last_character_slack _ Hlen c0 c v0 v Hget Hc0 Hc Hslack).
      rewrite String.eqb_refl. reflexivity. }
    rewrite Hv, verifyExp_before by exact Htime. reflexivity.
  - apply containsByte_replaceAt; [apply signatureSegment_without; reflexivity|].
    apply Ascii.eqb_neq. intros E. rewrite <- E in Hc.
    assert (Hdot : decodeMap URLEncoding dot = None) by reflexivity. congruence.
Qed.

(** The last character replaced by any other byte: the two leading bits
    differ, or the byte is not of the alphabet, and verification fails. *)
Lemma signature_last_rejected (later : GoTime.Time) (c0 c : ascii) (v0 : Z) :
  (String.length (hmacSum SHA512 signingKey signed) mod 3 = 1)%nat ->
  String.get (String.length sig - 1) sig = Some c0 ->
  decodeMap URLEncoding c0 = Some v0 ->
  ~ (exists v : Z, decodeMap URLEncoding c = Some v /\ (v / 16 = v0 / 16)%Z) ->
  exists tok inner flags text,
    ParseWithClaims later (signed ++ "." ++ replaceAt (String.length sig - 1) c sig)%string
      signingKey
      = (tok, Some (ValidationError inner flags text)) /\
    (if Ascii.eqb c dot then flags = ValidationErrorMalformed
     else N.land flags ValidationErrorSignatureInvalid = ValidationErrorSignatureInvalid).
Proof.
  intros Hlen Hget Hc0 Hother. pose proof (signature_nonempty Hlen) as Hpos.
  destruct (Ascii.eqb_spec c dot) as [->|Hc].
  - rewrite signature_separator by lia. unfold NewValidationError. do 4 eexists.
    split; reflexivity.
  - assert (Hv : exists err, Verify SigningMethodHS512 signed
                   (replaceAt (String.length sig - 1) c sig) signingKey = Some err).
    { unfold Verify, SigningMethodHS512.
      destruct (DecodeSegment (replaceAt (String.length sig - 1) c sig))
        as [bytes [e|]] eqn:Hdec; [eauto|].
      destruct (String.eqb_spec bytes (hmacSum SHA512 signingKey signed)) as [E|Hne]; [|eauto].
      exfalso. apply Hother. subst bytes. unfold sig, signatureSegment in Hget, Hdec.
      exact (last_character_checked _ Hlen c0 c v0 Hget Hc0 Hdec). }
    destruct Hv as [err Hv].
    rewrite (ParseWithClaims_issued now cfg groups username admin
               header_round_trip claims_round_trip).
    + cbv zeta. fold claims signed. rewrite Hv. do 4 eexists. split; [reflexivity|].
      destruct (negb (verifyExp (expiry now cfg) (GoTime.Unix later) false)); reflexivity.
    + apply containsByte_replaceAt; [apply signatureSegment_without; reflexivity|].
      apply Ascii.eqb_neq. congruence.
Qed.

End Tamper.

(** ** Credential extraction *)

Lemma SplitN_once (s sep : string) :
  GoStrings.SplitN s sep 2
    = match GoStrings.cutAt sep s with
      | Some (a, b) => [a; b]
      | None => [s]
      end.
Proof. reflexivity. Qed.

Section Extraction.

Import Services.

(** The decoding error is dropped: whatever was decoded before it is
    split at its first colon. *)
Lemma basicAuth_uses_decoded_prefix (r : Http.Request) (encoded payload user pass : string)
  (e : option Base64.corruptInput) :
  GoStrings.SplitN (Http.Get (Http.RequestHeader r) "Authorization") " " 2
    = ["Basic"; encoded] ->
  Base64.DecodeString Base64.StdEncoding encoded = (payload, e) ->
  GoStrings.cutAt ":" payload = Some (user, pass) ->
  basicAuth r = Ret (None, Some {| Username := user; Password := pass |}).
Proof.
  intros Hsplit Hdec Hcut. unfold basicAuth. rewrite Hsplit.
  cbn -[GoStrings.SplitN Base64.DecodeString].
  rewrite Hdec, SplitN_once, Hcut. reflexivity.
Qed.

(** Any other scheme, or no second field, gives the error and no
    credentials. *)
Lemma basicAuth_wrong_scheme (r : Http.Request) (fields : list string) :
  GoStrings.SplitN (Http.Get (Http.RequestHeader r) "Authorization") " " 2 = fields ->
  (List.length fields <> 2%nat \/ nth 0 fields "" <> "Basic") ->
  basicAuth r = Ret (Some (errorString "Invalid Auth"), None).
Proof.
  intros Hsplit Hbad. unfold basicAuth. rewrite Hsplit.
  destruct (List.length fields =? 2)%nat eqn:Hlen; cbn; [|reflexivity].
  apply Nat.eqb_eq in Hlen.
  destruct fields as [|f0 fs]; [discriminate|]. cbn.
  destruct Hbad as [Hbad|Hbad]; [congruence|]. cbn in Hbad.
  destruct (String.eqb f0 "Basic") eqn:Heq; [|reflexivity].
  apply String.eqb_eq in Heq. congruence.
Qed.

End Extraction.

(** C2: the claim is that no input makes the credential extractor, the
    bearer extractor or the verifier fault. Whenever the header is
    [Basic ] followed by text whose decoded bytes hold no colon (the
    decoding error, if any, is not looked at), [basicAuth] reads the
    second element of a one-element slice: an index out of range. *)
Theorem basicAuth_faults_on_payload_without_colon (r : Http.Request)
  (encoded payload : string) (e : option Base64.corruptInput) :
  GoStrings.SplitN (Http.Get (Http.RequestHeader r) "Authorization") " " 2
    = ["Basic"; encoded] ->
  Base64.DecodeString Base64.StdEncoding encoded = (payload, e) ->
  GoStrings.cutAt ":" payload = None ->
  Services.basicAuth r = Panic (IndexOutOfRange 1 1).
Proof.
  intros Hsplit Hdec Hcut. unfold Services.basicAuth. rewrite Hsplit.
  cbn -[GoStrings.SplitN Base64.DecodeString].
  rewrite Hdec, SplitN_once, Hcut. reflexivity.
Qed.

Lemma basicAuth_faults_witness :
  Services.basicAuth (Demo.request "Basic Zm9v") = Panic (IndexOutOfRange 1 1).
Proof.
  apply (basicAuth_faults_on_payload_without_colon (Demo.request "Basic Zm9v")
           "Zm9v" "foo" None); reflexivity.
Defined.

(** The verification endpoint reads the claims through the token
    pointer, which [ParseWithClaims] leaves nil when the body does not
    have three segments: the handler faults before it writes the status. *)
Lemma VerifyJWT_faults_on_segment_count `{Collaborators} (now : GoTime.Time)
  (w : Http.ResponseWriter) (r : Http.Request) :
  (forall p0 p1 p2, GoStrings.Split (Http.RequestBody r) "." <> [p0; p1; p2]) ->
  Services.VerifyJWT now w r = (w, Panic NilDereference).
Proof.
  intros Hparts. unfold Services.VerifyJWT.
  rewrite (ParseWithClaims_segments now (Http.RequestBody r) signingKey Hparts).
  reflexivity.
Qed.

Example VerifyJWT_faults_on_empty_body :
  Services.VerifyJWT (H := Demo.collaborators) 0%Z Http.newResponse (Demo.request "")
    = (Http.newResponse, Panic NilDereference).
Proof. reflexivity. Qed.

(** C4: the claim is that every header that is not [Basic ] followed by
    decodable base64 with a colon gives the one format error. On the
    specification's own example of text that is not base64, [basicAuth]
    faults instead of returning an error; and text that stops being
    base64 after a decodable prefix with a colon is accepted. *)
Theorem basicAuth_on_undecodable_base64 :
  Services.basicAuth (Demo.request "Basic !!!notbase64!!!") = Panic (IndexOutOfRange 1 1) /\
  snd (Base64.DecodeString Base64.StdEncoding "YTpi!") = Some Base64.CorruptInputError /\
  Services.basicAuth (Demo.request "Basic YTpi!")
    = Ret (None, Some {| Username := "a"; Password := "b" |}).
Proof. repeat split; reflexivity. Qed.

(** ** The raw-token endpoint *)

(** When extraction fails the handler writes 401 and the message, then
    goes on to read the credentials through the nil pointer. *)
Lemma GenerateJWT_extraction_failure_faults `{Collaborators} (now : GoTime.Time)
  (config : option Config) (w : Http.ResponseWriter) (r : Http.Request) (e : error) :
  Services.basicAuth r = Ret (Some e, None) ->
  Services.GenerateJWT now config w r
    = (Http.Write Services.invalidCredentials (Http.WriteHeader Http.StatusUnauthorized w),
       Panic NilDereference).
Proof.
  intros Hauth. unfold Services.GenerateJWT. rewrite Hauth. reflexivity.
Qed.

(** C6: the claim is that failed authentication is answered with 401 and
    a fixed message. When the directory rejects well-formed credentials,
    [GenerateJWT] returns without writing anything: no status, no body,
    so the client receives an empty 200. *)
Theorem GenerateJWT_authentication_failure_writes_nothing `{Collaborators}
  (now : GoTime.Time) (config : option Config) (r : Http.Request) (auth : Auth)
  (dn : option string) (e : error) :
  Services.basicAuth r = Ret (None, Some auth) ->
  AuthenticateUser (Username auth) (Password auth) = (dn, Some e) ->
  Services.GenerateJWT now config Http.newResponse r = (Http.newResponse, Ret tt) /\
  Http.sentStatus Http.newResponse = Http.StatusOK /\
  Http.body Http.newResponse = "".
Proof.
  intros Hauth Hldap. split; [|split; reflexivity].
  unfold Services.GenerateJWT, Services.baseGenerateToken.
  rewrite Hauth. cbn. rewrite Hldap. reflexivity.
Qed.

Lemma GenerateJWT_authentication_failure_witness :
  Services.GenerateJWT (H := Demo.collaborators) 0%Z (Some (Demo.config "4h"))
    Http.newResponse (Demo.request "Basic YTpi") = (Http.newResponse, Ret tt) /\
  Http.sentStatus Http.newResponse = Http.StatusOK /\
  Http.body Http.newResponse = "".
Proof.
  apply (GenerateJWT_authentication_failure_writes_nothing (H := Demo.collaborators)
           0%Z (Some (Demo.config "4h")) (Demo.request "Basic YTpi")
           {| Username := "a"; Password := "b" |} None
           (errorString "LDAP Result Code 49: Invalid Credentials")); reflexivity.
Defined.

(** ** The access-config endpoint *)

(** C9: the claim is that a successful issuance answers 201 with
    Content-Type text/x-yaml and the document described. The document
    and the status are as claimed; the Content-Type is set on the header
    map after [WriteHeader], so it is not part of the headers sent. *)
Theorem GenerateConfig_success `{Collaborators} (now : GoTime.Time) (cfg : Config)
  (r : Http.Request) (auth : Auth) (token : string) :
  Services.basicAuth r = Ret (None, Some auth) ->
  Services.baseGenerateToken now (Some cfg) auth = Ret (Some token, None) ->
  exists (w : Http.ResponseWriter) (document : KubeConfig),
    Services.GenerateConfig now (Some cfg) Http.newResponse r = (w, Ret tt) /\
    Http.body w = fst (yamlMarshal document) /\
    ApiVersion document = "v1" /\ Kind document = "Config" /\
    (exists data, Clusters document = [ {| ClusterName := "kubernetes"; Cluster := data |} ]) /\
    CurrentContext document = ("kubernetes-" ++ Username auth)%string /\
    (exists data, Contexts document
                  = [ {| ContextName := ("kubernetes-" ++ Username auth)%string;
                         ContextData := data |} ]) /\
    Users document = [ {| UserName := Username auth; UserToken := {| Token := token |} |} ] /\
    Http.sentStatus w = Http.StatusCreated /\
    Http.handlerHeader w !! "Content-Type" = Some "text/x-yaml; charset=utf-8" /\
    Http.sentHeader w !! "Content-Type" = None.
Proof.
  intros Hauth Htoken.
  exists (Http.Write (fst (yamlMarshal
            (Services.kubeConfig (Http.RequestHost r) (KubeCa cfg) (Username auth) token)))
            (Http.HeaderSet "Content-Type" "text/x-yaml; charset=utf-8"
               (Http.WriteHeader Http.StatusCreated Http.newResponse))),
         (Services.kubeConfig (Http.RequestHost r) (KubeCa cfg) (Username auth) token).
  split.
  - unfold Services.GenerateConfig. rewrite Hauth. cbn. rewrite Htoken. cbn.
    destruct (yamlMarshal _) as [yml err]. reflexivity.
  - cbn. repeat split; eauto.
Qed.

Lemma GenerateConfig_success_witness :
  exists (w : Http.ResponseWriter) (document : KubeConfig),
    Services.GenerateConfig (H := Demo.collaborators) 0%Z (Some (Demo.config "4h"))
      Http.newResponse (Demo.request "Basic Ym9iOnNlY3JldA==") = (w, Ret tt) /\
    Http.body w = fst (Demo.yaml document) /\
    ApiVersion document = "v1" /\ Kind document = "Config" /\
    (exists data, Clusters document = [ {| ClusterName := "kubernetes"; Cluster := data |} ]) /\
    CurrentContext document = "kubernetes-bob" /\
    (exists data, Contexts document
                  = [ {| ContextName := "kubernetes-bob"; ContextData := data |} ]) /\
    Users document
      = [ {| UserName := "bob";
             UserToken := {| Token := Demo.issued 0%Z "4h" ["grp-ns-test"] "bob" false |} |} ] /\
    Http.sentStatus w = Http.StatusCreated /\
    Http.handlerHeader w !! "Content-Type" = Some "text/x-yaml; charset=utf-8" /\
    Http.sentHeader w !! "Content-Type" = None.
Proof.
  apply (GenerateConfig_success (H := Demo.collaborators) 0%Z (Demo.config "4h")
           (Demo.request "Basic Ym9iOnNlY3JldA==") {| Username := "bob"; Password := "secret" |});
    vm_compute; reflexivity.
Defined.

(** ** Configuration loading *)

(** C10: when the LDAP section fails validation and the core section
    passes, [MakeConfig] returns a nil configuration and a nil error. *)
Theorem MakeConfig_ldap_invalid_returns_nil_nil `{Startup} (env : gmap string string)
  (config : Config) (ldapConfig : LdapConfig) :
  Utils.buildConfig env = Ret (Ok (config, ldapConfig)) ->
  Utils.validateConfig config = None ->
  Utils.validateLdap ldapConfig <> None ->
  Utils.MakeConfig env = Ret (None, None).
Proof.
  intros Hbuild Hcore Hldap. unfold Utils.MakeConfig. rewrite Hbuild. cbn.
  rewrite Hcore. destruct (Utils.validateLdap ldapConfig); [reflexivity|congruence].
Qed.

Lemma MakeConfig_ldap_invalid_witness :
  Utils.MakeConfig (H := Demo.startup) (delete "LDAP_USERBASE" Demo.env) = Ret (None, None).
Proof.
  eapply (MakeConfig_ldap_invalid_returns_nil_nil (H := Demo.startup)).
  - vm_compute. reflexivity.
  - vm_compute. reflexivity.
  - vm_compute. discriminate.
Defined.

(** ** Issuance and verification *)

(** C1: the token [generateUserToken] returns, presented as a bearer
    token no later than its expiry second, is accepted by [CurrentJWT]
    with the user name, the admin flag and the grants it was issued for
    (the grants as the same list, hence as the same set). The JSON codec
    is a collaborator: it is assumed to read back the header and the
    claims it wrote. *)
Theorem issue_then_verify_round_trip `{Collaborators} (now later : GoTime.Time)
  (cfg : Config) (groups : list string) (username : string) (admin : bool) :
  let claims := Services.issuedClaims now cfg groups username admin in
  jsonUnmarshalHeader (jsonMarshalHeader (Jwt.headerOf Jwt.SigningMethodHS512))
    = Ok (Jwt.headerOf Jwt.SigningMethodHS512) ->
  jsonDecodeClaims (jsonMarshalClaims claims) = Ok claims ->
  (GoTime.Unix later <= Services.expiry now cfg)%Z ->
  exists token,
    Services.generateUserToken now (Some cfg) groups username admin = Ret (token, None) /\
    forall (w : Http.ResponseWriter) (r : Http.Request),
      Http.Get (Http.RequestHeader r) "Authorization" = ("Bearer " ++ token)%string ->
      exists verified,
        Services.CurrentJWT later w r = Ret (Some verified, None) /\
        User verified = username /\
        AdminAccess verified = admin /\
        Auths verified = GetUserNamespaces groups /\
        (forall grant, In grant (Auths verified) <-> In grant (GetUserNamespaces groups)).
Proof.
  intros claims Hheader Hclaims Htime.
  exists (Services.issuedToken now cfg groups username admin). split.
  - apply generateUserToken_issues.
  - intros w r Hr. exists claims.
    rewrite (CurrentJWT_issued now later cfg groups username admin w r Hheader Hclaims Hr).
    rewrite verifyExp_before by exact Htime.
    repeat split; auto.
Qed.

Lemma issue_then_verify_witness :
  exists token,
    Services.generateUserToken (H := Demo.collaborators) 1700000000000000000%Z
      (Some (Demo.config "4h")) ["grp-ns-dev"; "grp-admin"] "alice" true = Ret (token, None) /\
    forall (w : Http.ResponseWriter) (r : Http.Request),
      Http.Get (Http.RequestHeader r) "Authorization" = ("Bearer " ++ token)%string ->
      exists verified,
        Services.CurrentJWT (H := Demo.collaborators) 1700000001500000000%Z w r
          = Ret (Some verified, None) /\
        User verified = "alice" /\
        AdminAccess verified = true /\
        Auths verified = Demo.mapper ["grp-ns-dev"; "grp-admin"] /\
        (forall grant, In grant (Auths verified)
                       <-> In grant (Demo.mapper ["grp-ns-dev"; "grp-admin"])).
Proof.
  apply (issue_then_verify_round_trip (H := Demo.collaborators)
           1700000000000000000%Z 1700000001500000000%Z (Demo.config "4h")
           ["grp-ns-dev"; "grp-admin"] "alice" true).
  - vm_compute. reflexivity.
  - vm_compute. reflexivity.
  - vm_compute. discriminate.
Defined.

(** C3, as the code has it: the expiry is kept in whole seconds. [L] is
    what [ParseDuration] returns for the configured text, and the expiry
    [E] is the Unix second that holds the instant [issuedAt + L]. The
    token is accepted at every instant before [issuedAt + L], and then
    on to the end of the second [E]; it is refused as expired from the
    first instant of the second [E + 1] on. The second 0 is the
    exception: jwt-go reads it as no expiry, and the token is accepted
    at every instant. *)
Theorem expiry_in_whole_seconds `{Collaborators} (now : GoTime.Time)
  (cfg : Config) (groups : list string) (username : string) (admin : bool) :
  let claims := Services.issuedClaims now cfg groups username admin in
  let L := fst (GoTime.ParseDuration (TokenLifeTime cfg)) in
  let E := GoTime.Unix (GoTime.Add now L) in
  jsonUnmarshalHeader (jsonMarshalHeader (Jwt.headerOf Jwt.SigningMethodHS512))
    = Ok (Jwt.headerOf Jwt.SigningMethodHS512) ->
  jsonDecodeClaims (jsonMarshalClaims claims) = Ok claims ->
  exists token,
    Services.generateUserToken now (Some cfg) groups username admin = Ret (token, None) /\
    ExpiresAt (Standard claims) = E /\
    (E * GoTime.Second <= GoTime.Add now L < (E + 1) * GoTime.Second)%Z /\
    forall (later : GoTime.Time) (w : Http.ResponseWriter) (r : Http.Request),
      Http.Get (Http.RequestHeader r) "Authorization" = ("Bearer " ++ token)%string ->
      ((later < GoTime.Add now L)%Z ->
       Services.CurrentJWT later w r = Ret (Some claims, None)) /\
      ((later < (E + 1) * GoTime.Second)%Z ->
       Services.CurrentJWT later w r = Ret (Some claims, None)) /\
      (((E + 1) * GoTime.Second <= later)%Z -> E <> 0%Z ->
       Services.CurrentJWT later w r
         = Ret (None, Some (ValidationError (Some (errorString "token is expired"))
                              Jwt.ValidationErrorExpired ""))) /\
      (E = 0%Z -> Services.CurrentJWT later w r = Ret (Some claims, None)).
Proof.
  intros claims L E Hheader Hclaims.
  exists (Services.issuedToken now cfg groups username admin).
  split; [apply generateUserToken_issues|]. split; [reflexivity|].
  assert (Hsecond : (0 < GoTime.Second)%Z) by reflexivity.
  assert (Hbounds : (E * GoTime.Second <= GoTime.Add now L < (E + 1) * GoTime.Second)%Z).
  { unfold E, GoTime.Unix. generalize dependent GoTime.Second. intros s Hs.
    generalize (GoTime.Add now L). intros t.
    Z.to_euclidean_division_equations; nia. }
  split; [exact Hbounds|].
  intros later w r Hr.
  rewrite (CurrentJWT_issued now later cfg groups username admin w r Hheader Hclaims Hr).
  unfold Services.expiry. fold L. fold E.
  assert (Hcases : forall t : Z, (t < (E + 1) * GoTime.Second)%Z <-> (GoTime.Unix t <= E)%Z).
  { intros t. unfold GoTime.Unix. generalize dependent GoTime.Second. intros s Hs _.
    generalize dependent E. intros e. Z.to_euclidean_division_equations; nia. }
  split; [|split; [|split]].
  - intros Hbefore. rewrite verifyExp_before; [reflexivity|]. apply Hcases. lia.
  - intros Hwithin. rewrite verifyExp_before; [reflexivity|]. apply Hcases. exact Hwithin.
  - intros Hafter Hnonzero. rewrite verifyExp_after; [reflexivity| |exact Hnonzero].
    apply Z.nle_gt. intros Hle. apply Hcases in Hle. lia.
  - intros Hzero. unfold Jwt.verifyExp. rewrite Hzero. reflexivity.
Qed.

Lemma expiry_in_whole_seconds_witness :
  let now := 100200000000%Z in
  let claims :=
    Services.issuedClaims (H := Demo.collaborators) now (Demo.config "2s")
      ["grp-ns-dev"; "grp-admin"] "alice" true in
  let expired :=
    Ret (None, Some (ValidationError (Some (errorString "token is expired"))
                       Jwt.ValidationErrorExpired "")) in
  exists token,
    Services.generateUserToken (H := Demo.collaborators) now
      (Some (Demo.config "2s")) ["grp-ns-dev"; "grp-admin"] "alice" true = Ret (token, None) /\
    GoTime.Add now (fst (GoTime.ParseDuration "2s")) = 102200000000%Z /\
    ExpiresAt (Standard claims) = 102%Z /\
    forall (w : Http.ResponseWriter) (r : Http.Request),
      Http.Get (Http.RequestHeader r) "Authorization" = ("Bearer " ++ token)%string ->
      Services.CurrentJWT (H := Demo.collaborators) 102100000000%Z w r
        = Ret (Some claims, None) /\
      Services.CurrentJWT (H := Demo.collaborators) 102700000000%Z w r
        = Ret (Some claims, None) /\
      Services.CurrentJWT (H := Demo.collaborators) 102999999999%Z w r
        = Ret (Some claims, None) /\
      Services.CurrentJWT (H := Demo.collaborators) 103000000000%Z w r = expired /\
      Services.CurrentJWT (H := Demo.collaborators) 103200000000%Z w r = expired.
Proof.
  cbv zeta.
  pose proof (expiry_in_whole_seconds (H := Demo.collaborators) 100200000000%Z
                (Demo.config "2s") ["grp-ns-dev"; "grp-admin"] "alice" true) as T.
  cbv zeta in T.
  match type of T with
  | ?P -> _ => assert (Hheader : P) by (vm_compute; reflexivity)
  end.
  specialize (T Hheader). clear Hheader.
  match type of T with
  | ?P -> _ => assert (Hclaims : P) by (vm_compute; reflexivity)
  end.
  destruct (T Hclaims) as (token & Hissue & Hexp & _ & Hall). clear T Hclaims.
  exists token. split; [exact Hissue|]. split; [vm_compute; reflexivity|].
  split; [rewrite Hexp; vm_compute; reflexivity|].
  intros w r Hr. split; [|split; [|split; [|split]]].
  - apply (proj1 (Hall 102100000000%Z w r Hr)). vm_compute. reflexivity.
  - apply (proj1 (proj2 (Hall 102700000000%Z w r Hr))). vm_compute. reflexivity.
  - apply (proj1 (proj2 (Hall 102999999999%Z w r Hr))). vm_compute. reflexivity.
  - apply (proj1 (proj2 (proj2 (Hall 103000000000%Z w r Hr)))); vm_compute; discriminate.
  - apply (proj1 (proj2 (proj2 (Hall 103200000000%Z w r Hr)))); vm_compute; discriminate.
Defined.

(** C3, as the claim has it, fails: a token issued at 100.2 s with a
    lifetime of 2 s is still accepted at 102.7 s, half a second after
    [issuedAt + L], because 102.7 s is within the expiry second 102. *)
Lemma token_accepted_after_lifetime_within_second :
  let now := 100200000000%Z in
  let later := 102700000000%Z in
  let token := Demo.issued now "2s" ["grp-ns-dev"; "grp-admin"] "alice" true in
  (GoTime.Add now (fst (GoTime.ParseDuration "2s")) < later)%Z /\
  Services.generateUserToken (H := Demo.collaborators) now (Some (Demo.config "2s"))
    ["grp-ns-dev"; "grp-admin"] "alice" true = Ret (token, None) /\
  exists claims,
    Services.CurrentJWT (H := Demo.collaborators) later Http.newResponse
      (Demo.request ("Bearer " ++ token)) = Ret (Some claims, None).
Proof.
  cbv zeta. split; [vm_compute; reflexivity|]. split; [vm_compute; reflexivity|].
  eexists. vm_compute. reflexivity.
Qed.

(** ** The configured lifetime *)

Lemma buildConfig_lifetime `{Startup} (env : gmap string string) (config : Config)
  (ldapConfig : LdapConfig) :
  Utils.buildConfig env = Ret (Ok (config, ldapConfig)) ->
  TokenLifeTime config = getEnv env "TOKEN_LIFETIME" "4h".
Proof.
  unfold Utils.buildConfig. intros Hbuild.
  repeat match type of Hbuild with
         | context [match ?x with _ => _ end] => destruct x eqn:?
         | context [if ?b then _ else _] => destruct b eqn:?
         | context [bind ?m _] => destruct m eqn:?; cbn [bind] in Hbuild
         | _ = _ => first [discriminate Hbuild | injection Hbuild as <- <-]
         end.
  all: reflexivity.
Qed.

(** [buildConfig] reads [TOKEN_LIFETIME] once, to store it: in an
    environment that differs in that variable only, it builds the same
    two structs but for the stored text. *)
Lemma buildConfig_other_lifetime `{Startup} (env env' : gmap string string)
  (config : Config) (ldapConfig : LdapConfig) :
  (forall (e e' : gmap string string) (key fallback : string),
      e !! key = e' !! key -> getEnv e key fallback = getEnv e' key fallback) ->
  (forall key : string, key <> "TOKEN_LIFETIME" -> env' !! key = env !! key) ->
  Utils.buildConfig env = Ret (Ok (config, ldapConfig)) ->
  Utils.buildConfig env'
    = Ret (Ok ({| Ldap := Ldap config; KubeCa := KubeCa config; KubeCaText := KubeCaText config;
                  KubeToken := KubeToken config; ApiServerURL := ApiServerURL config;
                  ApiServerTLSConfig := ApiServerTLSConfig config;
                  TokenLifeTime := getEnv env' "TOKEN_LIFETIME" "4h" |},
               ldapConfig)).
Proof.
  intros Hlocal Hagree.
  assert (Hget : forall key fallback : string, key <> "TOKEN_LIFETIME" ->
                   getEnv env' key fallback = getEnv env key fallback).
  { intros key fallback Hkey. apply Hlocal, Hagree, Hkey. }
  unfold Utils.buildConfig, Utils.Getenv.
  rewrite !Hagree by discriminate.
  rewrite (Hget "LDAP_PORT"), (Hget "LDAP_USE_SSL"), (Hget "LDAP_SKIP_TLS_VERIFICATION"),
    (Hget "LDAP_START_TLS"), (Hget "LDAP_USERFILTER"), (Hget "LDAP_ADMIN_USERBASE"),
    (Hget "LDAP_ADMIN_GROUPBASE") by discriminate.
  intros Hbuild.
  repeat match type of Hbuild with
         | context [match ?x with _ => _ end] => destruct x eqn:?
         | context [if ?b then _ else _] => destruct b eqn:?
         | context [bind ?m _] => destruct m eqn:?; cbn [bind] in Hbuild |- *
         | _ = _ => first [discriminate Hbuild | injection Hbuild as <- <-]
         end.
  all: reflexivity.
Qed.

(** C5, as the code has it: [MakeConfig] stores the lifetime text as it
    finds it, without parsing it: given that [getEnv] reads the named
    variable only, whether [MakeConfig] returns a configuration, and
    all of that configuration but the stored text, are the same
    whatever [TOKEN_LIFETIME] holds, so that no text is refused at
    startup. Every issuance parses the stored text; with a text that
    [ParseDuration] accepts, the token expires at the second of the
    issuance instant plus the parsed duration. *)
Theorem lifetime_is_parsed_at_every_issuance `{Startup} `{Collaborators}
  (env : gmap string string) (cfg : Config) :
  Utils.MakeConfig env = Ret (Some cfg, None) ->
  TokenLifeTime cfg = getEnv env "TOKEN_LIFETIME" "4h" /\
  ((forall (e e' : gmap string string) (key fallback : string),
       e !! key = e' !! key -> getEnv e key fallback = getEnv e' key fallback) ->
   forall env' : gmap string string,
     (forall key : string, key <> "TOKEN_LIFETIME" -> env' !! key = env !! key) ->
     Utils.MakeConfig env'
       = Ret (Some {| Ldap := Ldap cfg; KubeCa := KubeCa cfg; KubeCaText := KubeCaText cfg;
                      KubeToken := KubeToken cfg; ApiServerURL := ApiServerURL cfg;
                      ApiServerTLSConfig := ApiServerTLSConfig cfg;
                      TokenLifeTime := getEnv env' "TOKEN_LIFETIME" "4h" |},
              None)) /\
  forall (now : GoTime.Time) (groups : list string) (username : string) (admin : bool)
         (L : GoTime.Duration),
    GoTime.ParseDuration (getEnv env "TOKEN_LIFETIME" "4h") = (L, None) ->
    Services.generateUserToken now (Some cfg) groups username admin
      = Ret (Services.issuedToken now cfg groups username admin, None) /\
    ExpiresAt (Standard (Services.issuedClaims now cfg groups username admin))
      = GoTime.Unix (GoTime.Add now L).
Proof.
  intros Hmake.
  unfold Utils.MakeConfig in Hmake.
  destruct (Utils.buildConfig env) as [[[config ldapConfig]|e]|p] eqn:Hbuild;
    cbn [bind] in Hmake; try discriminate Hmake.
  destruct (Utils.validateConfig config) eqn:Hvalid; [discriminate Hmake|].
  destruct (Utils.validateLdap ldapConfig) eqn:Hldap; [discriminate Hmake|].
  injection Hmake as <-.
  pose proof (buildConfig_lifetime env config ldapConfig Hbuild) as Hlife.
  split; [exact Hlife|]. split.
  - intros Hlocal env' Hagree. unfold Utils.MakeConfig.
    rewrite (buildConfig_other_lifetime env env' config ldapConfig Hlocal Hagree Hbuild).
    cbn [bind].
    match goal with
    | |- context [Utils.validateConfig ?c] =>
        change (Utils.validateConfig c) with (Utils.validateConfig config)
    end.
    rewrite Hvalid, Hldap. reflexivity.
  - intros now groups username admin L Hparse. split.
    + apply generateUserToken_issues.
    + cbn [Services.issuedClaims Standard ExpiresAt]. unfold Services.expiry.
      rewrite Hlife, Hparse. reflexivity.
Qed.

Lemma lifetime_is_parsed_witness :
  TokenLifeTime (Demo.config "90m")
    = getEnv (Startup := Demo.startup) (<["TOKEN_LIFETIME" := "90m"]> Demo.env)
        "TOKEN_LIFETIME" "4h" /\
  (snd (GoTime.ParseDuration "abc") <> None /\
   Utils.MakeConfig (H := Demo.startup) (<["TOKEN_LIFETIME" := "abc"]> Demo.env)
     = Ret (Some (Demo.config "abc"), None) /\
   Utils.MakeConfig (H := Demo.startup) Demo.env = Ret (Some (Demo.config "4h"), None)) /\
  forall (now : GoTime.Time) (groups : list string) (username : string) (admin : bool)
         (L : GoTime.Duration),
    GoTime.ParseDuration
      (getEnv (Startup := Demo.startup) (<["TOKEN_LIFETIME" := "90m"]> Demo.env)
         "TOKEN_LIFETIME" "4h") = (L, None) ->
    Services.generateUserToken (H := Demo.collaborators) now (Some (Demo.config "90m"))
      groups username admin
      = Ret (Services.issuedToken (H := Demo.collaborators) now (Demo.config "90m")
               groups username admin, None) /\
    ExpiresAt (Standard (Services.issuedClaims (H := Demo.collaborators) now
                           (Demo.config "90m") groups username admin))
      = GoTime.Unix (GoTime.Add now L).
Proof.
  assert (Hmake : Utils.MakeConfig (H := Demo.startup) (<["TOKEN_LIFETIME" := "90m"]> Demo.env)
                  = Ret (Some (Demo.config "90m"), None)) by (vm_compute; reflexivity).
  destruct (lifetime_is_parsed_at_every_issuance (H := Demo.startup) (H0 := Demo.collaborators)
              (<["TOKEN_LIFETIME" := "90m"]> Demo.env) (Demo.config "90m") Hmake)
    as (Hstored & Hother & Hissue).
  assert (Hlocal : forall (e e' : gmap string string) (key fallback : string),
             e !! key = e' !! key ->
             getEnv (Startup := Demo.startup) e key fallback
             = getEnv (Startup := Demo.startup) e' key fallback).
  { intros e e' key fallback Hkey. cbn [getEnv Demo.startup]. rewrite Hkey. reflexivity. }
  split; [exact Hstored|]. split; [|exact Hissue].
  split; [vm_compute; discriminate|]. split.
  - rewrite (Hother Hlocal (<["TOKEN_LIFETIME" := "abc"]> Demo.env)).
    + vm_compute. reflexivity.
    + intros key Hkey. rewrite !lookup_insert_ne by congruence. reflexivity.
  - rewrite (Hother Hlocal Demo.env).
    + vm_compute. reflexivity.
    + intros key Hkey. rewrite lookup_insert_ne by congruence. reflexivity.
Defined.

(** C5, as the claim has it, fails: with [TOKEN_LIFETIME=abc], which
    [ParseDuration] rejects, [MakeConfig] returns a configuration and no
    error, and the issuance that follows parses the text again, drops
    the error and signs a token that expires in the second it was issued
    in, where the default [4h] gives four hours. *)
Lemma malformed_lifetime_reaches_issuance :
  let now := 1700000000000000000%Z in
  GoTime.ParseDuration "abc"
    = (0%Z, Some ("time: invalid duration " ++ GoTime.quote "abc")%string) /\
  Utils.MakeConfig (H := Demo.startup) (<["TOKEN_LIFETIME" := "abc"]> Demo.env)
    = Ret (Some (Demo.config "abc"), None) /\
  Services.generateUserToken (H := Demo.collaborators) now (Some (Demo.config "abc"))
    ["grp-ns-dev"] "alice" false
    = Ret (Services.issuedToken (H := Demo.collaborators) now (Demo.config "abc")
             ["grp-ns-dev"] "alice" false, None) /\
  Services.expiry now (Demo.config "abc") = 1700000000%Z /\
  Services.expiry now (Demo.config "4h") = 1700014400%Z /\
  Services.issuedToken (H := Demo.collaborators) now (Demo.config "abc") ["grp-ns-dev"] "alice" false
    <> Services.issuedToken (H := Demo.collaborators) now (Demo.config "4h")
         ["grp-ns-dev"] "alice" false.
Proof.
  cbv zeta. repeat split; try (vm_compute; reflexivity).
  vm_compute. discriminate.
Qed.

(** ** Bearer extraction *)

Section Bearer.

Import GoStrings StringFacts Services.

Lemma append_cons (c : ascii) (s t : string) :
  (String c s ++ t)%string = String c (s ++ t)%string.
Proof. reflexivity. Qed.

(** A text without a space, followed by the prefix: the prefix is first
    found right after the text. *)
Lemma prefix_bearer_later (token junk : string) :
  token <> "" -> containsByte token " "%char = false ->
  String.prefix "Bearer " (token ++ "Bearer " ++ junk)%string = false.
Proof.
  intros Hne Hsp. apply not_true_is_false. intros Hp.
  destruct token as [|c1 [|c2 [|c3 [|c4 [|c5 [|c6 [|c7 t]]]]]]]; [congruence|..];
    rewrite ?append_cons in Hp;
    change ("" ++ "Bearer " ++ junk)%string
      with (String "B" (String "e" (String "a" (String "r" (String "e" (String "r"
              (String " " junk))))))) in Hp;
    rewrite !prefix_cons in Hp;
    repeat (let E := fresh "E" in apply andb_true_iff in Hp as [E Hp]);
    repeat match goal with
           | E : Ascii.eqb _ _ = true |- _ => apply Ascii.eqb_eq in E
           end;
    try discriminate.
  subst. rewrite !containsByte_cons in Hsp.
  repeat (let E := fresh "E" in apply orb_false_iff in Hsp as [E Hsp]). discriminate.
Qed.

Lemma cutAt_bearer_later (token junk : string) :
  containsByte token " "%char = false ->
  cutAt "Bearer " (token ++ "Bearer " ++ junk)%string = Some (token, junk).
Proof.
  induction token as [|c token IH]; intros Hsp.
  - change ("" ++ "Bearer " ++ junk)%string
      with (String "B" (String "e" (String "a" (String "r" (String "e" (String "r"
              (String " " junk))))))).
    cbn [cutAt]. rewrite !prefix_cons, prefix_nil. reflexivity.
  - pose proof (prefix_bearer_later (String c token) junk ltac:(discriminate) Hsp) as Hp.
    rewrite append_cons in Hp |- *. cbn [cutAt]. rewrite Hp.
    rewrite containsByte_cons in Hsp. apply orb_false_iff in Hsp as [_ Hsp].
    rewrite IH by exact Hsp. reflexivity.
Qed.

Lemma Split_second (sep s a s1 b s2 : string) :
  sep <> "" -> cutAt sep s = Some (a, s1) -> cutAt sep s1 = Some (b, s2) ->
  exists rest, Split s sep = a :: b :: rest.
Proof.
  intros Hsep H1 H2.
  pose proof (cutAt_shorter _ _ _ _ Hsep H1) as L1.
  pose proof (cutAt_shorter _ _ _ _ Hsep H2) as L2.
  change (Split s sep) with (genSplit (Count s sep) sep s). unfold Count.
  destruct (String.length s) as [|[|n]]; [lia|lia|].
  cbn [countFrom]. rewrite H1, H2. cbn [genSplit]. rewrite H1, H2. eauto.
Qed.

End Bearer.

(** C7: the claim is that the whole remainder after the prefix is the
    token handed to the verifier. [CurrentJWT] splits the header at every
    occurrence of the prefix and takes the second piece: when the
    remainder is a text without a space followed by the prefix again
    and anything else, only that text is taken, and the rest of the
    header is ignored. *)
Theorem bearerToken_stops_at_second_prefix (r : Http.Request) (token junk : string) :
  token <> "" ->
  GoStrings.containsByte token " "%char = false ->
  Http.Get (Http.RequestHeader r) "Authorization"
    = ("Bearer " ++ token ++ "Bearer " ++ junk)%string ->
  Services.bearerToken r = Ret (Ok token) /\
  token <> (token ++ "Bearer " ++ junk)%string.
Proof.
  intros Hne Hsp Hr. split.
  - unfold Services.bearerToken. rewrite Hr.
    assert (Hp : GoStrings.HasPrefix ("Bearer " ++ token ++ "Bearer " ++ junk)%string
                   Services.bearerPrefix = true).
    { unfold GoStrings.HasPrefix, Services.bearerPrefix.
      change ("Bearer " ++ token ++ "Bearer " ++ junk)%string
        with (String "B" (String "e" (String "a" (String "r" (String "e" (String "r"
                (String " " (token ++ "Bearer " ++ junk)%string))))))).
      rewrite !StringFacts.prefix_cons, StringFacts.prefix_nil. reflexivity. }
    rewrite Hp. rewrite StringFacts.length_append.
    destruct token as [|c token]; [congruence|].
    cbn [String.length Nat.add Nat.ltb Nat.leb negb orb].
    destruct (Split_second "Bearer "
                ("Bearer " ++ String c token ++ "Bearer " ++ junk)%string
                "" (String c token ++ "Bearer " ++ junk)%string (String c token) junk)
      as [rest Hsplit].
    + discriminate.
    + change ("Bearer " ++ String c token ++ "Bearer " ++ junk)%string
        with (String "B" (String "e" (String "a" (String "r" (String "e" (String "r"
                (String " " (String c token ++ "Bearer " ++ junk)%string))))))).
      cbn [GoStrings.cutAt]. rewrite !StringFacts.prefix_cons, StringFacts.prefix_nil.
      reflexivity.
    + apply cutAt_bearer_later. exact Hsp.
    + unfold Services.bearerPrefix. rewrite Hsplit. reflexivity.
  - intros E. apply (f_equal String.length) in E.
    rewrite !StringFacts.length_append in E. cbn in E. lia.
Qed.

Lemma bearerToken_stops_witness :
  Services.bearerToken (Demo.request "Bearer abcBearer def") = Ret (Ok "abc") /\
  "abc" <> ("abc" ++ "Bearer " ++ "def")%string.
Proof.
  apply (bearerToken_stops_at_second_prefix (Demo.request "Bearer abcBearer def") "abc" "def").
  - discriminate.
  - reflexivity.
  - reflexivity.
Defined.

(** What follows for the caller: a header that carries a valid token and
    then the prefix and more text is accepted like the token alone. *)
Example CurrentJWT_accepts_text_after_token :
  let token := Demo.issued 1700000000000000000%Z "4h" ["grp-ns-dev"] "alice" false in
  exists claims,
    Services.CurrentJWT (H := Demo.collaborators) 1700000000000000000%Z Http.newResponse
      (Demo.request ("Bearer " ++ token ++ "Bearer junk")) = Ret (Some claims, None).
Proof. eexists. vm_compute. reflexivity. Qed.

(** A header without the prefix, or with nothing after it, is refused. *)
Lemma bearerToken_refuses (r : Http.Request) :
  GoStrings.HasPrefix (Http.Get (Http.RequestHeader r) "Authorization") "Bearer " = false \/
  (String.length (Http.Get (Http.RequestHeader r) "Authorization") < 8)%nat ->
  Services.bearerToken r
    = Ret (Err (errorString ("Invalid Authorization Header: "
                             ++ Http.Get (Http.RequestHeader r) "Authorization")%string)).
Proof.
  intros Hbad. unfold Services.bearerToken, Services.bearerPrefix.
  destruct Hbad as [Hp|Hlen].
  - rewrite Hp. reflexivity.
  - apply Nat.ltb_lt in Hlen. rewrite Hlen, orb_true_r. reflexivity.
Qed.

(** A fault is never the outcome of [CurrentJWT]. *)
Lemma CurrentJWT_returns `{Collaborators} (now : GoTime.Time) (w : Http.ResponseWriter)
  (r : Http.Request) :
  exists outcome, Services.CurrentJWT now w r = Ret outcome.
Proof.
  unfold Services.CurrentJWT, Services.bearerToken.
  destruct (negb _ || _) eqn:Hguard; cbn [bind]; [eauto|].
  apply orb_false_iff in Hguard as [Hp Hlen]. apply negb_false_iff in Hp.
  remember (Http.Get (Http.RequestHeader r) "Authorization") as bearer eqn:Hb. clear Hb.
  unfold Services.bearerPrefix in *.
  assert (Hsplit : exists a b rest, GoStrings.Split bearer "Bearer " = a :: b :: rest).
  { unfold GoStrings.HasPrefix in Hp.
    assert (Hcut : GoStrings.cutAt "Bearer " bearer = Some ("", GoStrings.drop 7 bearer)).
    { destruct bearer as [|c s]; [discriminate|]. cbn [GoStrings.cutAt].
      rewrite Hp. reflexivity. }
    pose proof (StringFacts.cutAt_shorter "Bearer " _ _ _ ltac:(discriminate) Hcut) as Hshort.
    change (GoStrings.Split bearer "Bearer ")
      with (GoStrings.genSplit (GoStrings.Count bearer "Bearer ") "Bearer " bearer).
    unfold GoStrings.Count. destruct (String.length bearer) as [|n]; [lia|].
    cbn [GoStrings.countFrom GoStrings.genSplit]. rewrite Hcut.
    cbn [GoStrings.genSplit]. rewrite Hcut.
    destruct (GoStrings.genSplit _ _ (GoStrings.drop 7 bearer)) as [|b rest] eqn:Hg.
    - exfalso. exact (StringFacts.genSplit_nonempty _ _ _ Hg).
    - eauto. }
  destruct Hsplit as (a & b & rest & ->). cbn [index nth_error bind].
  unfold Jwt.ParseWithClaims.
  destruct (Jwt.ParseUnverified b) as [[[tok|] parts] [err|]] eqn:Hparse; cbn [bind]; eauto.
  - destruct (match Jwt.StandardClaimsValid now (Standard (Jwt.Claims tok)) with
              | Some (ValidationError inner flags _) => (inner, flags)
              | Some e => (Some e, Jwt.ValidationErrorClaimsInvalid)
              | None => (None, 0%N)
              end) as [vInner vErrors].
    cbn [Jwt.Method].
    destruct (Jwt.Method tok) as [m|].
    + destruct (Jwt.Verify m _ _ signingKey); [|destruct (vErrors =? 0)%N]; cbn; eauto.
      destruct (N.lor vErrors Jwt.ValidationErrorSignatureInvalid =? 0)%N; cbn; eauto.
    + destruct (vErrors =? 0)%N; cbn; eauto.
  - exfalso. unfold Jwt.ParseUnverified in Hparse.
    repeat match type of Hparse with
           | context [match ?x with _ => _ end] => destruct x
           end; discriminate Hparse.
Qed.

(** ** Tampering *)

(** C8, as the code has it. The token is [signed.sig]. Replacing any
    byte of the signature segment but its last makes verification fail:
    with the signature flag set when the new byte is not the separator,
    as malformed (four segments) when it is. The last byte of the
    signature segment, when the code has [3k + 1] bytes as the 64 bytes
    of HS512 have, is a character of the alphabet of which the decoder
    keeps the two leading bits only: a replacement is accepted, until
    the token expires, when it is a character of the alphabet with the
    same two leading bits, and makes verification fail in the same way
    as at the other positions in every other case. Replacing any byte of
    the payload segment makes verification fail, provided the code of
    the altered text under the key differs from the code of the signed
    text, which is what the hash is there for. *)
Theorem tamper_detection `{Collaborators} (now later : GoTime.Time) (cfg : Config)
  (groups : list string) (username : string) (admin : bool) :
  let claims := Services.issuedClaims now cfg groups username admin in
  let payload := Services.payloadSegment claims in
  let signed := (Services.headerSegment ++ "." ++ payload)%string in
  let sig := Services.signatureSegment signed in
  let last := (String.length sig - 1)%nat in
  jsonUnmarshalHeader (jsonMarshalHeader (Jwt.headerOf Jwt.SigningMethodHS512))
    = Ok (Jwt.headerOf Jwt.SigningMethodHS512) ->
  jsonDecodeClaims (jsonMarshalClaims claims) = Ok claims ->
  Services.generateUserToken now (Some cfg) groups username admin
    = Ret ((signed ++ "." ++ sig)%string, None) /\
  (forall (i : nat) (c : ascii),
      (S i < String.length sig)%nat -> String.get i sig <> Some c ->
      exists tok inner flags text,
        Jwt.ParseWithClaims later (signed ++ "." ++ GoStrings.replaceAt i c sig)%string signingKey
          = (tok, Some (ValidationError inner flags text)) /\
        (if Ascii.eqb c Jwt.dot then flags = Jwt.ValidationErrorMalformed
         else N.land flags Jwt.ValidationErrorSignatureInvalid
              = Jwt.ValidationErrorSignatureInvalid)) /\
  ((String.length (hmacSum SHA512 signingKey signed) mod 3 = 1)%nat ->
   exists (c0 : ascii) (v0 : Z),
     String.get last sig = Some c0 /\
     Base64.decodeMap Base64.URLEncoding c0 = Some v0 /\
     forall c : ascii,
       ((exists v : Z,
            Base64.decodeMap Base64.URLEncoding c = Some v /\ (v / 16 = v0 / 16)%Z) ->
        (GoTime.Unix later <= Services.expiry now cfg)%Z ->
        Jwt.ParseWithClaims later (signed ++ "." ++ GoStrings.replaceAt last c sig)%string
          signingKey
          = (Some (Jwt.parsedToken claims
                     (signed ++ "." ++ GoStrings.replaceAt last c sig)%string
                     (GoStrings.replaceAt last c sig) true), None)) /\
       (~ (exists v : Z,
              Base64.decodeMap Base64.URLEncoding c = Some v /\ (v / 16 = v0 / 16)%Z) ->
        exists tok inner flags text,
          Jwt.ParseWithClaims later (signed ++ "." ++ GoStrings.replaceAt last c sig)%string
            signingKey
            = (tok, Some (ValidationError inner flags text)) /\
          (if Ascii.eqb c Jwt.dot then flags = Jwt.ValidationErrorMalformed
           else N.land flags Jwt.ValidationErrorSignatureInvalid
                = Jwt.ValidationErrorSignatureInvalid))) /\
  (forall (i : nat) (c : ascii),
      (i < String.length payload)%nat -> String.get i payload <> Some c ->
      hmacSum SHA512 signingKey
        (Services.headerSegment ++ "." ++ GoStrings.replaceAt i c payload)%string
        <> hmacSum SHA512 signingKey signed ->
      exists tok e,
        Jwt.ParseWithClaims later
          ((Services.headerSegment ++ "." ++ GoStrings.replaceAt i c payload) ++ "." ++ sig)%string
          signingKey = (tok, Some e)).
Proof.
  intros claims payload signed sig last Hheader Hclaims. split; [|split; [|split]].
  - apply generateUserToken_issues.
  - intros i c Hi Hget.
    exact (signature_tampered now cfg groups username admin Hheader Hclaims later i c Hi Hget).
  - intros Hlen.
    destruct (signature_last_character now cfg groups username admin Hlen)
      as (c0 & v0 & Hget & Hc0).
    exists c0, v0. split; [exact Hget|]. split; [exact Hc0|]. intros c. split.
    + intros (v & Hc & Hslack) Htime.
      exact (signature_last_accepted now cfg groups username admin Hheader Hclaims
               later c0 c v0 v Hlen Hget Hc0 Hc Hslack Htime).
    + intros Hother.
      exact (signature_last_rejected now cfg groups username admin Hheader Hclaims
               later c0 c v0 Hlen Hget Hc0 Hother).
  - intros i c Hi Hget Hmac.
    exact (payload_tampered now cfg groups username admin Hheader later i c Hi Hget Hmac).
Qed.

Lemma tamper_detection_witness :
  let now := 1700000000000000000%Z in
  let claims :=
    Services.issuedClaims (H := Demo.collaborators) now (Demo.config "4h")
      ["grp-ns-dev"] "alice" false in
  let payload := Services.payloadSegment (H := Demo.collaborators) claims in
  let signed := (Services.headerSegment (H := Demo.collaborators) ++ "." ++ payload)%string in
  let sig := Services.signatureSegment (H := Demo.collaborators) signed in
  let last := (String.length sig - 1)%nat in
  let key := signingKey (Collaborators := Demo.collaborators) in
  let rejected (c : ascii) :=
    exists tok inner flags text,
      Jwt.ParseWithClaims (H := Demo.collaborators) now
        (signed ++ "." ++ GoStrings.replaceAt last c sig)%string key
        = (tok, Some (ValidationError inner flags text)) /\
      N.land flags Jwt.ValidationErrorSignatureInvalid
        = Jwt.ValidationErrorSignatureInvalid in
  let accepted (c : ascii) :=
    Jwt.ParseWithClaims (H := Demo.collaborators) now
      (signed ++ "." ++ GoStrings.replaceAt last c sig)%string key
      = (Some (Jwt.parsedToken claims
                 (signed ++ "." ++ GoStrings.replaceAt last c sig)%string
                 (GoStrings.replaceAt last c sig) true), None) in
  Services.generateUserToken (H := Demo.collaborators) now (Some (Demo.config "4h"))
    ["grp-ns-dev"] "alice" false = Ret ((signed ++ "." ++ sig)%string, None) /\
  (forall (i : nat) (c : ascii),
      (S i < String.length sig)%nat -> String.get i sig <> Some c ->
      exists tok inner flags text,
        Jwt.ParseWithClaims (H := Demo.collaborators) now
          (signed ++ "." ++ GoStrings.replaceAt i c sig)%string key
          = (tok, Some (ValidationError inner flags text)) /\
        (if Ascii.eqb c Jwt.dot then flags = Jwt.ValidationErrorMalformed
         else N.land flags Jwt.ValidationErrorSignatureInvalid
              = Jwt.ValidationErrorSignatureInvalid)) /\
  (String.get last sig = Some "A"%char /\
   accepted "B"%char /\ accepted "P"%char /\
   rejected "Q"%char /\ rejected "_"%char /\ rejected "!"%char /\ rejected "="%char) /\
  (forall (i : nat) (c : ascii),
      (i < String.length payload)%nat -> String.get i payload <> Some c ->
      Demo.checksum SHA512 key
        (Services.headerSegment (H := Demo.collaborators) ++ "." ++ GoStrings.replaceAt i c payload)%string
        <> Demo.checksum SHA512 key signed ->
      exists tok e,
        Jwt.ParseWithClaims (H := Demo.collaborators) now
          ((Services.headerSegment (H := Demo.collaborators) ++ "."
            ++ GoStrings.replaceAt i c payload) ++ "." ++ sig)%string
          key = (tok, Some e)).
Proof.
  cbv zeta.
  pose proof (tamper_detection (H := Demo.collaborators) 1700000000000000000%Z
                1700000000000000000%Z (Demo.config "4h") ["grp-ns-dev"] "alice" false) as T.
  cbv zeta in T.
  match type of T with
  | ?P -> _ => assert (Hheader : P) by (vm_compute; reflexivity)
  end.
  specialize (T Hheader). clear Hheader.
  match type of T with
  | ?P -> _ => assert (Hclaims : P) by (vm_compute; reflexivity)
  end.
  specialize (T Hclaims). clear Hclaims.
  destruct T as (Tissue & Tsig & Tlast & Tpayload).
  split; [exact Tissue|]. split; [exact Tsig|]. split; [|exact Tpayload].
  match type of Tlast with
  | ?P -> _ => assert (Hlen : P) by (vm_compute; reflexivity)
  end.
  destruct (Tlast Hlen) as (c0 & v0 & Hget & Hc0 & Hall). clear Tlast Hlen.
  assert (E0 : c0 = "A"%char).
  { vm_compute in Hget. injection Hget as <-. reflexivity. }
  subst c0.
  assert (E1 : v0 = 0%Z).
  { vm_compute in Hc0. injection Hc0 as <-. reflexivity. }
  subst v0.
  split; [exact Hget|].
  split; [apply (proj1 (Hall "B"%char));
            [exists 1%Z; split; vm_compute; reflexivity|vm_compute; discriminate]|].
  split; [apply (proj1 (Hall "P"%char));
            [exists 15%Z; split; vm_compute; reflexivity|vm_compute; discriminate]|].
  split; [|split; [|split]].
  - destruct (proj2 (Hall "Q"%char)) as (tok & inner & flags & text & Hp & Hf).
    { intros (v & Hv & Hs). vm_compute in Hv. injection Hv as <-. discriminate Hs. }
    exists tok, inner, flags, text. split; [exact Hp|exact Hf].
  - destruct (proj2 (Hall "_"%char)) as (tok & inner & flags & text & Hp & Hf).
    { intros (v & Hv & Hs). vm_compute in Hv. injection Hv as <-. discriminate Hs. }
    exists tok, inner, flags, text. split; [exact Hp|exact Hf].
  - destruct (proj2 (Hall "!"%char)) as (tok & inner & flags & text & Hp & Hf).
    { intros (v & Hv & Hs). vm_compute in Hv. discriminate Hv. }
    exists tok, inner, flags, text. split; [exact Hp|exact Hf].
  - destruct (proj2 (Hall "="%char)) as (tok & inner & flags & text & Hp & Hf).
    { intros (v & Hv & Hs). vm_compute in Hv. discriminate Hv. }
    exists tok, inner, flags, text. split; [exact Hp|exact Hf].
Defined.

(** C8, as the claim has it, fails on the last byte of the signature
    segment. The 64 bytes of an HS512 signature take 86 characters, and
    the last one carries two bits of signature and four bits that the
    decoder drops: replacing it by another character with the same two
    leading bits gives another token that verifies. *)
Lemma signature_last_byte_is_not_checked :
  let now := 1700000000000000000%Z in
  let token := Demo.issued now "4h" ["grp-ns-dev"] "alice" false in
  let last := (String.length token - 1)%nat in
  exists (original replaced : ascii) (tok : Jwt.Token),
    Services.generateUserToken (H := Demo.collaborators) now (Some (Demo.config "4h"))
      ["grp-ns-dev"] "alice" false = Ret (token, None) /\
    String.get last token = Some original /\
    original <> replaced /\
    GoStrings.replaceAt last replaced token <> token /\
    Jwt.ParseWithClaims (H := Demo.collaborators) now
      (GoStrings.replaceAt last replaced token)
      (signingKey (Collaborators := Demo.collaborators)) = (Some tok, None) /\
    Jwt.Valid tok = true /\
    Services.CurrentJWT (H := Demo.collaborators) now Http.newResponse
      (Demo.request ("Bearer " ++ GoStrings.replaceAt last replaced token))
      = Ret (Some (Jwt.Claims tok), None).
Proof.
  cbv zeta. exists "A"%char, "B"%char. eexists.
  split; [vm_compute; reflexivity|]. split; [vm_compute; reflexivity|].
  split; [discriminate|]. split; [vm_compute; discriminate|].
  split; [vm_compute; reflexivity|]. split; vm_compute; reflexivity.
Qed.

(** * Further properties of the code

    What the handlers, [MakeConfig] and the library calls they make do on
    every input, beyond the properties above. *)

(** ** [encoding/base64] with the standard alphabet

    [MakeConfig] encodes the CA file with [StdEncoding] and [basicAuth]
    decodes the credentials with it. *)

Module StdFacts.

Import Base64 GoStrings Base64Facts.

Local Open Scope Z_scope.

Lemma table_Std : forallb (tableCheck StdEncoding) (seq 0 64) = true.
Proof. vm_compute. reflexivity. Qed.

Lemma table_entry_Std (v : Z) :
  0 <= v < 64 ->
  decodeMap StdEncoding (encodeByte StdEncoding v) = Some v /\
  isNewline (encodeByte StdEncoding v) = false /\
  isPad StdEncoding (encodeByte StdEncoding v) = false.
Proof.
  intros Hv. pose proof table_Std as T. rewrite forallb_forall in T.
  specialize (T (Z.to_nat v)). unfold tableCheck in T. rewrite Z2Nat.id in T by lia.
  assert (Hin : In (Z.to_nat v) (seq 0 64)) by (apply in_seq; lia).
  specialize (T Hin).
  destruct (decodeMap StdEncoding (encodeByte StdEncoding v)) as [u|]; [|discriminate].
  apply andb_true_iff in T as [T Hp]. apply andb_true_iff in T as [Hu Hn].
  apply Z.eqb_eq in Hu. apply negb_true_iff in Hn, Hp. subst u. auto.
Qed.

(** Neither alphabet is strict: a quantum gives the same bytes. *)
Lemma quantumBytes_Std (dbuf : list Z) :
  quantumBytes StdEncoding dbuf = quantumBytes URLEncoding dbuf.
Proof. reflexivity. Qed.

Lemma decode_sextet_Std (val shift : Z) (rest : string) (dbuf : list Z) :
  decode StdEncoding (String (encodeByte StdEncoding (sextet val shift)) rest) dbuf =
    if (List.length (dbuf ++ [sextet val shift]) =? 4)%nat then
      match quantumBytes URLEncoding (dbuf ++ [sextet val shift]) with
      | Some out =>
          let '(more, err) := decode StdEncoding rest [] in ((out ++ more)%string, err)
      | None => ("", Some CorruptInputError)
      end
    else decode StdEncoding rest (dbuf ++ [sextet val shift]).
Proof.
  rewrite <- quantumBytes_Std. apply decode_some.
  apply table_entry_Std, sextet_range.
Qed.

Lemma decode_encode_Std (bs : string) :
  decode StdEncoding (EncodeToString StdEncoding bs) [] = (bs, None).
Proof.
  induction bs as [|a|a b|a b c rest IH] using string_ind3.
  - reflexivity.
  - cbn [EncodeToString]. change (padding StdEncoding 2) with "==".
    rewrite !decode_sextet_Std. cbn [app List.length Nat.eqb].
    rewrite decode_pad by reflexivity. cbn [List.length].
    change (skipNewlines "=") with "=". cbv iota.
    change (isPad StdEncoding "=") with true. cbv iota.
    unfold afterPadding. rewrite quantumBytes_Std, quantumBytes_arith by sextets_tac.
    cbn [List.length skipNewlines]. cbv zeta. rewrite quantum1.
    f_equal. f_equal. pose proof (uint_range a). apply byte_eq_iff.
    Z.to_euclidean_division_equations; lia.
  - cbn [EncodeToString]. change (padding StdEncoding 1) with "=".
    rewrite !decode_sextet_Std. cbn [app List.length Nat.eqb].
    rewrite decode_pad by reflexivity. cbn [List.length].
    unfold afterPadding. rewrite quantumBytes_Std, quantumBytes_arith by sextets_tac.
    cbn [List.length skipNewlines]. cbv zeta. rewrite quantum2.
    pose proof (uint_range a). pose proof (uint_range b).
    f_equal. f_equal; [|f_equal]; apply byte_eq_iff; Z.to_euclidean_division_equations; lia.
  - cbn [EncodeToString].
    rewrite !decode_sextet_Std. cbn [app List.length Nat.eqb].
    rewrite quantumBytes_arith by sextets_tac. cbn [List.length]. cbv zeta.
    rewrite quantum3, IH. cbv [String.append].
    pose proof (uint_range a). pose proof (uint_range b). pose proof (uint_range c).
    f_equal. f_equal; [|f_equal; [|f_equal]]; apply byte_eq_iff;
      Z.to_euclidean_division_equations; lia.
Qed.

Lemma EncodeToString_length (bs : string) :
  String.length (EncodeToString StdEncoding bs) = (4 * ((String.length bs + 2) / 3))%nat.
Proof.
  induction bs as [|a|a b|a b c rest IH] using string_ind3; try reflexivity.
  cbn [EncodeToString String.length]. rewrite IH.
  replace (S (S (S (String.length rest))) + 2)%nat
    with ((String.length rest + 2) + 1 * 3)%nat by lia.
  rewrite Nat.div_add by lia. lia.
Qed.

End StdFacts.

(** X1: whatever bytes [EncodeToString] of the standard encoding is
    given, [DecodeString] of the same encoding gives them back with no
    error; the text in between has four characters for every three
    bytes begun, padding included. *)
Theorem StdEncoding_round_trip (bs : string) :
  Base64.DecodeString Base64.StdEncoding (Base64.EncodeToString Base64.StdEncoding bs)
    = (bs, None) /\
  String.length (Base64.EncodeToString Base64.StdEncoding bs)
    = (4 * ((String.length bs + 2) / 3))%nat.
Proof.
  split; [apply StdFacts.decode_encode_Std|apply StdFacts.EncodeToString_length].
Qed.

(** X2: a token segment. [EncodeSegment] writes base64url without the
    trailing padding and [DecodeSegment] puts the padding back before it
    decodes: every byte string comes back unchanged, and its segment
    holds neither the padding character nor the separator of segments. *)
Theorem segment_round_trip (bs : string) :
  Jwt.DecodeSegment (Jwt.EncodeSegment bs) = (bs, None) /\
  GoStrings.containsByte (Jwt.EncodeSegment bs) "="%char = false /\
  GoStrings.containsByte (Jwt.EncodeSegment bs) "."%char = false.
Proof.
  split; [apply Base64Facts.DecodeSegment_EncodeSegment|].
  split; apply TokenFacts.EncodeSegment_without; reflexivity.
Qed.

(** ** [strings.SplitN] and [strings.Split] *)

Module SplitFacts.

Import GoStrings StringFacts.

Lemma prefix_split (p s : string) :
  String.prefix p s = true -> s = (p ++ drop (String.length p) s)%string.
Proof.
  revert s. induction p as [|a p IH]; intros s Hp.
  - reflexivity.
  - destruct s as [|b s]; [discriminate|].
    rewrite prefix_cons in Hp. apply andb_true_iff in Hp as [Hab Hp].
    apply Ascii.eqb_eq in Hab. subst b. cbn [String.length drop].
    change (String a p ++ drop (String.length p) s)%string
      with (String a (p ++ drop (String.length p) s)%string).
    f_equal. apply IH, Hp.
Qed.

Lemma prefix_append (p s t : string) :
  String.prefix p s = true -> String.prefix p (s ++ t)%string = true.
Proof.
  revert s. induction p as [|a p IH]; intros s Hp; [apply prefix_nil|].
  destruct s as [|b s]; [discriminate|].
  rewrite prefix_cons in Hp. apply andb_true_iff in Hp as [Hab Hp].
  change (String b s ++ t)%string with (String b (s ++ t)%string).
  rewrite prefix_cons, Hab, (IH s Hp). reflexivity.
Qed.

(** A cut gives back the text around the separator. *)
Lemma cutAt_joins (sep s a b : string) :
  cutAt sep s = Some (a, b) -> s = (a ++ sep ++ b)%string.
Proof.
  revert a b. induction s as [|c s IH]; intros a b Hcut.
  - cbn [cutAt] in Hcut. destruct (String.prefix sep "") eqn:Hp; [|discriminate].
    injection Hcut as <- <-. exact (prefix_split sep "" Hp).
  - cbn [cutAt] in Hcut. destruct (String.prefix sep (String c s)) eqn:Hp.
    + injection Hcut as <- <-. exact (prefix_split sep (String c s) Hp).
    + destruct (cutAt sep s) as [[a' b']|]; [|discriminate].
      injection Hcut as <- <-. rewrite (IH a' b' eq_refl) at 1. reflexivity.
Qed.

Lemma cutAt_empty (sep : string) : sep <> "" -> cutAt sep "" = None.
Proof. intros Hsep. destruct sep; [congruence|reflexivity]. Qed.

(** The text before the first occurrence does not hold the separator. *)
Lemma cutAt_head_free (sep s a b : string) :
  sep <> "" -> cutAt sep s = Some (a, b) -> cutAt sep a = None.
Proof.
  intros Hsep. revert a b. induction s as [|c s IH]; intros a b Hcut.
  - rewrite cutAt_empty in Hcut by exact Hsep. discriminate.
  - cbn [cutAt] in Hcut. destruct (String.prefix sep (String c s)) eqn:Hp.
    + injection Hcut as <- <-. apply cutAt_empty, Hsep.
    + destruct (cutAt sep s) as [[a' b']|] eqn:Hrec; [|discriminate].
      injection Hcut as <- <-. cbn [cutAt].
      destruct (String.prefix sep (String c a')) eqn:Hp'.
      * exfalso. apply (prefix_append _ _ (sep ++ b')%string) in Hp'.
        change (String c a' ++ sep ++ b')%string
          with (String c (a' ++ sep ++ b')%string) in Hp'.
        rewrite <- (cutAt_joins _ _ _ _ Hrec) in Hp'. congruence.
      * rewrite (IH a' b' eq_refl). reflexivity.
Qed.

Lemma genSplit_joins (n : nat) (sep s : string) :
  String.concat sep (genSplit n sep s) = s.
Proof.
  revert s. induction n as [|n IH]; intros s; [reflexivity|].
  cbn [genSplit]. destruct (cutAt sep s) as [[a b]|] eqn:Hcut; [|reflexivity].
  cbn [String.concat]. destruct (genSplit n sep b) as [|p ps] eqn:Hg.
  - exfalso. exact (genSplit_nonempty _ _ _ Hg).
  - rewrite <- Hg, IH. symmetry. apply cutAt_joins, Hcut.
Qed.

Lemma genSplit_length (n : nat) (sep s : string) :
  (1 <= List.length (genSplit n sep s) <= S n)%nat.
Proof.
  revert s. induction n as [|n IH]; intros s; cbn [genSplit]; [cbn; lia|].
  destruct (cutAt sep s) as [[a b]|]; [|cbn; lia].
  specialize (IH b). cbn [List.length]. lia.
Qed.

(** [Count] bounds its search by the length of the text, which is
    enough: after as many cuts no piece holds the separator. *)
Lemma genSplit_all_cut (sep : string) (fuel : nat) :
  sep <> "" ->
  forall s, (String.length s <= fuel)%nat ->
  Forall (fun piece => cutAt sep piece = None) (genSplit (countFrom fuel sep s) sep s).
Proof.
  intros Hsep. induction fuel as [|fuel IH]; intros s Hlen.
  - destruct s; [|cbn in Hlen; lia]. cbn. constructor; [|constructor].
    apply cutAt_empty, Hsep.
  - cbn [countFrom]. destruct (cutAt sep s) as [[a b]|] eqn:Hcut.
    + cbn [genSplit]. rewrite Hcut. constructor.
      * exact (cutAt_head_free sep s a b Hsep Hcut).
      * apply IH. pose proof (cutAt_shorter sep s a b Hsep Hcut). lia.
    + cbn [genSplit]. constructor; [exact Hcut|constructor].
Qed.

End SplitFacts.

(** X3: [SplitN] with a positive count, as [basicAuth] calls it twice
    with 2. For a separator that is not empty, the pieces joined by the
    separator are the text that was split, and there are at least one
    and at most [n] of them: the first piece always exists, the second
    need not. *)
Theorem SplitN_pieces (s sep : string) (n : Z) :
  sep <> "" -> (0 < n)%Z ->
  String.concat sep (GoStrings.SplitN s sep n) = s /\
  (1 <= List.length (GoStrings.SplitN s sep n) <= Z.to_nat n)%nat.
Proof.
  intros Hsep Hn. unfold GoStrings.SplitN.
  destruct (Z.eqb_spec n 0); [lia|]. destruct (Z.ltb_spec n 0); [lia|].
  split; [apply SplitFacts.genSplit_joins|].
  pose proof (SplitFacts.genSplit_length (Z.to_nat n - 1) sep s). lia.
Qed.

Lemma SplitN_pieces_witness :
  String.concat ":" (GoStrings.SplitN "bob:se:cret" ":" 2) = "bob:se:cret" /\
  (1 <= List.length (GoStrings.SplitN "bob:se:cret" ":" 2) <= Z.to_nat 2)%nat.
Proof.
  apply (SplitN_pieces "bob:se:cret" ":" 2); [discriminate|reflexivity].
Defined.

(** X4: [Split], as [CurrentJWT] calls it on the header and the token
    parser on the token. For a separator that is not empty, the pieces
    joined by the separator are the text that was split, there is one
    piece more than there are occurrences counted, and no piece holds
    the separator ([cutAt] finds none in it). *)
Theorem Split_pieces (s sep : string) :
  sep <> "" ->
  String.concat sep (GoStrings.Split s sep) = s /\
  List.length (GoStrings.Split s sep) = S (GoStrings.Count s sep) /\
  Forall (fun piece => GoStrings.cutAt sep piece = None) (GoStrings.Split s sep).
Proof.
  intros Hsep. change (GoStrings.Split s sep)
    with (GoStrings.genSplit (GoStrings.Count s sep) sep s).
  split; [apply SplitFacts.genSplit_joins|]. split.
  - unfold GoStrings.Count. generalize (String.length s) as fuel.
    intros fuel. revert s. induction fuel as [|fuel IH]; intros s; [reflexivity|].
    cbn [GoStrings.countFrom]. destruct (GoStrings.cutAt sep s) as [[a b]|] eqn:Hcut.
    + cbn [GoStrings.genSplit]. rewrite Hcut. cbn [List.length]. rewrite IH. reflexivity.
    + reflexivity.
  - apply SplitFacts.genSplit_all_cut; [exact Hsep|lia].
Qed.

Lemma Split_pieces_witness :
  String.concat "Bearer " (GoStrings.Split "Bearer abcBearer def" "Bearer ")
    = "Bearer abcBearer def" /\
  List.length (GoStrings.Split "Bearer abcBearer def" "Bearer ")
    = S (GoStrings.Count "Bearer abcBearer def" "Bearer ") /\
  Forall (fun piece => GoStrings.cutAt "Bearer " piece = None)
    (GoStrings.Split "Bearer abcBearer def" "Bearer ").
Proof.
  apply (Split_pieces "Bearer abcBearer def" "Bearer "). discriminate.
Defined.

(** ** [time.ParseDuration] *)

Module DurationFacts.

Import GoTime.

Local Open Scope Z_scope.

(** Every error return of [ParseDuration] carries the duration 0. *)
Lemma ParseDuration_error_zero (s : string) :
  snd (ParseDuration s) <> None -> fst (ParseDuration s) = 0.
Proof.
  unfold ParseDuration.
  destruct (match s with
            | String "-" s' => (true, s')
            | String "+" s' => (false, s')
            | _ => (false, s)
            end) as [neg s1].
  destruct (String.eqb s1 "0"); [cbn; congruence|].
  destruct (String.eqb s1 ""); [reflexivity|].
  destruct (parseTerms (String.length s1) s1 0) as [e|d]; [reflexivity|].
  destruct neg; [cbn; congruence|].
  destruct (d >? twoTo63 - 1); [reflexivity|cbn; congruence].
Qed.

(** The sum of the terms is a [uint64]: two terms of 2^63 nanoseconds
    wrap to 0, which is returned with no error. *)
Example ParseDuration_wraps :
  ParseDuration "9223372036854775808ns9223372036854775808ns" = (0, None) /\
  snd (ParseDuration "9223372036854775808ns1ns") <> None.
Proof. split; [vm_compute; reflexivity|vm_compute; discriminate]. Qed.

(** The three error texts. *)
Example ParseDuration_errors :
  ParseDuration "90" = (0, Some ("time: missing unit in duration " ++ quote "90")%string) /\
  ParseDuration "4hours"
    = (0, Some ("time: unknown unit " ++ quote "hours" ++ " in duration "
                  ++ quote "4hours")%string) /\
  ParseDuration "-" = (0, Some ("time: invalid duration " ++ quote "-")%string).
Proof. vm_compute. repeat split; reflexivity. Qed.







End DurationFacts.




(** ** Credential extraction on every request *)

Section Credentials.

Import GoStrings StringFacts SplitFacts Services.

Lemma basic_prefix_cut (h : string) :
  HasPrefix h "Basic " = true -> cutAt " " h = Some ("Basic", drop 6 h).
Proof.
  intros Hp. unfold HasPrefix in Hp. rewrite (prefix_split _ _ Hp) at 1.
  change ("Basic " ++ drop (String.length "Basic ") h)%string
    with ("Basic" ++ String " " (drop 6 h))%string.
  apply cutAt_char. reflexivity.
Qed.

Lemma basic_cut_prefix (h b : string) :
  cutAt " " h = Some ("Basic", b) -> HasPrefix h "Basic " = true.
Proof.
  intros Hcut. rewrite (cutAt_joins _ _ _ _ Hcut). unfold HasPrefix.
  change ("Basic" ++ " " ++ b)%string
    with (String "B" (String "a" (String "s" (String "i" (String "c" (String " " b)))))).
  rewrite !prefix_cons, prefix_nil. reflexivity.
Qed.

Lemma basicAuth_without_prefix (r : Http.Request) :
  HasPrefix (Http.Get (Http.RequestHeader r) "Authorization") "Basic " = false ->
  basicAuth r = Ret (Some (errorString "Invalid Auth"), None).
Proof.
  intros Hp. apply (basicAuth_wrong_scheme r _ eq_refl). rewrite SplitN_once.
  destruct (cutAt " " (Http.Get (Http.RequestHeader r) "Authorization")) as [[a b]|] eqn:Hcut.
  - right. cbn [nth]. intros ->. rewrite (basic_cut_prefix _ b Hcut) in Hp. discriminate.
  - left. cbn. lia.
Qed.

Lemma basicAuth_with_prefix (r : Http.Request) :
  HasPrefix (Http.Get (Http.RequestHeader r) "Authorization") "Basic " = true ->
  SplitN (Http.Get (Http.RequestHeader r) "Authorization") " " 2
    = ["Basic"; drop 6 (Http.Get (Http.RequestHeader r) "Authorization")].
Proof.
  intros Hp. rewrite SplitN_once, (basic_prefix_cut _ Hp). reflexivity.
Qed.

End Credentials.

(** X6: what [basicAuth] does with any request. The error is returned
    exactly when the Authorization header does not start with the
    scheme and a space. Otherwise whatever follows is decoded, the
    decoding error is dropped, and the bytes decoded so far are cut at
    their first colon: the credentials when there is one, an index out
    of range when there is none. *)
Theorem basicAuth_outcome (r : Http.Request) :
  let header := Http.Get (Http.RequestHeader r) "Authorization" in
  Services.basicAuth r =
    if GoStrings.HasPrefix header "Basic " then
      match GoStrings.cutAt ":"
              (fst (Base64.DecodeString Base64.StdEncoding (GoStrings.drop 6 header))) with
      | Some (username, password) =>
          Ret (None, Some {| Username := username; Password := password |})
      | None => Panic (IndexOutOfRange 1 1)
      end
    else Ret (Some (errorString "Invalid Auth"), None).
Proof.
  intros header. destruct (GoStrings.HasPrefix header "Basic ") eqn:Hp.
  - pose proof (basicAuth_with_prefix r Hp) as Hsplit. fold header in Hsplit.
    destruct (Base64.DecodeString Base64.StdEncoding (GoStrings.drop 6 header))
      as [payload e] eqn:Hdec.
    destruct (GoStrings.cutAt ":" payload) as [[username password]|] eqn:Hpair;
      cbn [fst]; rewrite Hpair.
    + exact (basicAuth_uses_decoded_prefix r _ _ _ _ _ Hsplit Hdec Hpair).
    + unfold Services.basicAuth. fold header. rewrite Hsplit.
      remember (GoStrings.drop 6 header) as encoded eqn:He. clear He.
      cbn -[GoStrings.SplitN Base64.DecodeString]. rewrite Hdec, SplitN_once, Hpair.
      reflexivity.
  - apply basicAuth_without_prefix. exact Hp.
Qed.

(** X7: credentials as a client sends them. When the header is the
    scheme, a space and the standard base64 of [username:password], and
    the user name holds no colon, [basicAuth] returns that user name and
    that password, colons of the password included. *)
Theorem basicAuth_reads_encoded_credentials (r : Http.Request) (username password : string) :
  GoStrings.containsByte username ":"%char = false ->
  Http.Get (Http.RequestHeader r) "Authorization"
    = ("Basic " ++ Base64.EncodeToString Base64.StdEncoding (username ++ ":" ++ password))%string ->
  Services.basicAuth r = Ret (None, Some {| Username := username; Password := password |}).
Proof.
  intros Hname Hr.
  apply (basicAuth_uses_decoded_prefix r
           (Base64.EncodeToString Base64.StdEncoding (username ++ ":" ++ password))
           (username ++ ":" ++ password)%string username password None).
  - rewrite Hr, SplitN_once.
    change ("Basic " ++ ?x)%string with ("Basic" ++ String " " x)%string.
    rewrite (StringFacts.cutAt_char " "%char "Basic" _ eq_refl). reflexivity.
  - apply StdFacts.decode_encode_Std.
  - change (username ++ ":" ++ password)%string with (username ++ String ":" password)%string.
    apply StringFacts.cutAt_char. exact Hname.
Qed.

Lemma basicAuth_reads_encoded_credentials_witness :
  Services.basicAuth (Demo.request "Basic Ym9iOnNlOmNyZXQ=")
    = Ret (None, Some {| Username := "bob"; Password := "se:cret" |}).
Proof.
  apply (basicAuth_reads_encoded_credentials (Demo.request "Basic Ym9iOnNlOmNyZXQ=")
           "bob" "se:cret"); reflexivity.
Defined.

(** ** Issuance *)

(** X8: the token [generateUserToken] returns, for any configuration,
    groups, user and instant. It has exactly three segments; the first
    decodes to the JSON of the header with [typ] JWT and [alg] HS512,
    the second to the JSON of the claims, the third to the HMAC-SHA512
    of the first two joined by a dot under the signing key; and every
    byte of it is a dot or a character of the URL alphabet, so it holds
    no space and no padding. *)
Theorem issued_token_shape `{Collaborators} (now : GoTime.Time) (cfg : Config)
  (groups : list string) (username : string) (admin : bool) :
  exists token header payload signature,
    Services.generateUserToken now (Some cfg) groups username admin = Ret (token, None) /\
    GoStrings.Split token "." = [header; payload; signature] /\
    Jwt.DecodeSegment header
      = (jsonMarshalHeader (<["typ" := "JWT"]> (<["alg" := "HS512"]> ∅)), None) /\
    Jwt.DecodeSegment payload
      = (jsonMarshalClaims (Services.issuedClaims now cfg groups username admin), None) /\
    Jwt.DecodeSegment signature
      = (hmacSum SHA512 signingKey (header ++ "." ++ payload)%string, None) /\
    forall c, GoStrings.containsByte token c = true ->
              c = "."%char \/ Base64.decodeMap Base64.URLEncoding c <> None.
Proof.
  exists (Services.issuedToken now cfg groups username admin),
         Services.headerSegment,
         (Services.payloadSegment (Services.issuedClaims now cfg groups username admin)),
         (Services.signatureSegment
            (Services.headerSegment ++ "."
             ++ Services.payloadSegment (Services.issuedClaims now cfg groups username admin))).
  split; [apply generateUserToken_issues|]. split.
  { unfold Services.issuedToken.
    apply TokenFacts.Split_segments; apply TokenFacts.EncodeSegment_without; reflexivity. }
  split; [apply Base64Facts.DecodeSegment_EncodeSegment|].
  split; [apply Base64Facts.DecodeSegment_EncodeSegment|].
  split; [apply Base64Facts.DecodeSegment_EncodeSegment|].
  intros c Hin. destruct (Ascii.eqb_spec c Jwt.dot) as [->|Hdot]; [left; reflexivity|].
  right. intros Hmap.
  rewrite (issuedToken_without now cfg groups username admin c Hmap) in Hin;
    [discriminate|]. apply Ascii.eqb_neq, Hdot.
Qed.

(** X9: a configured lifetime that [ParseDuration] rejects, whatever the
    text. [generateUserToken] drops the error and goes on with the zero
    duration every error return carries: it still returns a signed token
    and no error, and the token expires in the very second it was issued
    in. *)
Theorem rejected_lifetime_expires_at_issuance `{Collaborators} (now : GoTime.Time)
  (cfg : Config) (groups : list string) (username : string) (admin : bool) :
  snd (GoTime.ParseDuration (TokenLifeTime cfg)) <> None ->
  Services.generateUserToken now (Some cfg) groups username admin
    = Ret (Services.issuedToken now cfg groups username admin, None) /\
  ExpiresAt (Standard (Services.issuedClaims now cfg groups username admin)) = GoTime.Unix now.
Proof.
  intros Hrejected. split; [apply generateUserToken_issues|].
  cbn [Services.issuedClaims Standard ExpiresAt]. unfold Services.expiry.
  rewrite (DurationFacts.ParseDuration_error_zero _ Hrejected).
  unfold GoTime.Add. rewrite Z.add_0_r. reflexivity.
Qed.

Lemma rejected_lifetime_expires_at_issuance_witness :
  Services.generateUserToken (H := Demo.collaborators) 1700000000500000000%Z
    (Some (Demo.config "four hours")) ["grp-ns-dev"] "alice" false
    = Ret (Services.issuedToken (H := Demo.collaborators) 1700000000500000000%Z
             (Demo.config "four hours") ["grp-ns-dev"] "alice" false, None) /\
  ExpiresAt (Standard (Services.issuedClaims (H := Demo.collaborators) 1700000000500000000%Z
                         (Demo.config "four hours") ["grp-ns-dev"] "alice" false))
    = GoTime.Unix 1700000000500000000%Z.
Proof.
  apply (rejected_lifetime_expires_at_issuance (H := Demo.collaborators)
           1700000000500000000%Z (Demo.config "four hours") ["grp-ns-dev"] "alice" false).
  vm_compute. discriminate.
Defined.

(** X10: signing and verifying with one key. Whenever [Sign] returns a
    signature and no error for a method, a text and a key, which it does
    for the three HMAC methods only, [Verify] accepts that signature for
    the same method, text and key. *)
Theorem Sign_then_Verify `{Collaborators} (m : Jwt.SigningMethod)
  (signingString key signature : string) :
  Jwt.Sign m signingString key = (signature, None) ->
  Jwt.Verify m signingString signature key = None /\
  exists name h, m = Jwt.SigningMethodHMAC name h.
Proof.
  destruct m as [name h|name|]; cbn [Jwt.Sign]; intros E; try discriminate E.
  injection E as <-. split; [|eauto]. unfold Jwt.Verify.
  rewrite Base64Facts.DecodeSegment_EncodeSegment, String.eqb_refl. reflexivity.
Qed.

Lemma Sign_then_Verify_witness :
  Jwt.Verify (H := Demo.collaborators) Jwt.SigningMethodHS256 "header.payload"
    (fst (Jwt.Sign (H := Demo.collaborators) Jwt.SigningMethodHS256 "header.payload" "key"))
    "key" = None /\
  exists name h, Jwt.SigningMethodHS256 = Jwt.SigningMethodHMAC name h.
Proof.
  apply (Sign_then_Verify (H := Demo.collaborators) Jwt.SigningMethodHS256
           "header.payload" "key"). reflexivity.
Defined.

(** X11: [baseGenerateToken] returns a token or an error, never both
    and never neither, unless it faults: the callers that test only one
    of the two results read the other one safely. It faults, on a nil
    pointer, only when the directory returns neither a user nor an
    error, or when the user is authenticated, the groups are found and
    no configuration was loaded. *)
Theorem baseGenerateToken_token_or_error `{Collaborators} (now : GoTime.Time)
  (config : option Config) (auth : Auth) :
  (Services.baseGenerateToken now config auth = Panic NilDereference /\
   (AuthenticateUser (Username auth) (Password auth) = (None, None) \/ config = None)) \/
  (exists token, Services.baseGenerateToken now config auth = Ret (Some token, None)) \/
  (exists e, Services.baseGenerateToken now config auth = Ret (None, Some e)).
Proof.
  unfold Services.baseGenerateToken.
  destruct (AuthenticateUser (Username auth) (Password auth)) as [[dn|] [e|]]; cbn; eauto.
  destruct (GetUserGroups dn) as [groups [e|]]; cbn; eauto.
  destruct config as [cfg|]; [|cbn; auto].
  rewrite generateUserToken_issues. cbn. eauto.
Qed.

(** ** The two issuing endpoints *)

(** X12: the raw-token endpoint on accepted credentials. When the
    credentials are extracted, the directory authenticates the user and
    returns the groups, [GenerateJWT] answers 200 and the body is the
    token issued for the user name of the credentials, those groups and
    the admin flag the directory gives for the user. *)
Theorem GenerateJWT_serves_token `{Collaborators} (now : GoTime.Time) (cfg : Config)
  (r : Http.Request) (auth : Auth) (dn : string) (groups : list string) :
  Services.basicAuth r = Ret (None, Some auth) ->
  AuthenticateUser (Username auth) (Password auth) = (Some dn, None) ->
  GetUserGroups dn = (groups, None) ->
  exists w,
    Services.GenerateJWT now (Some cfg) Http.newResponse r = (w, Ret tt) /\
    Http.sentStatus w = Http.StatusOK /\
    Http.body w = Services.issuedToken now cfg groups (Username auth) (HasAdminAccess dn).
Proof.
  intros Hauth Hldap Hgroups.
  exists (Http.Write (Services.issuedToken now cfg groups (Username auth) (HasAdminAccess dn))
            (Http.WriteHeader Http.StatusOK Http.newResponse)).
  split; [|split; reflexivity].
  unfold Services.GenerateJWT, Services.baseGenerateToken.
  rewrite Hauth. cbn [deref]. rewrite Hldap. cbn [deref bind]. rewrite Hgroups.
  rewrite generateUserToken_issues. reflexivity.
Qed.

Lemma GenerateJWT_serves_token_witness :
  exists w,
    Services.GenerateJWT (H := Demo.collaborators) 1700000000000000000%Z
      (Some (Demo.config "4h")) Http.newResponse (Demo.request "Basic Ym9iOnNlY3JldA==")
      = (w, Ret tt) /\
    Http.sentStatus w = Http.StatusOK /\
    Http.body w = Services.issuedToken (H := Demo.collaborators) 1700000000000000000%Z
                    (Demo.config "4h") ["grp-ns-test"] "bob" false.
Proof.
  apply (GenerateJWT_serves_token (H := Demo.collaborators) 1700000000000000000%Z
           (Demo.config "4h") (Demo.request "Basic Ym9iOnNlY3JldA==")
           {| Username := "bob"; Password := "secret" |} Demo.bobDN ["grp-ns-test"]);
    reflexivity.
Defined.

(** X13: both issuing endpoints on a request whose Authorization header
    does not start with the scheme and a space (no header at all
    included). Each writes the status 401 and the fixed message, does
    not return, and faults on the nil credentials it dereferences
    next. *)
Theorem handlers_fault_after_failed_extraction `{Collaborators} (now : GoTime.Time)
  (config : option Config) (w : Http.ResponseWriter) (r : Http.Request) :
  GoStrings.HasPrefix (Http.Get (Http.RequestHeader r) "Authorization") "Basic " = false ->
  let written :=
    Http.Write "Basic Auth: Invalid credentials" (Http.WriteHeader Http.StatusUnauthorized w) in
  Services.GenerateJWT now config w r = (written, Panic NilDereference) /\
  Services.GenerateConfig now config w r = (written, Panic NilDereference).
Proof.
  intros Hp written. pose proof (basicAuth_without_prefix r Hp) as Hauth.
  unfold Services.GenerateJWT, Services.GenerateConfig. rewrite Hauth. split; reflexivity.
Qed.

Lemma handlers_fault_after_failed_extraction_witness :
  let written :=
    Http.Write "Basic Auth: Invalid credentials"
      (Http.WriteHeader Http.StatusUnauthorized Http.newResponse) in
  Services.GenerateJWT (H := Demo.collaborators) 0%Z (Some (Demo.config "4h"))
    Http.newResponse (Demo.request "Bearer abc") = (written, Panic NilDereference) /\
  Services.GenerateConfig (H := Demo.collaborators) 0%Z (Some (Demo.config "4h"))
    Http.newResponse (Demo.request "Bearer abc") = (written, Panic NilDereference).
Proof.
  apply (handlers_fault_after_failed_extraction (H := Demo.collaborators) 0%Z
           (Some (Demo.config "4h")) Http.newResponse (Demo.request "Bearer abc")).
  reflexivity.
Defined.

(** X14: the access-config endpoint when issuance fails. When the
    credentials are extracted and [baseGenerateToken] returns an error
    (the directory refuses the user, or the group lookup fails),
    [GenerateConfig] answers 401 with an empty body and returns. *)
Theorem GenerateConfig_directory_failure `{Collaborators} (now : GoTime.Time)
  (config : option Config) (r : Http.Request) (auth : Auth) (e : error) :
  Services.basicAuth r = Ret (None, Some auth) ->
  Services.baseGenerateToken now config auth = Ret (None, Some e) ->
  exists w,
    Services.GenerateConfig now config Http.newResponse r = (w, Ret tt) /\
    Http.sentStatus w = Http.StatusUnauthorized /\
    Http.body w = "".
Proof.
  intros Hauth Htoken. exists (Http.WriteHeader Http.StatusUnauthorized Http.newResponse).
  split; [|split; reflexivity].
  unfold Services.GenerateConfig. rewrite Hauth. cbn [deref]. rewrite Htoken. reflexivity.
Qed.

Lemma GenerateConfig_directory_failure_witness :
  exists w,
    Services.GenerateConfig (H := Demo.collaborators) 0%Z (Some (Demo.config "4h"))
      Http.newResponse (Demo.request "Basic YTpi") = (w, Ret tt) /\
    Http.sentStatus w = Http.StatusUnauthorized /\
    Http.body w = "".
Proof.
  apply (GenerateConfig_directory_failure (H := Demo.collaborators) 0%Z
           (Some (Demo.config "4h")) (Demo.request "Basic YTpi")
           {| Username := "a"; Password := "b" |}
           (errorString "LDAP Result Code 49: Invalid Credentials")); reflexivity.
Defined.

(** X15: the document the access-config endpoint serves resolves its
    own references. It has one cluster, one context and one user; the
    current context is the name of the context, the context names the
    cluster and the user, the user carries the user name of the
    credentials and the issued token, and the cluster carries the host
    of the request behind [https://] and the encoded CA of the
    configuration. *)
Theorem GenerateConfig_document_resolves `{Collaborators} (now : GoTime.Time) (cfg : Config)
  (r : Http.Request) (auth : Auth) (token : string) :
  Services.basicAuth r = Ret (None, Some auth) ->
  Services.baseGenerateToken now (Some cfg) auth = Ret (Some token, None) ->
  exists w document context cluster user,
    Services.GenerateConfig now (Some cfg) Http.newResponse r = (w, Ret tt) /\
    Http.body w = fst (yamlMarshal document) /\
    Contexts document = [context] /\ Clusters document = [cluster] /\
    Users document = [user] /\
    CurrentContext document = ContextName context /\
    ContextCluster (ContextData context) = ClusterName cluster /\
    ContextUser (ContextData context) = UserName user /\
    UserName user = Username auth /\
    Token (UserToken user) = token /\
    Server (Cluster cluster) = ("https://" ++ Http.RequestHost r)%string /\
    CertificateData (Cluster cluster) = KubeCa cfg.
Proof.
  intros Hauth Htoken.
  pose (document := Services.kubeConfig (Http.RequestHost r) (KubeCa cfg) (Username auth) token).
  exists (Http.Write (fst (yamlMarshal document))
            (Http.HeaderSet "Content-Type" "text/x-yaml; charset=utf-8"
               (Http.WriteHeader Http.StatusCreated Http.newResponse))),
         document.
  do 3 eexists. split.
  - unfold Services.GenerateConfig. rewrite Hauth. cbn. rewrite Htoken. cbn.
    fold document. destruct (yamlMarshal document) as [yml err]. reflexivity.
  - cbn. repeat split; reflexivity.
Qed.

Lemma GenerateConfig_document_resolves_witness :
  exists w document context cluster user,
    Services.GenerateConfig (H := Demo.collaborators) 0%Z (Some (Demo.config "4h"))
      Http.newResponse (Demo.request "Basic Ym9iOnNlY3JldA==") = (w, Ret tt) /\
    Http.body w = fst (Demo.yaml document) /\
    Contexts document = [context] /\ Clusters document = [cluster] /\
    Users document = [user] /\
    CurrentContext document = ContextName context /\
    ContextCluster (ContextData context) = ClusterName cluster /\
    ContextUser (ContextData context) = UserName user /\
    UserName user = "bob" /\
    Token (UserToken user) = Demo.issued 0%Z "4h" ["grp-ns-test"] "bob" false /\
    Server (Cluster cluster) = "https://host:6443" /\
    CertificateData (Cluster cluster) = "Q0E=".
Proof.
  apply (GenerateConfig_document_resolves (H := Demo.collaborators) 0%Z (Demo.config "4h")
           (Demo.request "Basic Ym9iOnNlY3JldA==") {| Username := "bob"; Password := "secret" |});
    vm_compute; reflexivity.
Defined.

(** ** Verification on every request *)

Section Accepting.

Import GoStrings Base64 Jwt Base64Facts StringFacts TokenFacts Services.

Context `{Collaborators}.

(** Past the check of the prefix and of the length, the split header
    has a second piece. *)
Lemma bearerToken_cases (r : Http.Request) :
  let header := Http.Get (Http.RequestHeader r) "Authorization" in
  (negb (HasPrefix header "Bearer ") || (String.length header <? 8)%nat = true /\
   bearerToken r = Ret (Err (errorString ("Invalid Authorization Header: " ++ header)%string))) \/
  (negb (HasPrefix header "Bearer ") || (String.length header <? 8)%nat = false /\
   exists token, bearerToken r = Ret (Ok token)).
Proof.
  intros header. unfold bearerToken, bearerPrefix. fold header.
  destruct (negb _ || _) eqn:Hguard; [left; auto|right; split; [reflexivity|]].
  apply orb_false_iff in Hguard as [Hp Hlen]. apply negb_false_iff in Hp.
  remember header as bearer eqn:Hb. clear Hb header.
  assert (Hcut : cutAt "Bearer " bearer = Some ("", drop 7 bearer)).
  { unfold HasPrefix in Hp. destruct bearer as [|c s]; [discriminate|]. cbn [cutAt].
    rewrite Hp. reflexivity. }
  pose proof (cutAt_shorter "Bearer " _ _ _ ltac:(discriminate) Hcut) as Hshort.
  change (Split bearer "Bearer ") with (genSplit (Count bearer "Bearer ") "Bearer " bearer).
  unfold Count. destruct (String.length bearer) as [|n]; [lia|].
  cbn [countFrom genSplit]. rewrite Hcut. cbn [genSplit]. rewrite Hcut.
  destruct (genSplit _ _ (drop 7 bearer)) as [|b rest] eqn:Hg.
  - exfalso. exact (genSplit_nonempty _ _ _ Hg).
  - cbn. eauto.
Qed.

(** The three time checks of [StandardClaims.Valid]: either all pass
    and there is no error, or the error carries a flag. *)
Lemma StandardClaimsValid_cases (now : GoTime.Time) (c : StandardClaims) :
  (StandardClaimsValid now c = None /\
   verifyExp (ExpiresAt c) (GoTime.Unix now) false = true /\
   verifyIat (IssuedAt c) (GoTime.Unix now) false = true /\
   verifyNbf (NotBefore c) (GoTime.Unix now) false = true) \/
  (exists inner flags, StandardClaimsValid now c = Some (ValidationError inner flags "") /\
                       flags <> 0%N).
Proof.
  unfold StandardClaimsValid.
  destruct (verifyExp (ExpiresAt c) (GoTime.Unix now) false);
    destruct (verifyIat (IssuedAt c) (GoTime.Unix now) false);
    destruct (verifyNbf (NotBefore c) (GoTime.Unix now) false);
    cbn;
    first [ left; repeat split; reflexivity
          | right; do 2 eexists; split; [reflexivity|discriminate] ].
Qed.

(** An absent claim (zero) passes its check. *)
Lemma StandardClaimsValid_None (now : GoTime.Time) (c : StandardClaims) :
  StandardClaimsValid now c = None <->
  (ExpiresAt c = 0 \/ GoTime.Unix now <= ExpiresAt c)%Z /\
  (IssuedAt c = 0 \/ IssuedAt c <= GoTime.Unix now)%Z /\
  (NotBefore c = 0 \/ NotBefore c <= GoTime.Unix now)%Z.
Proof.
  assert (Hexp : verifyExp (ExpiresAt c) (GoTime.Unix now) false = true
                 <-> (ExpiresAt c = 0 \/ GoTime.Unix now <= ExpiresAt c)%Z).
  { unfold verifyExp. destruct (Z.eqb_spec (ExpiresAt c) 0); cbn [negb].
    - tauto.
    - rewrite Z.leb_le. tauto. }
  assert (Hiat : verifyIat (IssuedAt c) (GoTime.Unix now) false = true
                 <-> (IssuedAt c = 0 \/ IssuedAt c <= GoTime.Unix now)%Z).
  { unfold verifyIat. destruct (Z.eqb_spec (IssuedAt c) 0); cbn [negb].
    - tauto.
    - rewrite Z.leb_le. tauto. }
  assert (Hnbf : verifyNbf (NotBefore c) (GoTime.Unix now) false = true
                 <-> (NotBefore c = 0 \/ NotBefore c <= GoTime.Unix now)%Z).
  { unfold verifyNbf. destruct (Z.eqb_spec (NotBefore c) 0); cbn [negb].
    - tauto.
    - rewrite Z.leb_le. tauto. }
  rewrite <- Hexp, <- Hiat, <- Hnbf. split.
  - intros Hvalid.
    destruct (StandardClaimsValid_cases now c) as [(_ & H1 & H2 & H3)|(i & f & Hbad & _)];
      [auto|congruence].
  - intros (H1 & H2 & H3). unfold StandardClaimsValid. rewrite H1, H2, H3. reflexivity.
Qed.

Lemma GetSigningMethod_HMAC (alg name : string) (h : Hash) :
  GetSigningMethod alg = Some (SigningMethodHMAC name h) ->
  name = alg /\ In (alg, h) [("HS256", SHA256); ("HS384", SHA384); ("HS512", SHA512)].
Proof.
  unfold GetSigningMethod.
  destruct (String.eqb_spec alg "HS256") as [->|_];
    [intros E; injection E as <- <-; cbn; auto|].
  destruct (String.eqb_spec alg "HS384") as [->|_];
    [intros E; injection E as <- <-; cbn; auto|].
  destruct (String.eqb_spec alg "HS512") as [->|_];
    [intros E; injection E as <- <-; cbn; auto|].
  destruct (existsb _ _); [discriminate|].
  destruct (String.eqb alg "none"); discriminate.
Qed.

Lemma GetSigningMethod_table (alg : string) (h : Hash) :
  In (alg, h) [("HS256", SHA256); ("HS384", SHA384); ("HS512", SHA512)] ->
  GetSigningMethod alg = Some (SigningMethodHMAC alg h).
Proof.
  intros [E|[E|[E|[]]]]; injection E as <- <-; reflexivity.
Qed.

Lemma ParseUnverified_ok (token : string) (t : option Token) (parts : list string) :
  ParseUnverified token = (t, parts, None) ->
  exists p0 p1 p2 headerBytes header claimBytes claims alg method,
    parts = [p0; p1; p2] /\
    Split token "." = [p0; p1; p2] /\
    DecodeSegment p0 = (headerBytes, None) /\
    jsonUnmarshalHeader headerBytes = Ok header /\
    DecodeSegment p1 = (claimBytes, None) /\
    jsonDecodeClaims claimBytes = Ok claims /\
    header !! "alg" = Some alg /\
    GetSigningMethod alg = Some method /\
    t = Some {| Raw := token; Method := Some method; Header := header; Claims := claims;
                Signature := ""; Valid := false |}.
Proof.
  unfold ParseUnverified.
  destruct (Split token ".") as [|p0 [|p1 [|p2 [|p3 rest]]]] eqn:Hs; try discriminate.
  destruct (DecodeSegment p0) as [headerBytes [e|]] eqn:H0; [discriminate|].
  destruct (jsonUnmarshalHeader headerBytes) as [header|e] eqn:Hh; [|discriminate].
  destruct (DecodeSegment p1) as [claimBytes [e|]] eqn:H1; [discriminate|].
  destruct (jsonDecodeClaims claimBytes) as [claims|e] eqn:Hc; [|discriminate].
  destruct (header !! "alg") as [alg|] eqn:Ha; [|discriminate].
  destruct (GetSigningMethod alg) as [method|] eqn:Hm; [|discriminate].
  intros E. injection E as <- <-.
  exists p0, p1, p2, headerBytes, header, claimBytes, claims, alg, method.
  repeat split; assumption.
Qed.

Lemma Verify_ok (m : SigningMethod) (signingString signature key : string) :
  Verify m signingString signature key = None ->
  exists name h, m = SigningMethodHMAC name h /\
                 DecodeSegment signature = (hmacSum h key signingString, None).
Proof.
  unfold Verify. destruct m as [name h|name|]; [| |discriminate].
  - destruct (DecodeSegment signature) as [sig [e|]]; [discriminate|].
    destruct (String.eqb_spec sig (hmacSum h key signingString)) as [->|_]; [|discriminate].
    eauto.
  - destruct (DecodeSegment signature) as [sig [e|]]; discriminate.
Qed.

(** What [ParseWithClaims] has checked when it returns no error. *)
Lemma ParseWithClaims_accepted (now : GoTime.Time) (token key : string) (t : option Token) :
  ParseWithClaims now token key = (t, None) ->
  exists p0 p1 p2 headerBytes header claimBytes claims alg h,
    Split token "." = [p0; p1; p2] /\
    DecodeSegment p0 = (headerBytes, None) /\
    jsonUnmarshalHeader headerBytes = Ok header /\
    header !! "alg" = Some alg /\
    In (alg, h) [("HS256", SHA256); ("HS384", SHA384); ("HS512", SHA512)] /\
    DecodeSegment p1 = (claimBytes, None) /\
    jsonDecodeClaims claimBytes = Ok claims /\
    DecodeSegment p2 = (hmacSum h key (p0 ++ "." ++ p1)%string, None) /\
    StandardClaimsValid now (Standard claims) = None /\
    t = Some {| Raw := token; Method := Some (SigningMethodHMAC alg h); Header := header;
                Claims := claims; Signature := p2; Valid := true |}.
Proof.
  unfold ParseWithClaims.
  destruct (ParseUnverified token) as [[t0 parts] [e|]] eqn:Hparse;
    [destruct t0; discriminate|].
  destruct (ParseUnverified_ok token t0 parts Hparse)
    as (p0 & p1 & p2 & headerBytes & header & claimBytes & claims & alg & method
        & -> & Hs & H0 & Hh & H1 & Hc & Ha & Hm & ->).
  cbn [Claims Method Raw Header nth].
  destruct (StandardClaimsValid_cases now (Standard claims))
    as [(Hvalid & _)|(inner & flags & Hvalid & Hflags)]; rewrite Hvalid.
  - destruct (Verify method (p0 ++ "." ++ p1)%string p2 key) as [err|] eqn:Hv.
    + cbn. discriminate.
    + cbn. intros E. injection E as <-.
      destruct (Verify_ok _ _ _ _ Hv) as (name & h & -> & Hsig).
      destruct (GetSigningMethod_HMAC _ _ _ Hm) as [-> Hin].
      exists p0, p1, p2, headerBytes, header, claimBytes, claims, alg, h.
      repeat split; assumption.
  - destruct (Verify method (p0 ++ "." ++ p1)%string p2 key) as [err|].
    + destruct (N.eqb_spec (N.lor flags ValidationErrorSignatureInvalid) 0) as [E|_];
        [|discriminate].
      apply N.lor_eq_0_iff in E as [_ E]. discriminate E.
    + destruct (N.eqb_spec flags 0) as [E|_]; [contradiction|discriminate].
Qed.

(** And the converse. *)
Lemma ParseWithClaims_accepts (now : GoTime.Time) (token key : string)
  (p0 p1 p2 headerBytes : string) (header : gmap string string) (alg : string) (h : Hash)
  (claimBytes : string) (claims : AuthJWTClaims) :
  Split token "." = [p0; p1; p2] ->
  DecodeSegment p0 = (headerBytes, None) ->
  jsonUnmarshalHeader headerBytes = Ok header ->
  header !! "alg" = Some alg ->
  In (alg, h) [("HS256", SHA256); ("HS384", SHA384); ("HS512", SHA512)] ->
  DecodeSegment p1 = (claimBytes, None) ->
  jsonDecodeClaims claimBytes = Ok claims ->
  DecodeSegment p2 = (hmacSum h key (p0 ++ "." ++ p1)%string, None) ->
  StandardClaimsValid now (Standard claims) = None ->
  ParseWithClaims now token key
    = (Some {| Raw := token; Method := Some (SigningMethodHMAC alg h); Header := header;
               Claims := claims; Signature := p2; Valid := true |}, None).
Proof.
  intros Hs H0 Hh Ha Hin H1 Hc Hsig Hvalid.
  unfold ParseWithClaims, ParseUnverified.
  rewrite Hs, H0, Hh, H1, Hc, Ha, (GetSigningMethod_table alg h Hin).
  cbn [Claims Method Raw Header nth]. rewrite Hvalid.
  unfold Verify. rewrite Hsig, String.eqb_refl. reflexivity.
Qed.

(** An error of [ParseWithClaims] is a [*ValidationError]. *)
Lemma ParseWithClaims_error_shape (now : GoTime.Time) (token key : string)
  (t : option Token) (e : error) :
  ParseWithClaims now token key = (t, Some e) ->
  exists inner flags text, e = ValidationError inner flags text.
Proof.
  unfold ParseWithClaims.
  destruct (ParseUnverified token) as [[t0 parts] [e0|]] eqn:Hparse.
  - assert (Hshape : exists inner flags text, e0 = ValidationError inner flags text).
    { unfold ParseUnverified in Hparse.
      repeat match type of Hparse with
             | context [match ?x with _ => _ end] => destruct x
             end; inversion Hparse; subst; unfold NewValidationError; eauto. }
    destruct t0; intros E; injection E as <- <-; exact Hshape.
  - destruct t0 as [tok|]; [|discriminate].
    destruct (match StandardClaimsValid now (Standard (Claims tok)) with
              | Some (ValidationError inner flags _) => (inner, flags)
              | Some e => (Some e, ValidationErrorClaimsInvalid)
              | None => (None, 0%N)
              end) as [vInner vErrors].
    cbn [Method]. destruct (Method tok) as [m|].
    + destruct (Verify m _ _ key).
      * destruct (_ =? 0)%N; [discriminate|]. intros E. injection E as <- <-. eauto.
      * destruct (_ =? 0)%N; [discriminate|]. intros E. injection E as <- <-. eauto.
    + destruct (_ =? 0)%N; [discriminate|]. intros E. injection E as <- <-. eauto.
Qed.

(** With three segments the token pointer is never nil. *)
Lemma ParseWithClaims_token (now : GoTime.Time) (token key : string) (p0 p1 p2 : string) :
  Split token "." = [p0; p1; p2] ->
  exists tok e, ParseWithClaims now token key = (Some tok, e).
Proof.
  intros Hs. unfold ParseWithClaims.
  destruct (ParseUnverified token) as [[t0 parts] e0] eqn:Hparse.
  assert (Htok : exists tok, t0 = Some tok).
  { unfold ParseUnverified in Hparse. rewrite Hs in Hparse.
    repeat match type of Hparse with
           | context [match ?x with _ => _ end] => destruct x
           end; inversion Hparse; subst; eauto. }
  destruct Htok as [tok ->]. destruct e0 as [e0|]; [eauto|].
  destruct (match StandardClaimsValid now (Standard (Claims tok)) with
            | Some (ValidationError inner flags _) => (inner, flags)
            | Some e => (Some e, ValidationErrorClaimsInvalid)
            | None => (None, 0%N)
            end) as [vInner vErrors].
  cbn [Method]. destruct (Method tok) as [m|].
  - destruct (Verify m _ _ key); destruct (_ =? 0)%N; eauto.
  - destruct (_ =? 0)%N; eauto.
Qed.

Lemma replaceAt_get (i : nat) (c : ascii) (s : string) :
  (i < String.length s)%nat -> String.get i (replaceAt i c s) = Some c.
Proof.
  revert i. induction s as [|d s IH]; intros [|i] Hi; cbn [String.length] in Hi; try lia.
  - reflexivity.
  - cbn [replaceAt String.get]. apply IH. lia.
Qed.

End Accepting.

(** X16: [CurrentJWT] returns on every request, with the claims or with
    an error, never both and never neither. Reading the second piece of
    the split header cannot fail once the prefix was checked, and a
    token that the parser returns without an error is a valid one, so
    the last branch, which would call [Error] on a nil error, is never
    taken. *)
Theorem CurrentJWT_claims_or_error `{Collaborators} (now : GoTime.Time)
  (w : Http.ResponseWriter) (r : Http.Request) :
  (exists claims, Services.CurrentJWT now w r = Ret (Some claims, None)) \/
  (exists e, Services.CurrentJWT now w r = Ret (None, Some e)).
Proof.
  unfold Services.CurrentJWT.
  destruct (bearerToken_cases r) as [[_ ->]|[_ [token ->]]]; cbn [bind]; [eauto|].
  destruct (Jwt.ParseWithClaims now token signingKey) as [t [e|]] eqn:Hparse; [eauto|].
  destruct (ParseWithClaims_accepted now token signingKey t Hparse)
    as (p0 & p1 & p2 & hb & header & cb & claims & alg & h
        & _ & _ & _ & _ & _ & _ & _ & _ & _ & ->).
  left. exists claims. reflexivity.
Qed.

(** X17: the error that quotes the header is returned exactly when the
    Authorization header does not start with the bearer prefix or is
    shorter than 8 bytes; every other refusal comes from the token
    parser. *)
Theorem CurrentJWT_refuses_header `{Collaborators} (now : GoTime.Time)
  (w : Http.ResponseWriter) (r : Http.Request) :
  let header := Http.Get (Http.RequestHeader r) "Authorization" in
  Services.CurrentJWT now w r
    = Ret (None, Some (errorString ("Invalid Authorization Header: " ++ header)%string))
  <-> (GoStrings.HasPrefix header "Bearer " = false \/ (String.length header < 8)%nat).
Proof.
  intros header. unfold Services.CurrentJWT. split.
  - destruct (bearerToken_cases r) as [[Hguard _]|[Hguard [token ->]]]; fold header in Hguard.
    + intros _. apply orb_true_iff in Hguard as [Hp|Hlen].
      * left. apply negb_true_iff, Hp.
      * right. apply Nat.ltb_lt, Hlen.
    + cbn [bind].
      destruct (Jwt.ParseWithClaims now token signingKey) as [t [e|]] eqn:Hparse.
      * destruct (ParseWithClaims_error_shape now token signingKey t e Hparse)
          as (inner & flags & text & ->). discriminate.
      * destruct (ParseWithClaims_accepted now token signingKey t Hparse)
          as (p0 & p1 & p2 & hb & hd & cb & claims & alg & h
              & _ & _ & _ & _ & _ & _ & _ & _ & _ & ->).
        discriminate.
  - intros Hbad. rewrite (bearerToken_refuses r Hbad). reflexivity.
Qed.

(** X18: a bearer token that does not have exactly three segments is
    refused by [CurrentJWT] with the malformed-token error of the
    parser: the error is tested before the token pointer, which is nil
    here, is read. *)
Theorem CurrentJWT_wrong_segment_count `{Collaborators} (now : GoTime.Time)
  (w : Http.ResponseWriter) (r : Http.Request) (token : string) :
  Services.bearerToken r = Ret (Ok token) ->
  List.length (GoStrings.Split token ".") <> 3%nat ->
  Services.CurrentJWT now w r
    = Ret (None, Some (ValidationError None Jwt.ValidationErrorMalformed
                         "token contains an invalid number of segments")).
Proof.
  intros Hb Hlen. unfold Services.CurrentJWT. rewrite Hb. cbn [bind].
  rewrite ParseWithClaims_segments; [reflexivity|].
  intros p0 p1 p2 E. rewrite E in Hlen. apply Hlen. reflexivity.
Qed.

Lemma CurrentJWT_wrong_segment_count_witness :
  Services.CurrentJWT (H := Demo.collaborators) 0%Z Http.newResponse
    (Demo.request "Bearer header.payload")
    = Ret (None, Some (ValidationError None Jwt.ValidationErrorMalformed
                         "token contains an invalid number of segments")).
Proof.
  apply (CurrentJWT_wrong_segment_count (H := Demo.collaborators) 0%Z Http.newResponse
           (Demo.request "Bearer header.payload") "header.payload").
  - reflexivity.
  - vm_compute. discriminate.
Defined.

(** X19: what [VerifyJWT] does depends on the number of segments of the
    body and on nothing else. With exactly three it answers 200 with an
    empty body, whether the token is valid, expired, forged or not a
    token at all (the verdict is only logged); with any other number it
    faults on the nil token before it writes anything. *)
Theorem VerifyJWT_outcome `{Collaborators} (now : GoTime.Time)
  (w : Http.ResponseWriter) (r : Http.Request) :
  Services.VerifyJWT now w r =
    if (List.length (GoStrings.Split (Http.RequestBody r) ".") =? 3)%nat
    then (Http.WriteHeader Http.StatusOK w, Ret tt)
    else (w, Panic NilDereference).
Proof.
  destruct (Nat.eqb_spec (List.length (GoStrings.Split (Http.RequestBody r) ".")) 3)
    as [Hlen|Hlen].
  - destruct (GoStrings.Split (Http.RequestBody r) ".") as [|p0 [|p1 [|p2 [|p3 rest]]]] eqn:Hs;
      try discriminate Hlen.
    destruct (ParseWithClaims_token now (Http.RequestBody r) signingKey p0 p1 p2 Hs)
      as (tok & e & Hparse).
    unfold Services.VerifyJWT. rewrite Hparse. reflexivity.
  - unfold Services.VerifyJWT. rewrite ParseWithClaims_segments; [reflexivity|].
    intros p0 p1 p2 E. rewrite E in Hlen. apply Hlen. reflexivity.
Qed.

(** X20: which requests [CurrentJWT] accepts, and with which claims. It
    returns claims exactly when the token taken from the header has
    three segments, the first decodes to a JSON header whose [alg] is
    HS256, HS384 or HS512, the second decodes to the JSON of these
    claims, the third decodes to the HMAC, with the hash of that
    [alg], of the first two segments joined by a dot under the signing
    key, and each of the expiry, issued-at and not-before seconds of the
    claims is zero or in order with the current second. The method is
    the one the token names: nothing ties it to the HS512 of issuance,
    and no token is accepted under [none] or an asymmetric method. *)
Theorem CurrentJWT_accepts_exactly_signed_tokens `{Collaborators} (now : GoTime.Time)
  (w : Http.ResponseWriter) (r : Http.Request) (claims : AuthJWTClaims) :
  Services.CurrentJWT now w r = Ret (Some claims, None) <->
  exists token p0 p1 p2 headerBytes header alg h payload,
    Services.bearerToken r = Ret (Ok token) /\
    GoStrings.Split token "." = [p0; p1; p2] /\
    Jwt.DecodeSegment p0 = (headerBytes, None) /\
    jsonUnmarshalHeader headerBytes = Ok header /\
    header !! "alg" = Some alg /\
    In (alg, h) [("HS256", SHA256); ("HS384", SHA384); ("HS512", SHA512)] /\
    Jwt.DecodeSegment p1 = (payload, None) /\
    jsonDecodeClaims payload = Ok claims /\
    Jwt.DecodeSegment p2 = (hmacSum h signingKey (p0 ++ "." ++ p1)%string, None) /\
    (ExpiresAt (Standard claims) = 0 \/ GoTime.Unix now <= ExpiresAt (Standard claims))%Z /\
    (IssuedAt (Standard claims) = 0 \/ IssuedAt (Standard claims) <= GoTime.Unix now)%Z /\
    (NotBefore (Standard claims) = 0 \/ NotBefore (Standard claims) <= GoTime.Unix now)%Z.
Proof.
  unfold Services.CurrentJWT. split.
  - destruct (bearerToken_cases r) as [[_ ->]|[_ [token Hb]]]; cbn [bind]; [discriminate|].
    rewrite Hb. cbn [bind].
    destruct (Jwt.ParseWithClaims now token signingKey) as [t [e|]] eqn:Hparse; [discriminate|].
    destruct (ParseWithClaims_accepted now token signingKey t Hparse)
      as (p0 & p1 & p2 & hb & header & cb & claims' & alg & h
          & Hs & H0 & Hh & Ha & Hin & H1 & Hc & Hsig & Hvalid & ->).
    cbn. intros E. injection E as <-.
    apply StandardClaimsValid_None in Hvalid. destruct Hvalid as (Hexp & Hiat & Hnbf).
    exists token, p0, p1, p2, hb, header, alg, h, cb.
    repeat split; assumption.
  - intros (token & p0 & p1 & p2 & hb & header & alg & h & cb
            & Hb & Hs & H0 & Hh & Ha & Hin & H1 & Hc & Hsig & Hexp & Hiat & Hnbf).
    rewrite Hb. cbn [bind].
    rewrite (ParseWithClaims_accepts now token signingKey p0 p1 p2 hb header alg h cb claims
               Hs H0 Hh Ha Hin H1 Hc Hsig).
    + reflexivity.
    + apply StandardClaimsValid_None. auto.
Qed.

(** X21: the last character of the signature segment is not fully
    checked, whatever the HMAC and the JSON codec are. When the code has
    [3k + 1] bytes, as the 64 bytes of HS512 have, its segment ends in a
    character of which the decoder keeps two bits: there is another
    signature segment of the same length with which the issued header
    and payload are accepted by [CurrentJWT], until the expiry second,
    with the issued claims. *)
Theorem last_signature_character_slack `{Collaborators} (now later : GoTime.Time)
  (cfg : Config) (groups : list string) (username : string) (admin : bool) :
  let claims := Services.issuedClaims now cfg groups username admin in
  let signed := (Services.headerSegment ++ "." ++ Services.payloadSegment claims)%string in
  let sig := Services.signatureSegment signed in
  jsonUnmarshalHeader (jsonMarshalHeader (Jwt.headerOf Jwt.SigningMethodHS512))
    = Ok (Jwt.headerOf Jwt.SigningMethodHS512) ->
  jsonDecodeClaims (jsonMarshalClaims claims) = Ok claims ->
  (String.length (hmacSum SHA512 signingKey signed) mod 3 = 1)%nat ->
  (GoTime.Unix later <= Services.expiry now cfg)%Z ->
  exists sig',
    sig' <> sig /\
    String.length sig' = String.length sig /\
    forall (w : Http.ResponseWriter) (r : Http.Request),
      Http.Get (Http.RequestHeader r) "Authorization"
        = ("Bearer " ++ signed ++ "." ++ sig')%string ->
      Services.CurrentJWT later w r = Ret (Some claims, None).
Proof.
  intros claims signed sig Hheader Hclaims Hlen Htime.
  assert (Hpos : (0 < String.length sig)%nat).
  { unfold sig, Services.signatureSegment.
    destruct (hmacSum SHA512 signingKey signed) as [|r0 [|r1 [|r2 rest']]].
    - discriminate Hlen.
    - rewrite Base64Facts.EncodeSegment_1. cbn. lia.
    - rewrite Base64Facts.EncodeSegment_2. cbn. lia.
    - rewrite Base64Facts.EncodeSegment_cons3. cbn. lia. }
  destruct (get_within (String.length sig - 1) sig ltac:(lia)) as [c0 Hget].
  destruct (Base64.decodeMap Base64.URLEncoding c0) as [v0|] eqn:Hc0.
  2:{ pose proof (get_containsByte _ _ _ Hget) as Hin.
      pose proof (signatureSegment_without signed c0 Hc0) as Hout. fold sig in Hout.
      congruence. }
  destruct (Base64Facts.decodeMap_inv c0 v0 Hc0) as [Hv0 Henc0].
  destruct (slack_value v0 Hv0) as (v' & Hv' & Hne & Hslack).
  destruct (Base64Facts.table_entry v' Hv') as (Hc' & _ & _).
  set (c' := Base64.encodeByte Base64.URLEncoding v') in *.
  set (sig' := GoStrings.replaceAt (String.length sig - 1) c' sig).
  assert (Hfree : forall d, Base64.decodeMap Base64.URLEncoding d = None ->
                            GoStrings.containsByte sig' d = false).
  { intros d Hd. apply StringFacts.containsByte_replaceAt.
    - apply signatureSegment_without, Hd.
    - apply Ascii.eqb_neq. intros E. rewrite <- E in Hc'. congruence. }
  exists sig'. split; [|split].
  - intros E. apply (f_equal (String.get (String.length sig - 1))) in E.
    unfold sig' in E. rewrite replaceAt_get in E by lia. rewrite Hget in E.
    injection E as E. apply Hne. rewrite <- E in Hc0. congruence.
  - apply Base64Facts.replaceAt_length.
  - intros w r Hr. unfold Services.CurrentJWT.
    rewrite (bearerToken_issued r (signed ++ "." ++ sig')%string); [| | |exact Hr].
    + cbn [bind]. unfold signed, claims.
      rewrite (ParseWithClaims_issued now cfg groups username admin Hheader Hclaims later sig')
        by (apply Hfree; reflexivity).
      cbv zeta. fold claims signed.
      assert (Hv : Jwt.Verify Jwt.SigningMethodHS512 signed sig' signingKey = None).
      { unfold Jwt.Verify, Jwt.SigningMethodHS512, sig', sig, Services.signatureSegment.
        rewrite (Base64Facts.last_character_slack _ Hlen c0 c' v0 v' Hget Hc0 Hc' Hslack).
        rewrite String.eqb_refl. reflexivity. }
      rewrite Hv, verifyExp_before by exact Htime. reflexivity.
    + intros E. apply (f_equal String.length) in E.
      rewrite !StringFacts.length_append in E. cbn in E. lia.
    + unfold signed, Services.headerSegment, Services.payloadSegment.
      rewrite !StringFacts.containsByte_append, !TokenFacts.EncodeSegment_without by reflexivity.
      rewrite (Hfree " "%char eq_refl). reflexivity.
Qed.

Lemma last_signature_character_slack_witness :
  let now := 1700000000000000000%Z in
  let claims :=
    Services.issuedClaims (H := Demo.collaborators) now (Demo.config "4h")
      ["grp-ns-dev"] "alice" false in
  let signed :=
    (Services.headerSegment (H := Demo.collaborators) ++ "."
     ++ Services.payloadSegment (H := Demo.collaborators) claims)%string in
  let sig := Services.signatureSegment (H := Demo.collaborators) signed in
  exists sig',
    sig' <> sig /\
    String.length sig' = String.length sig /\
    forall (w : Http.ResponseWriter) (r : Http.Request),
      Http.Get (Http.RequestHeader r) "Authorization"
        = ("Bearer " ++ signed ++ "." ++ sig')%string ->
      Services.CurrentJWT (H := Demo.collaborators) now w r = Ret (Some claims, None).
Proof.
  apply (last_signature_character_slack (H := Demo.collaborators) 1700000000000000000%Z
           1700000000000000000%Z (Demo.config "4h") ["grp-ns-dev"] "alice" false).
  - vm_compute. reflexivity.
  - vm_compute. reflexivity.
  - vm_compute. reflexivity.
  - vm_compute. discriminate.
Defined.

(** ** Configuration loading *)

Module ValidationFacts.

Import Validation.

Lemma fieldErrors_nil (fields : list FieldRules) :
  fieldErrors fields = [] ->
  Forall (fun f => firstError (fieldRules f) (fieldValue f) = None) fields.
Proof.
  induction fields as [|f fields IH]; intros Hnil; [constructor|].
  cbn [fieldErrors] in Hnil.
  destruct (firstError (fieldRules f) (fieldValue f)) eqn:Hf; [discriminate|].
  constructor; [exact Hf|exact (IH Hnil)].
Qed.

(** No error: every listed field passes every rule given for it. *)
Lemma ValidateStruct_nil (fields : list FieldRules) :
  ValidateStruct fields = None ->
  Forall (fun f => firstError (fieldRules f) (fieldValue f) = None) fields.
Proof.
  unfold ValidateStruct. intros Hv. apply fieldErrors_nil.
  destruct (fieldErrors fields); [reflexivity|discriminate].
Qed.

Lemma required_ok (v : string) : firstError [Required] v = None -> v <> "".
Proof.
  cbn. destruct (String.eqb_spec v ""); [discriminate|auto].
Qed.

Lemma required_length_ok (v : string) :
  firstError [Required; Length 2 200] v = None -> (2 <= String.length v <= 200)%nat.
Proof.
  cbn -[Nat.ltb]. destruct (String.eqb v ""); [discriminate|].
  destruct (String.length v <? 2)%nat eqn:Hlo; [discriminate|].
  destruct (0 <? 200)%nat eqn:H0; [|discriminate H0].
  destruct (200 <? String.length v)%nat eqn:Hhi; [discriminate|].
  intros _. apply Nat.ltb_ge in Hlo, Hhi. lia.
Qed.

Lemma required_is_ok (name : string) (check : string -> bool) (v : string) :
  firstError [Required; Is name check] v = None -> v <> "" /\ check v = true.
Proof.
  cbn. destruct (String.eqb_spec v ""); [discriminate|].
  destruct (check v); [auto|discriminate].
Qed.

End ValidationFacts.

Section Loading.

Import Utils.

Context `{Startup}.

Ltac build_cases Hbuild :=
  repeat match type of Hbuild with
         | context [match ?x with _ => _ end] => destruct x eqn:?
         | context [if ?b then _ else _] => destruct b eqn:?
         | context [bind ?m _] => destruct m eqn:?; cbn [bind] in Hbuild
         | _ = _ => first [discriminate Hbuild | injection Hbuild as <- <-]
         end.

(** What the two structs hold when [buildConfig] returns them. *)
Lemma buildConfig_reads (env : gmap string string) (config : Config) (ldapConfig : LdapConfig) :
  buildConfig env = Ret (Ok (config, ldapConfig)) ->
  Getenv env "KUBERNETES_SERVICE_HOST" <> "" /\
  Getenv env "KUBERNETES_SERVICE_PORT" <> "" /\
  Ldap config = ldapConfig /\
  KubeToken config = fst (ReadFile TokenFile) /\
  KubeCaText config = fst (ReadFile TlsCaFile) /\
  KubeCa config = Base64.EncodeToString Base64.StdEncoding (KubeCaText config) /\
  pemHasCertificate (KubeCaText config) = true /\
  ApiServerTLSConfig config
    = {| InsecureSkipVerify := false;
         RootCAs := match SystemCertPool with Some pool => pool | None => [] end
                    ++ [KubeCaText config] |} /\
  ApiServerURL config
    = JoinHostPort (Getenv env "KUBERNETES_SERVICE_HOST") (Getenv env "KUBERNETES_SERVICE_PORT") /\
  UserBase ldapConfig = Getenv env "LDAP_USERBASE" /\
  GroupBase ldapConfig = Getenv env "LDAP_GROUPBASE" /\
  Host ldapConfig = Getenv env "LDAP_SERVER" /\
  BindDN ldapConfig = Getenv env "LDAP_BINDDN" /\
  BindPassword ldapConfig = Getenv env "LDAP_PASSWD".
Proof.
  unfold buildConfig. intros Hbuild.
  destruct (String.length (Getenv env "KUBERNETES_SERVICE_HOST") =? 0)%nat eqn:Hhost;
    [discriminate Hbuild|].
  destruct (String.length (Getenv env "KUBERNETES_SERVICE_PORT") =? 0)%nat eqn:Hport;
    [discriminate Hbuild|].
  cbn [orb] in Hbuild.
  assert (Hh : Getenv env "KUBERNETES_SERVICE_HOST" <> "")
    by (intros E; rewrite E in Hhost; discriminate Hhost).
  assert (Hp : Getenv env "KUBERNETES_SERVICE_PORT" <> "")
    by (intros E; rewrite E in Hport; discriminate Hport).
  destruct (ReadFile TokenFile) as [kubeToken errToken].
  destruct (check errToken); cbn [bind] in Hbuild; [|discriminate Hbuild].
  destruct (ReadFile TlsCaFile) as [kubeCA errCA].
  destruct (check errCA); cbn [bind] in Hbuild; [|discriminate Hbuild].
  destruct (pemHasCertificate kubeCA) eqn:Hpem; cbn [negb] in Hbuild; [|discriminate Hbuild].
  build_cases Hbuild.
  all: cbn; repeat split; auto.
Qed.

(** The four ways [MakeConfig] returns. *)
Lemma MakeConfig_cases (env : gmap string string) (c : option Config) (e : option error) :
  MakeConfig env = Ret (c, e) ->
  (c = None /\ e = Some ErrNotInCluster /\ buildConfig env = Ret (Err ErrNotInCluster)) \/
  (exists config ldapConfig,
     buildConfig env = Ret (Ok (config, ldapConfig)) /\
     ((c = None /\ e <> None /\ validateConfig config = e) \/
      (c = None /\ e = None /\ validateConfig config = None /\ validateLdap ldapConfig <> None) \/
      (c = Some config /\ e = None /\ validateConfig config = None /\
       validateLdap ldapConfig = None))).
Proof.
  unfold MakeConfig.
  destruct (buildConfig env) as [[[config ldapConfig]|err]|p] eqn:Hbuild; cbn [bind];
    [| |discriminate].
  - intros Hmake. right. exists config, ldapConfig. split; [reflexivity|].
    destruct (validateConfig config) as [e1|] eqn:Hcore.
    + injection Hmake as <- <-. left.
      split; [reflexivity|split; [discriminate|reflexivity]].
    + destruct (validateLdap ldapConfig) as [e2|] eqn:Hldap; injection Hmake as <- <-.
      * right. left.
        split; [reflexivity|split; [reflexivity|split; [reflexivity|discriminate]]].
      * right. right. split; [reflexivity|split; [reflexivity|split; reflexivity]].
  - intros Hmake. injection Hmake as <- <-. left.
    assert (err = ErrNotInCluster).
    { unfold buildConfig in Hbuild. build_cases Hbuild. all: try reflexivity.
      all: try congruence. }
    subst err. auto.
Qed.

End Loading.

(** X22: outside a cluster. When either of the two service variables is
    unset or empty, [MakeConfig] returns no configuration and the
    not-in-cluster error, before it reads a file or calls a helper that
    could end the process. *)
Theorem MakeConfig_outside_cluster `{Startup} (env : gmap string string) :
  Utils.Getenv env "KUBERNETES_SERVICE_HOST" = "" \/
  Utils.Getenv env "KUBERNETES_SERVICE_PORT" = "" ->
  Utils.MakeConfig env = Ret (None, Some Utils.ErrNotInCluster).
Proof.
  intros Hmissing. unfold Utils.MakeConfig, Utils.buildConfig.
  destruct Hmissing as [-> | ->]; [reflexivity|].
  rewrite orb_true_r. reflexivity.
Qed.

Lemma MakeConfig_outside_cluster_witness :
  Utils.MakeConfig (H := Demo.startup) (delete "KUBERNETES_SERVICE_PORT" Demo.env)
    = Ret (None, Some Utils.ErrNotInCluster).
Proof.
  apply (MakeConfig_outside_cluster (H := Demo.startup)). right. reflexivity.
Defined.

(** X23: a configuration that [MakeConfig] returns comes with no error
    and has passed both validations: the API server address, the
    service-account token and the encoded CA are not empty, the address
    is a URL and the CA is base64 for the two checks of the validation
    library, the LDAP host is not empty and is a URL, and the LDAP user
    base, group base, bind DN and bind password have between 2 and 200
    bytes. *)
Theorem MakeConfig_returns_validated_config `{Startup} (env : gmap string string)
  (cfg : Config) (e : option error) :
  Utils.MakeConfig env = Ret (Some cfg, e) ->
  e = None /\
  ApiServerURL cfg <> "" /\ isURL (ApiServerURL cfg) = true /\
  KubeToken cfg <> "" /\
  KubeCa cfg <> "" /\ isBase64 (KubeCa cfg) = true /\
  (2 <= String.length (UserBase (Ldap cfg)) <= 200)%nat /\
  (2 <= String.length (GroupBase (Ldap cfg)) <= 200)%nat /\
  Host (Ldap cfg) <> "" /\ isURL (Host (Ldap cfg)) = true /\
  (2 <= String.length (BindDN (Ldap cfg)) <= 200)%nat /\
  (2 <= String.length (BindPassword (Ldap cfg)) <= 200)%nat.
Proof.
  intros Hmake.
  destruct (MakeConfig_cases env _ _ Hmake)
    as [(Hc & _)|(config & ldapConfig & Hbuild & [(Hc & _)|[(Hc & _)|(Hc & He & Hcore & Hldap)]])];
    try discriminate Hc.
  injection Hc as <-.
  destruct (buildConfig_reads env cfg ldapConfig Hbuild) as (_ & _ & <- & _).
  apply ValidationFacts.ValidateStruct_nil in Hcore, Hldap.
  repeat match goal with
         | Hall : Forall _ (_ :: _) |- _ => inversion Hall; subst; clear Hall
         end.
  cbn [Validation.fieldRules Validation.fieldValue] in *.
  repeat match goal with
         | Hf : Validation.firstError [Validation.Required; Validation.Length 2 200] _ = None |- _ =>
             apply ValidationFacts.required_length_ok in Hf
         | Hf : Validation.firstError [Validation.Required; Validation.Is _ _] _ = None |- _ =>
             apply ValidationFacts.required_is_ok in Hf; destruct Hf
         | Hf : Validation.firstError [Validation.Required] _ = None |- _ =>
             apply ValidationFacts.required_ok in Hf
         end.
  repeat split; assumption || lia.
Qed.

Lemma MakeConfig_returns_validated_config_witness :
  let cfg := Demo.config "4h" in
  (None : option error) = None /\
  ApiServerURL cfg <> "" /\ isURL (Startup := Demo.startup) (ApiServerURL cfg) = true /\
  KubeToken cfg <> "" /\
  KubeCa cfg <> "" /\ isBase64 (Startup := Demo.startup) (KubeCa cfg) = true /\
  (2 <= String.length (UserBase (Ldap cfg)) <= 200)%nat /\
  (2 <= String.length (GroupBase (Ldap cfg)) <= 200)%nat /\
  Host (Ldap cfg) <> "" /\ isURL (Startup := Demo.startup) (Host (Ldap cfg)) = true /\
  (2 <= String.length (BindDN (Ldap cfg)) <= 200)%nat /\
  (2 <= String.length (BindPassword (Ldap cfg)) <= 200)%nat.
Proof.
  apply (MakeConfig_returns_validated_config (H := Demo.startup) Demo.env (Demo.config "4h") None).
  vm_compute. reflexivity.
Defined.

(** X24: the certificate authority of a returned configuration. The
    text kept is what was read from the CA file, the encoded form kept
    beside it decodes back to that text with no error, the text held a
    certificate, it is in the pool of roots of the TLS configuration,
    and certificate verification is not skipped. *)
Theorem MakeConfig_certificate_authority `{Startup} (env : gmap string string) (cfg : Config) :
  Utils.MakeConfig env = Ret (Some cfg, None) ->
  KubeCaText cfg = fst (ReadFile TlsCaFile) /\
  Base64.DecodeString Base64.StdEncoding (KubeCa cfg) = (KubeCaText cfg, None) /\
  pemHasCertificate (KubeCaText cfg) = true /\
  In (KubeCaText cfg) (RootCAs (ApiServerTLSConfig cfg)) /\
  InsecureSkipVerify (ApiServerTLSConfig cfg) = false.
Proof.
  intros Hmake.
  destruct (MakeConfig_cases env _ _ Hmake)
    as [(Hc & _)|(config & ldapConfig & Hbuild & [(Hc & _)|[(Hc & _)|(Hc & _)]])];
    try discriminate Hc.
  injection Hc as <-.
  destruct (buildConfig_reads env cfg ldapConfig Hbuild)
    as (_ & _ & _ & _ & Htext & Hca & Hpem & Htls & _).
  split; [exact Htext|]. split.
  { rewrite Hca. apply StdFacts.decode_encode_Std. }
  split; [exact Hpem|]. rewrite Htls. cbn [RootCAs InsecureSkipVerify]. split; [|reflexivity].
  apply in_or_app. right. left. reflexivity.
Qed.

Lemma MakeConfig_certificate_authority_witness :
  let cfg := Demo.config "4h" in
  KubeCaText cfg = fst (ReadFile (Startup := Demo.startup) (TlsCaFile (Startup := Demo.startup))) /\
  Base64.DecodeString Base64.StdEncoding (KubeCa cfg) = (KubeCaText cfg, None) /\
  pemHasCertificate (Startup := Demo.startup) (KubeCaText cfg) = true /\
  In (KubeCaText cfg) (RootCAs (ApiServerTLSConfig cfg)) /\
  InsecureSkipVerify (ApiServerTLSConfig cfg) = false.
Proof.
  apply (MakeConfig_certificate_authority (H := Demo.startup) Demo.env (Demo.config "4h")).
  vm_compute. reflexivity.
Defined.

(** X25: how [MakeConfig] returns, when it returns. A configuration
    never comes with an error. No configuration and no error is
    returned only when the structs were built, the core validation
    passed and the LDAP validation failed. A configuration is returned
    only when the structs were built and both validations passed. *)
Theorem MakeConfig_outcomes `{Startup} (env : gmap string string)
  (c : option Config) (e : option error) :
  Utils.MakeConfig env = Ret (c, e) ->
  (c <> None -> e = None) /\
  (c = None -> e = None ->
   exists config ldapConfig,
     Utils.buildConfig env = Ret (Ok (config, ldapConfig)) /\
     Utils.validateConfig config = None /\
     Utils.validateLdap ldapConfig <> None) /\
  (forall cfg, c = Some cfg ->
   exists ldapConfig,
     Utils.buildConfig env = Ret (Ok (cfg, ldapConfig)) /\
     Utils.validateConfig cfg = None /\
     Utils.validateLdap ldapConfig = None).
Proof.
  intros Hmake.
  destruct (MakeConfig_cases env _ _ Hmake)
    as [(Hc & He & _)
       |(config & ldapConfig & Hbuild
         & [(Hc & He & _)|[(Hc & He & Hcore & Hldap)|(Hc & He & Hcore & Hldap)]])];
    subst c; (split; [|split]).
  all: try (intros; congruence).
  - intros _ _. eauto.
  - intros cfg E. injection E as <-. eauto.
Qed.

Lemma MakeConfig_outcomes_witness :
  exists config ldapConfig,
    Utils.buildConfig (H := Demo.startup) (delete "LDAP_PASSWD" Demo.env)
      = Ret (Ok (config, ldapConfig)) /\
    Utils.validateConfig (H := Demo.startup) config = None /\
    Utils.validateLdap (H := Demo.startup) ldapConfig <> None.
Proof.
  destruct (MakeConfig_outcomes (H := Demo.startup) (delete "LDAP_PASSWD" Demo.env) None None)
    as (_ & Hnil & _); [vm_compute; reflexivity|].
  apply Hnil; reflexivity.
Defined.

(** X26: the transport settings of the directory. Without [LDAP_PORT]
    in the environment the port, the SSL flag and the skip-verification
    flag are what the three variables with defaults parse to, and
    [LDAP_SKIP_TLS] is not looked at. With [LDAP_PORT] set, the port is
    what that text parses to; if moreover [LDAP_SKIP_TLS] is [false],
    then on port 636 SSL is switched on and verification is not
    skipped, whatever [LDAP_USE_SSL] and [LDAP_SKIP_TLS_VERIFICATION]
    say, and on port 389 verification is not skipped; otherwise the two
    flags are as parsed. *)
Theorem buildConfig_ldap_transport `{Startup} (env : gmap string string)
  (config : Config) (ldapConfig : LdapConfig) :
  Utils.buildConfig env = Ret (Ok (config, ldapConfig)) ->
  (Utils.Getenv env "LDAP_PORT" = "" ->
   Port ldapConfig = fst (Strconv.Atoi (getEnv env "LDAP_PORT" "389")) /\
   UseSSL ldapConfig = fst (Strconv.ParseBool (getEnv env "LDAP_USE_SSL" "false")) /\
   SkipTLSVerification ldapConfig
     = fst (Strconv.ParseBool (getEnv env "LDAP_SKIP_TLS_VERIFICATION" "true"))) /\
  (Utils.Getenv env "LDAP_PORT" <> "" ->
   Port ldapConfig = fst (Strconv.Atoi (Utils.Getenv env "LDAP_PORT")) /\
   (Utils.Getenv env "LDAP_SKIP_TLS" = "false" -> Port ldapConfig = 636%Z ->
    UseSSL ldapConfig = true /\ SkipTLSVerification ldapConfig = false) /\
   (Utils.Getenv env "LDAP_SKIP_TLS" = "false" -> Port ldapConfig = 389%Z ->
    UseSSL ldapConfig = fst (Strconv.ParseBool (getEnv env "LDAP_USE_SSL" "false")) /\
    SkipTLSVerification ldapConfig = false) /\
   (Utils.Getenv env "LDAP_SKIP_TLS" <> "false" \/
    (Port ldapConfig <> 389%Z /\ Port ldapConfig <> 636%Z) ->
    UseSSL ldapConfig = fst (Strconv.ParseBool (getEnv env "LDAP_USE_SSL" "false")) /\
    SkipTLSVerification ldapConfig
      = fst (Strconv.ParseBool (getEnv env "LDAP_SKIP_TLS_VERIFICATION" "true")))).
Proof.
  unfold Utils.buildConfig. intros Hbuild.
  destruct (_ || _); [discriminate Hbuild|].
  destruct (ReadFile TokenFile) as [kubeToken errToken].
  destruct (check errToken); cbn [bind] in Hbuild; [|discriminate Hbuild].
  destruct (ReadFile TlsCaFile) as [kubeCA errCA].
  destruct (check errCA); cbn [bind] in Hbuild; [|discriminate Hbuild].
  destruct (negb (pemHasCertificate kubeCA)); [discriminate Hbuild|].
  destruct (Strconv.Atoi (getEnv env "LDAP_PORT" "389")) as [port0 e0].
  destruct (checkf e0 _); cbn [bind] in Hbuild; [|discriminate Hbuild].
  destruct (Strconv.ParseBool (getEnv env "LDAP_USE_SSL" "false")) as [ssl0 e1].
  destruct (checkf e1 _); cbn [bind] in Hbuild; [|discriminate Hbuild].
  destruct (Strconv.ParseBool (getEnv env "LDAP_SKIP_TLS_VERIFICATION" "true")) as [skip0 e2].
  destruct (checkf e2 _); cbn [bind] in Hbuild; [|discriminate Hbuild].
  destruct (Strconv.ParseBool (getEnv env "LDAP_START_TLS" "false")) as [start0 e3].
  destruct (checkf e3 _); cbn [bind] in Hbuild; [|discriminate Hbuild].
  cbn [fst].
  destruct (Utils.Getenv env "LDAP_PORT") as [|c port] eqn:Hport.
  - cbn in Hbuild. injection Hbuild as <- <-. cbn. split; [auto|congruence].
  - cbn [String.length Nat.ltb Nat.leb] in Hbuild.
    destruct (Strconv.Atoi (String c port)) as [port1 e4].
    destruct (check e4); cbn [bind] in Hbuild; [|discriminate Hbuild].
    cbn [fst]. split; [discriminate|]. intros _.
    destruct (String.eqb_spec (Utils.Getenv env "LDAP_SKIP_TLS") "false") as [Hskip|Hskip];
      destruct (Z.eqb_spec port1 636) as [H636|H636];
      destruct (Z.eqb_spec port1 389) as [H389|H389];
      cbn in Hbuild; injection Hbuild as <- <-; cbn;
      repeat split; intros; try reflexivity; try congruence; try lia; try tauto.
Qed.

Lemma buildConfig_ldap_transport_witness :
  let env := <["LDAP_SKIP_TLS" := "false"]> (<["LDAP_PORT" := "636"]> Demo.env) in
  exists config ldapConfig,
    Utils.buildConfig (H := Demo.startup) env = Ret (Ok (config, ldapConfig)) /\
    Port ldapConfig = 636%Z /\ UseSSL ldapConfig = true /\
    SkipTLSVerification ldapConfig = false.
Proof.
  cbv zeta.
  eassert (Hbuild : Utils.buildConfig (H := Demo.startup)
                      (<["LDAP_SKIP_TLS" := "false"]> (<["LDAP_PORT" := "636"]> Demo.env))
                    = Ret (Ok (_, _))) by (vm_compute; reflexivity).
  destruct (buildConfig_ldap_transport (H := Demo.startup) _ _ _ Hbuild) as [_ Hset].
  destruct Hset as (Hport & H636 & _); [vm_compute; discriminate|].
  destruct H636 as [Hssl Hskip]; [reflexivity|exact Hport|].
  eexists _, _. split; [exact Hbuild|]. split; [exact Hport|]. split; [exact Hssl|exact Hskip].
Defined.

(** ** From the header to the token, from the endpoint to the verifier *)

(** X27: the token [CurrentJWT] takes from the header, on every request.
    A header that does not start with the bearer prefix, or is shorter
    than 8 bytes, gives the error. Otherwise the token is what follows
    the prefix up to the next occurrence of the prefix, or up to the end
    of the header when the prefix does not occur again; reading the
    second piece of the split never fails. *)
Theorem bearerToken_outcome (r : Http.Request) :
  let header := Http.Get (Http.RequestHeader r) "Authorization" in
  Services.bearerToken r =
    if negb (GoStrings.HasPrefix header "Bearer ") || (String.length header <? 8)%nat
    then Ret (Err (errorString ("Invalid Authorization Header: " ++ header)%string))
    else Ret (Ok (match GoStrings.cutAt "Bearer " (GoStrings.drop 7 header) with
                  | Some (token, _) => token
                  | None => GoStrings.drop 7 header
                  end)).
Proof.
  intros header. unfold Services.bearerToken, Services.bearerPrefix. fold header.
  destruct (negb _ || _) eqn:Hguard; [reflexivity|].
  apply orb_false_iff in Hguard as [Hp Hlen]. apply negb_false_iff in Hp.
  apply Nat.ltb_ge in Hlen.
  remember header as bearer eqn:Hb. clear Hb header.
  assert (Hcut : GoStrings.cutAt "Bearer " bearer = Some ("", GoStrings.drop 7 bearer)).
  { unfold GoStrings.HasPrefix in Hp. destruct bearer as [|c s]; [discriminate|].
    cbn [GoStrings.cutAt]. rewrite Hp. reflexivity. }
  change (GoStrings.Split bearer "Bearer ")
    with (GoStrings.genSplit (GoStrings.Count bearer "Bearer ") "Bearer " bearer).
  unfold GoStrings.Count.
  destruct (String.length bearer) as [|[|n]] eqn:Hn; [lia|lia|].
  cbn [GoStrings.countFrom GoStrings.genSplit]. rewrite Hcut.
  cbn [GoStrings.genSplit]. rewrite Hcut.
  destruct (GoStrings.cutAt "Bearer " (GoStrings.drop 7 bearer)) as [[token rest]|] eqn:Hnext;
    cbn [GoStrings.genSplit]; rewrite ?Hnext; reflexivity.
Qed.

(** X28: from the raw-token endpoint to the verifier. When the
    credentials are extracted, the directory authenticates the user and
    returns the groups, and the JSON codec reads back the header and the
    claims it wrote, the body [GenerateJWT] serves, sent back after the
    bearer prefix no later than the expiry second, is accepted by
    [CurrentJWT] with the user name of the credentials, the admin flag
    of the directory and the grants of those groups. *)
Theorem served_token_authenticates `{Collaborators} (now later : GoTime.Time) (cfg : Config)
  (r : Http.Request) (auth : Auth) (dn : string) (groups : list string) :
  let claims :=
    Services.issuedClaims now cfg groups (Username auth) (HasAdminAccess dn) in
  Services.basicAuth r = Ret (None, Some auth) ->
  AuthenticateUser (Username auth) (Password auth) = (Some dn, None) ->
  GetUserGroups dn = (groups, None) ->
  jsonUnmarshalHeader (jsonMarshalHeader (Jwt.headerOf Jwt.SigningMethodHS512))
    = Ok (Jwt.headerOf Jwt.SigningMethodHS512) ->
  jsonDecodeClaims (jsonMarshalClaims claims) = Ok claims ->
  (GoTime.Unix later <= Services.expiry now cfg)%Z ->
  exists w,
    Services.GenerateJWT now (Some cfg) Http.newResponse r = (w, Ret tt) /\
    forall (w' : Http.ResponseWriter) (r' : Http.Request),
      Http.Get (Http.RequestHeader r') "Authorization" = ("Bearer " ++ Http.body w)%string ->
      exists verified,
        Services.CurrentJWT later w' r' = Ret (Some verified, None) /\
        User verified = Username auth /\
        AdminAccess verified = HasAdminAccess dn /\
        Auths verified = GetUserNamespaces groups.
Proof.
  intros claims Hauth Hldap Hgroups Hheader Hclaims Htime.
  exists (Http.Write (Services.issuedToken now cfg groups (Username auth) (HasAdminAccess dn))
            (Http.WriteHeader Http.StatusOK Http.newResponse)).
  split.
  - unfold Services.GenerateJWT, Services.baseGenerateToken.
    rewrite Hauth. cbn [deref]. rewrite Hldap. cbn [deref bind]. rewrite Hgroups.
    rewrite generateUserToken_issues. reflexivity.
  - intros w' r' Hr'. exists claims.
    change (Http.body _)
      with (Services.issuedToken now cfg groups (Username auth) (HasAdminAccess dn)) in Hr'.
    rewrite (CurrentJWT_issued now later cfg groups (Username auth) (HasAdminAccess dn)
               w' r' Hheader Hclaims Hr').
    rewrite verifyExp_before by exact Htime. repeat split.
Qed.

Lemma served_token_authenticates_witness :
  exists w,
    Services.GenerateJWT (H := Demo.collaborators) 1700000000000000000%Z
      (Some (Demo.config "4h")) Http.newResponse (Demo.request "Basic Ym9iOnNlY3JldA==")
      = (w, Ret tt) /\
    forall (w' : Http.ResponseWriter) (r' : Http.Request),
      Http.Get (Http.RequestHeader r') "Authorization" = ("Bearer " ++ Http.body w)%string ->
      exists verified,
        Services.CurrentJWT (H := Demo.collaborators) 1700000060000000000%Z w' r'
          = Ret (Some verified, None) /\
        User verified = "bob" /\
        AdminAccess verified = false /\
        Auths verified = Demo.mapper ["grp-ns-test"].
Proof.
  apply (served_token_authenticates (H := Demo.collaborators) 1700000000000000000%Z
           1700000060000000000%Z (Demo.config "4h") (Demo.request "Basic Ym9iOnNlY3JldA==")
           {| Username := "bob"; Password := "secret" |} Demo.bobDN ["grp-ns-test"]).
  - reflexivity.
  - reflexivity.
  - reflexivity.
  - vm_compute. reflexivity.
  - vm_compute. reflexivity.
  - vm_compute. discriminate.
Defined.
